(** * A shallow embedding of the tourism data-access layer

    Sources embedded here:
    - [src/lib/api/tour-api.ts]   : credential lookup, URL building, the
      retrying fetcher, the response normaliser and the endpoint clients;
    - [src/lib/api/stats-api.ts]  : region / type statistics and the summary;
    - [src/lib/types/stats.ts]    : the fixed enumeration of content types;
    - the detail page ([PlaceDetailContent]) : the recommendation block.

    Conventions.
    - A JavaScript [throw] is an [Outcome] of the form [Thrown e]; code that
      also has effects runs in the state-and-exception monad [M S].
    - Integers that the code handles as JS numbers (status codes, retry
      counters, counts) are [Z]; only the percentage of the type statistics
      leaves the integers, and it is computed on binary64 floats, a count
      being the double nearest to it (itself, below 2^53).
    - [console.log] / [console.error] calls are left out: they never change
      the control flow nor a returned value. *)

From Stdlib Require Import ZArith List String Ascii Bool Lia.
From Stdlib Require Import Permutation Sorted.
From Stdlib Require Import PrimFloat SpecFloat FloatOps DecimalString.
Import ListNotations.
Open Scope string_scope.
Open Scope list_scope.
Open Scope Z_scope.

Set Warnings "-register-all".

Local Infix "+++" := String.append (at level 60, right associativity).

(* ================================================================== *)
(** * JavaScript values used by the client *)

(** [String(n)] for an integer number. *)
Definition showZ (z : Z) : string := NilZero.string_of_int (Z.to_int z).

(** [hay.includes(needle)] *)
Fixpoint includes (needle hay : string) : bool :=
  String.prefix needle hay ||
  match hay with
  | EmptyString => false
  | String _ rest => includes needle rest
  end.

(** Truthiness of an optional string (undefined and the empty string are
    falsy). *)
Definition truthy (v : option string) : bool :=
  match v with
  | Some s => negb (String.eqb s "")
  | None => false
  end.

(** What can be thrown: the client's own [TourApiError] (message, optional
    status code, optional original error) or any other [Error]. *)
Inductive Exn : Type :=
| TourApiError (message : string) (statusCode : option Z)
               (originalError : option Exn)
| JsError (message : string).

Definition exn_message (e : Exn) : string :=
  match e with
  | TourApiError m _ _ => m
  | JsError m => m
  end.

(** [error instanceof TourApiError] *)
Definition isTourApiError (e : Exn) : bool :=
  match e with
  | TourApiError _ _ _ => true
  | JsError _ => false
  end.

(** [error.statusCode] ([None] for undefined, also on a plain [Error]). *)
Definition statusCode (e : Exn) : option Z :=
  match e with
  | TourApiError _ c _ => c
  | JsError _ => None
  end.

Inductive Outcome (A : Type) : Type :=
| Returned (a : A)
| Thrown (e : Exn).
Arguments Returned {A} a.
Arguments Thrown {A} e.

(* ================================================================== *)
(** * State and exception monad *)

Definition M (S A : Type) : Type := S -> Outcome A * S.

Definition ret {S A} (a : A) : M S A := fun s => (Returned a, s).

Definition throw {S A} (e : Exn) : M S A := fun s => (Thrown e, s).

Definition bind {S A B} (m : M S A) (k : A -> M S B) : M S B :=
  fun s =>
    match m s with
    | (Returned a, s') => k a s'
    | (Thrown e, s') => (Thrown e, s')
    end.

(** [try { m } catch (error) { h error }]: the state reached when the
    exception was raised is the one the handler starts from. *)
Definition try_catch {S A} (m : M S A) (h : Exn -> M S A) : M S A :=
  fun s =>
    match m s with
    | (Returned a, s') => (Returned a, s')
    | (Thrown e, s') => h e s'
    end.

(** A computation that may throw but has no effect. *)
Definition lift {S A} (o : Outcome A) : M S A := fun s => (o, s).

Notation "x <- m ;; k" := (bind m (fun x => k))
  (at level 61, m at next level, right associativity).
Notation "m ;;; k" := (bind m (fun _ => k))
  (at level 61, right associativity).

(** The catch block shared by every exported function:
    [if (error instanceof TourApiError) throw error;
     throw new TourApiError(`${prefix}: ${error.message}`, undefined, error)] *)
Definition rethrowWrapped {S A} (prefix : string) (error : Exn) : M S A :=
  if isTourApiError error then throw error
  else throw (TourApiError (prefix +++ ": " +++ exn_message error)
                           None (Some error)).

(* ================================================================== *)
(** * tour-api.ts : configuration and URLs *)

Definition BASE_URL : string := "https://apis.data.go.kr/B551011/KorService2".

(** [process.env] as far as the client reads it, and whether the code runs
    on the server ([typeof window === "undefined"]). *)
Record Env : Type := {
  serverSide : bool;
  TOUR_API_KEY : option string;
  NEXT_PUBLIC_TOUR_API_KEY : option string
}.

Definition missingKeyMessage : string :=
  "Tour API key is missing. Please set TOUR_API_KEY or NEXT_PUBLIC_TOUR_API_KEY environment variable.".

Definition getApiKey (env : Env) : Outcome string :=
  let serverKey := if serverSide env then TOUR_API_KEY env else None in
  let publicKey := NEXT_PUBLIC_TOUR_API_KEY env in
  (* serverKey || publicKey *)
  let apiKey := if truthy serverKey then serverKey else publicKey in
  if negb (truthy apiKey) then
    Thrown (TourApiError missingKeyMessage None None)
  else
    match apiKey with
    | Some k => Returned k
    | None => Thrown (TourApiError missingKeyMessage None None)
    end.

(** Values of a request-parameter object. *)
Inductive ParamValue : Type :=
| PUndefined
| PNull
| PString (s : string)
| PNumber (n : Z).

(** A parameter object: its own properties in insertion order. *)
Definition ParamObject : Type := list (string * ParamValue).

Definition getCommonParams (env : Env) : Outcome ParamObject :=
  match getApiKey env with
  | Returned key =>
      Returned [ ("serviceKey", PString key);
                 ("MobileOS", PString "ETC");
                 ("MobileApp", PString "MyTrip");
                 ("_type", PString "json") ]%string
  | Thrown e => Thrown e
  end.

Fixpoint setKey (k : string) (v : ParamValue) (o : ParamObject) : ParamObject :=
  match o with
  | [] => [(k, v)]
  | (k', v') :: rest =>
      if String.eqb k k' then (k', v) :: rest else (k', v') :: setKey k v rest
  end.

(** [{ ...a, ...b }]: a later property overwrites an earlier one in place,
    a new one is appended. *)
Definition spread (a b : ParamObject) : ParamObject :=
  fold_left (fun acc kv => setKey (fst kv) (snd kv) acc) b a.

(** [String(value)] on the parameters that survive the filter. *)
Definition stringOfParam (v : ParamValue) : option string :=
  match v with
  | PUndefined | PNull => None
  | PString s => Some s
  | PNumber n => Some (showZ n)
  end.

Fixpoint filterParams (o : ParamObject) : list (string * string) :=
  match o with
  | [] => []
  | (k, v) :: rest =>
      match stringOfParam v with
      | Some s => (k, s) :: filterParams rest
      | None => filterParams rest
      end
  end.

(** A URL [`${BASE_URL}${endpoint}?${queryString}`], kept as its path and
    the ordered query parameters that [URLSearchParams] serialises. *)
Record Url : Type := {
  path : string;
  query : list (string * string)
}.

Definition buildUrl (env : Env) (endpoint : string) (params : ParamObject)
  : Outcome Url :=
  match getCommonParams env with
  | Returned commonParams =>
      let allParams := spread commonParams params in
      let filteredParams := filterParams allParams in
      Returned {| path := BASE_URL +++ endpoint; query := filteredParams |}
  | Thrown e => Thrown e
  end.

(* ================================================================== *)
(** * tour-api.ts : the wire format *)

(** [ListResponse<T>] *)
Record ListResponse (T : Type) : Type := {
  items : list T;
  totalCount : Z;
  lr_pageNo : option Z;
  lr_numOfRows : option Z
}.
Arguments items {T} _.
Arguments totalCount {T} _.
Arguments lr_pageNo {T} _.
Arguments lr_numOfRows {T} _.

(** [value || fallback] on an optional number: undefined and 0 are falsy. *)
Definition orElse (value : option Z) (fallback : Z) : Z :=
  match value with
  | Some 0 | None => fallback
  | Some n => n
  end.

(** [{ a = fallback } = params]: the default applies to undefined only. *)
Definition withDefault (value : option Z) (fallback : Z) : Z :=
  match value with
  | Some n => n
  | None => fallback
  end.

Definition optString (v : option string) : ParamValue :=
  match v with
  | Some s => PString s
  | None => PUndefined
  end.

Definition optNumber (v : option Z) : ParamValue :=
  match v with
  | Some n => PNumber n
  | None => PUndefined
  end.

(** The parameter interfaces.  A record is turned into the object the
    caller passes with its properties in declaration order. *)
Record GetAreaCodeParams : Type := {
  ac_numOfRows : option Z;
  ac_pageNo : option Z;
  ac_areaCode : option string
}.

Record GetAreaBasedListParams : Type := {
  areaCode : option string;
  contentTypeId : option string;
  numOfRows : option Z;
  pageNo : option Z;
  sigunguCode : option string;
  cat1 : option string;
  cat2 : option string;
  cat3 : option string
}.

Record SearchKeywordParams : Type := {
  keyword : string;
  sk_areaCode : option string;
  sk_contentTypeId : option string;
  sk_numOfRows : option Z;
  sk_pageNo : option Z
}.

Record GetDetailCommonParams : Type := {
  dc_contentId : string;
  dc_contentTypeId : option string;
  defaultYN : option string;
  firstImageYN : option string;
  areacodeYN : option string;
  catcodeYN : option string;
  addrinfoYN : option string;
  mapinfoYN : option string;
  overviewYN : option string
}.

Record GetDetailIntroParams : Type := {
  di_contentId : string;
  di_contentTypeId : string
}.

Record GetDetailImageParams : Type := {
  im_contentId : string;
  imageYN : option string;
  subImageYN : option string
}.

Record GetDetailPetTourParams : Type := {
  pt_contentId : string
}.

Section Client.

(** The JSON objects the provider sends as items.  TypeScript's item types
    are erased at run time, so one type stands for all of them here. *)
Variable Item : Type.

(** [data.response?.body?.items?.item]: absent anywhere along the chain
    (undefined), null, one bare object, or an array. *)
Inductive ItemField : Type :=
| ItemUndefined
| ItemNull
| ItemObject (x : Item)
| ItemArray (xs : list Item).

(** The envelope [{ response: { body: { items: { item }, totalCount?,
    numOfRows?, pageNo? } } }]. *)
Record ApiResponse : Type := {
  item : ItemField;
  body_totalCount : option Z;
  body_numOfRows : option Z;
  body_pageNo : option Z
}.

(** What [response.json()] gives: the parsed envelope, or a rejection. *)
Inductive JsonBody : Type :=
| JsonOk (data : ApiResponse)
| JsonInvalid (message : string).

Record Response : Type := {
  status : Z;
  statusText : string;
  body : JsonBody
}.

(** [response.ok] *)
Definition ok (r : Response) : bool := (200 <=? status r) && (status r <=? 299).

Definition json {S} (r : Response) : M S ApiResponse :=
  match body r with
  | JsonOk data => ret data
  | JsonInvalid m => throw (JsError m)
  end.

(** One call of [fetch]: a response (of any status) or a transport error. *)
Inductive NetOutcome : Type :=
| NetResponse (r : Response)
| NetFailure (message : string).

(** What the fetcher does to the outside world, in order. *)
Inductive Event : Type :=
| EvFetch (url : Url)
| EvSleep (ms : Z).

Definition Trace : Type := list Event.

Fixpoint attempts (t : Trace) : nat :=
  match t with
  | [] => O
  | EvFetch _ :: rest => S (attempts rest)
  | EvSleep _ :: rest => attempts rest
  end.

(** The network: the answer to the n-th request ever issued (counting from
    zero), which may depend on the URL. *)
Variable network : nat -> Url -> NetOutcome.

Definition fetch (url : Url) : M Trace Response :=
  fun t =>
    (match network (attempts t) url with
     | NetResponse r => Returned r
     | NetFailure m => Thrown (JsError m)
     end,
     t ++ [EvFetch url]).

Definition sleep (ms : Z) : M Trace unit :=
  fun t => (Returned tt, t ++ [EvSleep ms]).

(* ================================================================== *)
(** * tour-api.ts : fetchWithRetry *)

(** [Math.pow(2, attempt) * 1000] *)
Definition backoffDelay (attempt : Z) : Z := 2 ^ attempt * 1000.

(** How one iteration of the [for] loop ends when it does not throw:
    [return response], or the next iteration with the current [lastError]. *)
Inductive LoopStep : Type :=
| Done (response : Response)
| Next (lastError : option Exn).

Definition attemptOnce (url : Url) (maxRetries attempt : Z)
           (lastError : option Exn) : M Trace LoopStep :=
  try_catch
    (response <- fetch url ;;
     if (400 <=? status response) && (status response <? 500) then
       throw (TourApiError
                ("API request failed with status " +++ showZ (status response))
                (Some (status response)) None)
     else if 500 <=? status response then
       if attempt <? maxRetries then
         sleep (backoffDelay attempt) ;;; ret (Next lastError)
       else
         throw (TourApiError
                  ("API request failed with status "
                     +++ showZ (status response)
                     +++ " after " +++ showZ maxRetries +++ " retries")
                  (Some (status response)) None)
     else ret (Done response))
    (fun error =>
       (* lastError = error *)
       if isTourApiError error then throw error
       else if attempt <? maxRetries then
         sleep (backoffDelay attempt) ;;; ret (Next (Some error))
       else ret (Next (Some error))).

(** [`${lastError?.message}`] *)
Definition lastMessage (lastError : option Exn) : string :=
  match lastError with
  | Some e => exn_message e
  | None => "undefined"
  end.

(** [for (let attempt = 0; attempt <= maxRetries; attempt++)], by recursion
    on the number of iterations that remain, [maxRetries + 1 - attempt]:
    the guard [attempt <= maxRetries] holds exactly while it is positive. *)
Fixpoint retryLoop (remaining : nat) (url : Url) (maxRetries attempt : Z)
         (lastError : option Exn) : M Trace Response :=
  match remaining with
  | O =>
      throw (TourApiError
               ("API request failed after " +++ showZ maxRetries
                  +++ " retries: " +++ lastMessage lastError)
               None lastError)
  | S remaining' =>
      step <- attemptOnce url maxRetries attempt lastError ;;
      match step with
      | Done response => ret response
      | Next lastError' =>
          retryLoop remaining' url maxRetries (attempt + 1) lastError'
      end
  end.

Definition fetchWithRetry (url : Url) (maxRetries : Z) : M Trace Response :=
  retryLoop (Z.to_nat (maxRetries + 1)) url maxRetries 0 None.

(** [fetchWithRetry(url)]: the default [maxRetries = 3]. *)
Definition defaultMaxRetries : Z := 3.

(* ================================================================== *)
(** * tour-api.ts : the response normaliser *)

(** [T | T[]] *)
Inductive OneOrMany : Type :=
| One (x : Item)
| Many (xs : list Item).

Definition itemsMissingMessage : string :=
  "Invalid API response: items.item is missing".

Definition parseApiResponse {S} (data : ApiResponse) : M S OneOrMany :=
  match item data with
  | ItemUndefined | ItemNull =>
      throw (TourApiError itemsMissingMessage None None)
  | ItemObject x => ret (One x)
  | ItemArray xs => ret (Many xs)
  end.

Definition normalizeToArray (i : OneOrMany) : list Item :=
  match i with
  | One x => [x]
  | Many xs => xs
  end.

(** [!data.response?.body?.items?.item]: objects and arrays, also the empty
    array, are truthy. *)
Definition itemFalsy (data : ApiResponse) : bool :=
  match item data with
  | ItemUndefined | ItemNull => true
  | ItemObject _ | ItemArray _ => false
  end.

(* ================================================================== *)
(** * tour-api.ts : the endpoint clients *)

Variable env : Env.

(** [buildUrl(endpoint, params)] followed by [fetchWithRetry(url)]. *)
Definition request (endpoint : string) (params : ParamObject)
  : M Trace Response :=
  url <- lift (buildUrl env endpoint params) ;;
  fetchWithRetry url defaultMaxRetries.

Definition areaCodeObject (params : option GetAreaCodeParams) : ParamObject :=
  match params with
  | Some p => [ ("numOfRows", optNumber (ac_numOfRows p));
                ("pageNo", optNumber (ac_pageNo p));
                ("areaCode", optString (ac_areaCode p)) ]%string
  | None => []
  end.

Definition getAreaCode (params : option GetAreaCodeParams)
  : M Trace (list Item) :=
  try_catch
    (response <- request "/areaCode2" (areaCodeObject params) ;;
     if negb (ok response) then
       throw (TourApiError
                ("Failed to fetch area codes: " +++ statusText response)
                (Some (status response)) None)
     else
       data <- json response ;;
       items <- parseApiResponse data ;;
       ret (normalizeToArray items))
    (rethrowWrapped "Failed to get area codes").

(** [...restParams] of [getAreaBasedList]. *)
Definition areaBasedListRest (p : GetAreaBasedListParams) : ParamObject :=
  [ ("areaCode", optString (areaCode p));
    ("contentTypeId", optString (contentTypeId p));
    ("sigunguCode", optString (sigunguCode p));
    ("cat1", optString (cat1 p));
    ("cat2", optString (cat2 p));
    ("cat3", optString (cat3 p)) ]%string.

Definition getAreaBasedList (params : GetAreaBasedListParams)
  : M Trace (ListResponse Item) :=
  try_catch
    (let numOfRows_ := withDefault (numOfRows params) 10 in
     let pageNo_ := withDefault (pageNo params) 1 in
     response <- request "/areaBasedList2"
                   (spread [ ("numOfRows", PNumber numOfRows_);
                             ("pageNo", PNumber pageNo_) ]%string
                           (areaBasedListRest params)) ;;
     if negb (ok response) then
       throw (TourApiError
                ("Failed to fetch area based list: " +++ statusText response)
                (Some (status response)) None)
     else
       data <- json response ;;
       items <- parseApiResponse data ;;
       let normalizedItems := normalizeToArray items in
       ret {| items := normalizedItems;
              totalCount := orElse (body_totalCount data)
                                   (Z.of_nat (List.length normalizedItems));
              lr_pageNo := Some (orElse (body_pageNo data) pageNo_);
              lr_numOfRows := Some (orElse (body_numOfRows data) numOfRows_) |})
    (rethrowWrapped "Failed to get area based list").

Definition searchKeywordRest (p : SearchKeywordParams) : ParamObject :=
  [ ("keyword", PString (keyword p));
    ("areaCode", optString (sk_areaCode p));
    ("contentTypeId", optString (sk_contentTypeId p)) ]%string.

Definition searchKeyword (params : SearchKeywordParams)
  : M Trace (ListResponse Item) :=
  try_catch
    (let numOfRows_ := withDefault (sk_numOfRows params) 10 in
     let pageNo_ := withDefault (sk_pageNo params) 1 in
     response <- request "/searchKeyword2"
                   (spread [ ("numOfRows", PNumber numOfRows_);
                             ("pageNo", PNumber pageNo_) ]%string
                           (searchKeywordRest params)) ;;
     if negb (ok response) then
       throw (TourApiError
                ("Failed to search keyword: " +++ statusText response)
                (Some (status response)) None)
     else
       data <- json response ;;
       items <- parseApiResponse data ;;
       let normalizedItems := normalizeToArray items in
       ret {| items := normalizedItems;
              totalCount := orElse (body_totalCount data)
                                   (Z.of_nat (List.length normalizedItems));
              lr_pageNo := None;
              lr_numOfRows := None |})
    (rethrowWrapped "Failed to search keyword").

Definition detailCommonObject (p : GetDetailCommonParams) : ParamObject :=
  [ ("contentId", PString (dc_contentId p));
    ("contentTypeId", optString (dc_contentTypeId p));
    ("defaultYN", optString (defaultYN p));
    ("firstImageYN", optString (firstImageYN p));
    ("areacodeYN", optString (areacodeYN p));
    ("catcodeYN", optString (catcodeYN p));
    ("addrinfoYN", optString (addrinfoYN p));
    ("mapinfoYN", optString (mapinfoYN p));
    ("overviewYN", optString (overviewYN p)) ]%string.

(** [normalizedItems[0]] once the array is known not to be empty. *)
Definition firstOr {S} (notFound : Exn) (normalizedItems : list Item)
  : M S Item :=
  match normalizedItems with
  | [] => throw notFound
  | x :: _ => ret x
  end.

Definition getDetailCommon (params : GetDetailCommonParams) : M Trace Item :=
  try_catch
    (response <- request "/detailCommon2" (detailCommonObject params) ;;
     if negb (ok response) then
       throw (TourApiError
                ("Failed to fetch detail common: " +++ statusText response)
                (Some (status response)) None)
     else
       data <- json response ;;
       items <- parseApiResponse data ;;
       let normalizedItems := normalizeToArray items in
       (* if (normalizedItems.length === 0) throw ...; return normalizedItems[0] *)
       firstOr (TourApiError
                  ("Tour detail not found for contentId: "
                     +++ dc_contentId params)
                  (Some 404) None)
               normalizedItems)
    (rethrowWrapped "Failed to get detail common").

Definition detailIntroObject (p : GetDetailIntroParams) : ParamObject :=
  [ ("contentId", PString (di_contentId p));
    ("contentTypeId", PString (di_contentTypeId p)) ]%string.

Definition getDetailIntro (params : GetDetailIntroParams) : M Trace Item :=
  try_catch
    (response <- request "/detailIntro2" (detailIntroObject params) ;;
     if negb (ok response) then
       throw (TourApiError
                ("Failed to fetch detail intro: " +++ statusText response)
                (Some (status response)) None)
     else
       data <- json response ;;
       items <- parseApiResponse data ;;
       let normalizedItems := normalizeToArray items in
       firstOr (TourApiError
                  ("Tour intro not found for contentId: "
                     +++ di_contentId params)
                  (Some 404) None)
               normalizedItems)
    (rethrowWrapped "Failed to get detail intro").

Definition detailImageObject (p : GetDetailImageParams) : ParamObject :=
  [ ("contentId", PString (im_contentId p));
    ("imageYN", optString (imageYN p));
    ("subImageYN", optString (subImageYN p)) ]%string.

(** [error instanceof TourApiError &&
     error.message.includes("items.item is missing")] *)
Definition isItemsMissing (error : Exn) : bool :=
  isTourApiError error && includes "items.item is missing" (exn_message error).

Definition getDetailImage (params : GetDetailImageParams)
  : M Trace (list Item) :=
  try_catch
    (response <- request "/detailImage2" (detailImageObject params) ;;
     if negb (ok response) then
       if status response =? 404 then ret []
       else
         throw (TourApiError
                  ("Failed to fetch detail image: " +++ statusText response)
                  (Some (status response)) None)
     else
       data <- json response ;;
       if itemFalsy data then ret []
       else
         items <- parseApiResponse data ;;
         ret (normalizeToArray items))
    (fun error =>
       if isItemsMissing error then ret []
       else rethrowWrapped "Failed to get detail image" error).

Definition detailPetTourObject (p : GetDetailPetTourParams) : ParamObject :=
  [ ("contentId", PString (pt_contentId p)) ]%string.

(** [error instanceof TourApiError && error.statusCode === 404] *)
Definition isNotFound (error : Exn) : bool :=
  isTourApiError error &&
  match statusCode error with
  | Some c => c =? 404
  | None => false
  end.

(** The result is [PetTourInfo | null]: [None] is null. *)
Definition getDetailPetTour (params : GetDetailPetTourParams)
  : M Trace (option Item) :=
  try_catch
    (response <- request "/detailPetTour2" (detailPetTourObject params) ;;
     if negb (ok response) then
       if status response =? 404 then ret None
       else
         throw (TourApiError
                  ("Failed to fetch pet tour info: " +++ statusText response)
                  (Some (status response)) None)
     else
       data <- json response ;;
       if itemFalsy data then ret None
       else
         items <- parseApiResponse data ;;
         let normalizedItems := normalizeToArray items in
         match normalizedItems with
         | [] => ret None
         | x :: _ => ret (Some x)
         end)
    (fun error =>
       if isItemsMissing error then ret None
       else if isNotFound error then ret None
       else rethrowWrapped "Failed to get pet tour info" error).

End Client.

Arguments ItemUndefined {Item}.
Arguments ItemNull {Item}.
Arguments ItemObject {Item} x.
Arguments ItemArray {Item} xs.
Arguments JsonOk {Item} data.
Arguments JsonInvalid {Item} message.
Arguments NetResponse {Item} r.
Arguments NetFailure {Item} message.
Arguments Done {Item} response.
Arguments Next {Item} lastError.

(* ================================================================== *)
(** * Exceptions without state *)

Definition andThen {A B} (o : Outcome A) (k : A -> Outcome B) : Outcome B :=
  match o with
  | Returned a => k a
  | Thrown e => Thrown e
  end.

(** [try { o } catch (error) { h error }] *)
Definition catching {A} (o : Outcome A) (h : Exn -> Outcome A) : Outcome A :=
  match o with
  | Returned a => Returned a
  | Thrown e => h e
  end.

(** The shared catch block, see [rethrowWrapped]. *)
Definition rethrowWrappedPure {A} (prefix : string) (error : Exn) : Outcome A :=
  if isTourApiError error then Thrown error
  else Thrown (TourApiError (prefix +++ ": " +++ exn_message error)
                            None (Some error)).

(** [array.map((x, i) => f i x)] *)
Fixpoint mapiFrom {A B} (i : nat) (f : nat -> A -> B) (l : list A) : list B :=
  match l with
  | [] => []
  | x :: rest => f i x :: mapiFrom (S i) f rest
  end.

Definition mapi {A B} (f : nat -> A -> B) (l : list A) : list B :=
  mapiFrom O f l.

(** [results.filter((r) => r !== null)] *)
Fixpoint nonNull {A} (l : list (option A)) : list A :=
  match l with
  | [] => []
  | Some a :: rest => a :: nonNull rest
  | None :: rest => nonNull rest
  end.

(* ================================================================== *)
(** * lib/types : the records the aggregations read *)

Record TourItem : Type := {
  addr1 : string;
  addr2 : option string;
  areacode : string;
  contentid : string;
  contenttypeid : string;
  title : string;
  mapx : string;
  mapy : string;
  firstimage : option string;
  firstimage2 : option string;
  tel : option string;
  item_cat1 : option string;
  item_cat2 : option string;
  item_cat3 : option string;
  modifiedtime : string
}.

Record TourDetail : Type := {
  td_contentid : string;
  td_contenttypeid : string;
  td_title : string;
  td_addr1 : string;
  td_addr2 : option string;
  td_zipcode : option string;
  td_tel : option string;
  td_homepage : option string;
  td_overview : option string;
  td_firstimage : option string;
  td_firstimage2 : option string;
  td_mapx : string;
  td_mapy : string;
  td_areacode : option string
}.

Record AreaCode : Type := {
  code : string;
  name : string;
  rnum : option string
}.

Record RegionStats : Type := {
  rs_code : string;
  rs_name : string;
  rs_count : Z
}.

Record TypeStats : Type := {
  ts_contentTypeId : string;
  typeName : string;
  ts_count : Z;
  percentage : option float
}.

Record StatsSummary : Type := {
  sum_totalCount : Z;
  topRegions : list RegionStats;
  topTypes : list TypeStats;
  lastUpdated : string
}.

Record ContentType : Type := {
  ct_id : string;
  ct_name : string
}.

(** [Object.values(CONTENT_TYPES)] *)
Definition getAllContentTypes : list ContentType :=
  [ {| ct_id := "12"; ct_name := "관광지" |};
    {| ct_id := "14"; ct_name := "문화시설" |};
    {| ct_id := "15"; ct_name := "축제/행사" |};
    {| ct_id := "25"; ct_name := "여행코스" |};
    {| ct_id := "28"; ct_name := "레포츠" |};
    {| ct_id := "32"; ct_name := "숙박" |};
    {| ct_id := "38"; ct_name := "쇼핑" |};
    {| ct_id := "39"; ct_name := "음식점" |} ]%string.

(** The parameters the aggregations and the detail page pass. *)
Definition listParams (area type : option string) (rows page : Z)
  : GetAreaBasedListParams :=
  {| areaCode := area; contentTypeId := type;
     numOfRows := Some rows; pageNo := Some page;
     sigunguCode := None; cat1 := None; cat2 := None; cat3 := None |}.

(* ================================================================== *)
(** * JS numbers that are not integers *)

(** The double nearest to an integer. *)
Definition Z2float (z : Z) : float :=
  SF2Prim (binary_normalize 53 1024 z 0 false).

(** [Math.round]: the nearest integer, a tie going towards +infinity;
    [-0] for an argument in [[-0.5, 0)]; other values (integers, zeros,
    infinities, NaN) are returned unchanged. *)
Definition Math_round (x : float) : float :=
  match Prim2SF x with
  | S754_finite s m e =>
      if 0 <=? e then x
      else
        let v := if s then Z.neg m else Z.pos m in
        let n := (2 * v + 2 ^ (- e)) / 2 ^ (- e + 1) in
        if n =? 0 then (if s then neg_zero else zero) else Z2float n
  | _ => x
  end.

(* ================================================================== *)
(** * stats-api.ts *)

(** [Array.prototype.sort(cmp)]: the sort is stable, and for a comparator
    that orders the elements consistently the result is determined by that;
    it is computed here by insertion from the right. *)
Fixpoint insertBy {A} (cmp : A -> A -> Z) (x : A) (l : list A) : list A :=
  match l with
  | [] => [x]
  | y :: rest => if cmp x y <=? 0 then x :: l else y :: insertBy cmp x rest
  end.

Definition sort {A} (cmp : A -> A -> Z) (l : list A) : list A :=
  fold_right (insertBy cmp) [] l.

(** The two fan-outs of the statistics. *)
Inductive FanOut : Type :=
| RegionFanOut
| TypeFanOut.

Section Stats.

(** The outcome of [getAreaCode()], and of the i-th [getAreaBasedList]
    call issued by a fan-out (every branch is an asynchronous operation of
    its own, with its own result or error). *)
Variable areaCodeCall : Outcome (list AreaCode).
Variable areaBasedListCall :
  FanOut -> nat -> GetAreaBasedListParams -> Outcome (ListResponse TourItem).

(** The asynchronous function mapped over the area codes; [None] is the
    null of its catch block. *)
Definition regionBranch (i : nat) (area : AreaCode) : option RegionStats :=
  match areaBasedListCall RegionFanOut i
          (listParams (Some (code area)) None 1 1) with
  | Returned result =>
      Some {| rs_code := code area; rs_name := name area;
              rs_count := totalCount result |}
  | Thrown _ => None
  end.

Definition getRegionStats : Outcome (list RegionStats) :=
  catching
    (andThen areaCodeCall (fun areaCodes =>
     let results := mapi regionBranch areaCodes in
     let validResults := nonNull results in
     if Nat.eqb (List.length validResults) 0 then
       Thrown (TourApiError
                 "Failed to get region stats: All area queries failed"
                 None None)
     else Returned validResults))
    (rethrowWrappedPure "Failed to get region stats").

(** [Omit<TypeStats, "percentage">]: the percentage is still undefined. *)
Definition typeBranch (i : nat) (type : ContentType) : option TypeStats :=
  match areaBasedListCall TypeFanOut i
          (listParams None (Some (ct_id type)) 1 1) with
  | Returned result =>
      Some {| ts_contentTypeId := ct_id type; typeName := ct_name type;
              ts_count := totalCount result; percentage := None |}
  | Thrown _ => None
  end.

(** [total > 0 ? Math.round((r.count / total) * 100 * 10) / 10 : 0] *)
Definition percentageOf (count total : Z) : float :=
  if total >? 0 then
    (Math_round ((Z2float count / Z2float total) * 100 * 10) / 10)%float
  else 0%float.

Definition getTypeStats : Outcome (list TypeStats) :=
  catching
    (let contentTypes := getAllContentTypes in
     let results := mapi typeBranch contentTypes in
     let validResults := nonNull results in
     if Nat.eqb (List.length validResults) 0 then
       Thrown (TourApiError
                 "Failed to get type stats: All content type queries failed"
                 None None)
     else
       let total := fold_left (fun sum r => sum + ts_count r) validResults 0 in
       let typeStats :=
         map (fun r =>
                {| ts_contentTypeId := ts_contentTypeId r;
                   typeName := typeName r;
                   ts_count := ts_count r;
                   percentage := Some (percentageOf (ts_count r) total) |})
             validResults in
       Returned typeStats)
    (rethrowWrappedPure "Failed to get type stats").

(** [new Date().toISOString()] at the time of the call. *)
Variable now : string.

(** [Promise.all([getRegionStats(), getTypeStats()])] rejects as soon as
    one of the two does; when both do, the error of the region statistics
    is taken here. *)
Definition getStatsSummary : Outcome StatsSummary :=
  catching
    (andThen getRegionStats (fun regionStats =>
     andThen getTypeStats (fun typeStats =>
     let totalCount_ := fold_left (fun sum t => sum + ts_count t) typeStats 0 in
     let topRegions_ :=
       firstn 3 (sort (fun a b => rs_count b - rs_count a) regionStats) in
     let topTypes_ :=
       firstn 3 (sort (fun a b => ts_count b - ts_count a) typeStats) in
     let lastUpdated_ := now in
     Returned {| sum_totalCount := totalCount_;
                 topRegions := topRegions_;
                 topTypes := topTypes_;
                 lastUpdated := lastUpdated_ |})))
    (rethrowWrappedPure "Failed to get stats summary").

End Stats.

(* ================================================================== *)
(** * The detail page: recommended places *)

(** The mutable variable [recommendations] of [PlaceDetailContent], and
    how many [getAreaBasedList] calls the block has issued so far. *)
Record RecState : Type := {
  recommendations : list TourItem;
  calls : nat
}.

Section Recommendations.

(** The outcome of the i-th [getAreaBasedList] call of the block. *)
Variable areaBasedListCall :
  nat -> GetAreaBasedListParams -> Outcome (ListResponse TourItem).

Definition callAreaBasedList (params : GetAreaBasedListParams)
  : M RecState (ListResponse TourItem) :=
  fun st =>
    (areaBasedListCall (calls st) params,
     {| recommendations := recommendations st; calls := S (calls st) |}).

Definition readRecommendations : M RecState (list TourItem) :=
  fun st => (Returned (recommendations st), st).

Definition writeRecommendations (l : list TourItem) : M RecState unit :=
  fun st => (Returned tt, {| recommendations := l; calls := calls st |}).

(** [item.contentid !== id] *)
Definition differsFrom (id : string) (item : TourItem) : bool :=
  negb (String.eqb (contentid item) id).

(** [recommendations.some((rec) => rec.contentid === item.contentid)] *)
Definition alreadyIn (recs : list TourItem) (item : TourItem) : bool :=
  existsb (fun rec => String.eqb (contentid rec) (contentid item)) recs.

(** The block "추천 관광지" of the two-tier detail page. *)
Definition recommendationBlock (detailData : TourDetail) : M RecState unit :=
  try_catch
    ((if truthy (td_areacode detailData) then
        try_catch
          (sameAreaAndType <-
             callAreaBasedList
               (listParams (td_areacode detailData)
                           (Some (td_contenttypeid detailData)) 10 1) ;;
           let filtered :=
             firstn 6 (filter (differsFrom (td_contentid detailData))
                              (items sameAreaAndType)) in
           writeRecommendations filtered)
          (fun _ => ret tt)
      else ret tt) ;;;
     recs <- readRecommendations ;;
     if (List.length recs <? 6)%nat then
       try_catch
         (sameType <-
            callAreaBasedList
              (listParams None (Some (td_contenttypeid detailData)) 10 1) ;;
          recs' <- readRecommendations ;;
          let filtered :=
            firstn (6 - List.length recs')
                   (filter (fun item =>
                              differsFrom (td_contentid detailData) item
                              && negb (alreadyIn recs' item))
                           (items sameType)) in
          writeRecommendations (recs' ++ filtered))
         (fun _ => ret tt)
     else ret tt)
    (fun _ => ret tt).

Definition initialRecState : RecState :=
  {| recommendations := []; calls := O |}.

(** What the page hands to the [Recommendations] component: the value of
    [recommendations] after the block, unless the block threw. *)
Definition recommend (detailData : TourDetail) : Outcome (list TourItem) :=
  match recommendationBlock detailData initialRecState with
  | (Returned _, st) => Returned (recommendations st)
  | (Thrown e, _) => Thrown e
  end.

(** The same block in [src/app/places/[contentId]/page.tsx]: one query by
    content type only. *)
Definition recommendationBlockSingle (detailData : TourDetail)
  : M RecState unit :=
  try_catch
    (list <- callAreaBasedList
               (listParams None (Some (td_contenttypeid detailData)) 10 1) ;;
     writeRecommendations
       (firstn 6 (filter (differsFrom (td_contentid detailData))
                         (items list))))
    (fun _ => ret tt).

Definition recommendSingle (detailData : TourDetail)
  : Outcome (list TourItem) :=
  match recommendationBlockSingle detailData initialRecState with
  | (Returned _, st) => Returned (recommendations st)
  | (Thrown e, _) => Thrown e
  end.

End Recommendations.

Arguments status {Item} _.
Arguments statusText {Item} _.
Arguments body {Item} _.
Arguments item {Item} _.
Arguments body_totalCount {Item} _.
Arguments body_numOfRows {Item} _.
Arguments body_pageNo {Item} _.
Arguments ok {Item} r.
Arguments json {Item S} r.
Arguments attemptOnce {Item} network url maxRetries attempt lastError.
Arguments retryLoop {Item} network remaining url maxRetries attempt lastError.
Arguments fetchWithRetry {Item} network url maxRetries.
Arguments fetch {Item} network url.
Arguments parseApiResponse {Item S} data.
Arguments One {Item} x.
Arguments Many {Item} xs.
Arguments normalizeToArray {Item} i.
Arguments itemFalsy {Item} data.
Arguments request {Item} network env endpoint params.
Arguments getAreaCode {Item} network env params.
Arguments getAreaBasedList {Item} network env params.
Arguments searchKeyword {Item} network env params.
Arguments getDetailCommon {Item} network env params.
Arguments getDetailIntro {Item} network env params.
Arguments getDetailImage {Item} network env params.
Arguments getDetailPetTour {Item} network env params.

(* ================================================================== *)
(** * Definitions used to state the facts *)

(** The trace a run of only-5xx answers leaves behind: a request, then
    for every retry a sleep of [2^attempt * 1000] ms and a request. *)
Fixpoint backoffSchedule (url : Url) (retries : nat) (attempt : Z) : Trace :=
  match retries with
  | O => [EvFetch url]
  | S retries' =>
      EvFetch url :: EvSleep (2 ^ attempt * 1000)
        :: backoffSchedule url retries' (attempt + 1)
  end.

(** The sleeps of a trace, in order. *)
Fixpoint sleeps (t : Trace) : list Z :=
  match t with
  | [] => []
  | EvFetch _ :: rest => sleeps rest
  | EvSleep ms :: rest => ms :: sleeps rest
  end.

(** An answer after which the fetcher goes on: a transport error or a
    status of 500 and above. *)
Definition retryable {Item} (o : NetOutcome Item) : Prop :=
  match o with
  | NetResponse r => 500 <= status r
  | NetFailure _ => True
  end.


(** The delays [2^0 * 1000, ..., 2^(n-1) * 1000] from a given attempt on. *)
Definition backoffDelays (attempt : Z) (n : nat) : list Z :=
  map (fun i => 2 ^ (attempt + Z.of_nat i) * 1000) (seq 0 n).

(** Sample data: a request, a provider that always answers with one
    status, and items that are just their identifier. *)
Definition sampleUrl : Url :=
  {| path := BASE_URL +++ "/detailImage2";
     query := [("serviceKey", "k"); ("contentId", "125266")] |}.

Definition statusOnly (code : Z) (text : string) : Response string :=
  {| status := code; statusText := text; body := JsonInvalid "no body" |}.

Definition alwaysStatus (code : Z) (text : string)
  : nat -> Url -> NetOutcome string :=
  fun _ _ => NetResponse (statusOnly code text).

Definition sampleEnv : Env :=
  {| serverSide := true;
     TOUR_API_KEY := Some "server-key";
     NEXT_PUBLIC_TOUR_API_KEY := Some "public-key" |}.

Definition envelope (i : ItemField string) : ApiResponse string :=
  {| item := i; body_totalCount := None;
     body_numOfRows := None; body_pageNo := None |}.

Definition okResponse (data : ApiResponse string) : Response string :=
  {| status := 200; statusText := "OK"; body := JsonOk data |}.

(** A provider that answers every request with 200 and the given items. *)
Definition alwaysItems (i : ItemField string)
  : nat -> Url -> NetOutcome string :=
  fun _ _ => NetResponse (okResponse (envelope i)).

Definition sampleCommonParams : GetDetailCommonParams :=
  {| dc_contentId := "125266"; dc_contentTypeId := None;
     defaultYN := None; firstImageYN := None; areacodeYN := None;
     catcodeYN := None; addrinfoYN := None; mapinfoYN := None;
     overviewYN := None |}.

Definition sampleIntroParams : GetDetailIntroParams :=
  {| di_contentId := "125266"; di_contentTypeId := "12" |}.

Definition sampleImageParams : GetDetailImageParams :=
  {| im_contentId := "125266"; imageYN := Some "Y"; subImageYN := Some "Y" |}%string.

Definition samplePetParams : GetDetailPetTourParams :=
  {| pt_contentId := "125266" |}.

(** The error of a missing credential. *)
Definition missingKeyError : Exn := TourApiError missingKeyMessage None None.

Definition publicOnlyEnv : Env :=
  {| serverSide := true;
     TOUR_API_KEY := None;
     NEXT_PUBLIC_TOUR_API_KEY := Some "public-key" |}.

Definition noKeyEnv : Env :=
  {| serverSide := true;
     TOUR_API_KEY := None;
     NEXT_PUBLIC_TOUR_API_KEY := None |}.

(** The URL [getDetailImage] requests for [sampleImageParams]. *)
Definition sampleImageUrl : Url :=
  {| path := BASE_URL +++ "/detailImage2";
     query := [("serviceKey", "server-key"); ("MobileOS", "ETC");
               ("MobileApp", "MyTrip"); ("_type", "json");
               ("contentId", "125266"); ("imageYN", "Y");
               ("subImageYN", "Y")] |}.

(** The error [fetchWithRetry] throws on a 404 answer. *)
Definition upstream404Error : Exn :=
  TourApiError "API request failed with status 404" (Some 404) None.

(** The answers of the provider seen by a statistics fan-out. *)
Definition ListCalls : Type :=
  FanOut -> nat -> GetAreaBasedListParams -> Outcome (ListResponse TourItem).

(** The query the region fan-out issues for an area. *)
Definition regionQuery (area : AreaCode) : GetAreaBasedListParams :=
  listParams (Some (code area)) None 1 1.

(** The query the type fan-out issues for a content type. *)
Definition typeQuery (type : ContentType) : GetAreaBasedListParams :=
  listParams None (Some (ct_id type)) 1 1.

(** M: how many of the region queries fail, the first one being the
    i-th call. *)
Fixpoint failedFrom (call : ListCalls) (i : nat) (areas : list AreaCode) : nat :=
  match areas with
  | [] => O
  | area :: rest =>
      (match call RegionFanOut i (regionQuery area) with
       | Thrown _ => 1
       | Returned _ => 0
       end + failedFrom call (S i) rest)%nat
  end.

Definition failedRegionQueries (call : ListCalls) (areas : list AreaCode) : nat :=
  failedFrom call O areas.

(** The counts of the type queries that succeed, in enumeration order. *)
Definition successfulTypeCounts (call : ListCalls) : list Z :=
  nonNull
    (mapi (fun i type =>
             match call TypeFanOut i (typeQuery type) with
             | Returned result => Some (totalCount result)
             | Thrown _ => None
             end)
          getAllContentTypes).

Definition sumZ (l : list Z) : Z := fold_right Z.add 0 l.

(** The formula as the specification words it, on doubles:
    [round(count / total * 1000) / 10]. *)
Definition specPercentage (count total : Z) : float :=
  (Math_round (Z2float count / Z2float total * 1000) / 10)%float.

(** The comparator [(a, b) => b.count - a.count]. *)
Definition byCountDesc {A} (count : A -> Z) : A -> A -> Z :=
  fun a b => count b - count a.

Definition geCount {A} (count : A -> Z) : A -> A -> Prop :=
  fun a b => count a >= count b.

(** [s] is [l] put in descending order of [count] without changing the
    relative order of elements of equal count. *)
Definition StableDescending {A} (count : A -> Z) (l s : list A) : Prop :=
  Permutation l s
  /\ StronglySorted (geCount count) s
  /\ forall c, filter (fun x => count x =? c) s
               = filter (fun x => count x =? c) l.

(** Sample providers for the statistics. *)
Definition countResponse (count : Z) : ListResponse TourItem :=
  {| items := []; totalCount := count;
     lr_pageNo := Some 1; lr_numOfRows := Some 1 |}.

Definition answerWith (count : option Z) : Outcome (ListResponse TourItem) :=
  match count with
  | Some c => Returned (countResponse c)
  | None => Thrown (TourApiError "API request failed with status 503 after 3 retries"
                                 (Some 503) None)
  end.

(** Types "12", "14" and "15" have the given counts, the others fail. *)
Definition threeTypes (a b c : Z) : ListCalls :=
  fun _ _ p =>
    answerWith
      (match contentTypeId p with
       | Some id =>
           if String.eqb id "12" then Some a
           else if String.eqb id "14" then Some b
           else if String.eqb id "15" then Some c
           else None
       | None => None
       end).

Definition sampleAreas : list AreaCode :=
  [ {| code := "1"; name := "서울"; rnum := None |};
    {| code := "6"; name := "부산"; rnum := None |};
    {| code := "39"; name := "제주도"; rnum := None |} ].

(** Area "6" fails, the others answer. *)
Definition oneAreaDown : ListCalls :=
  fun _ _ p =>
    answerWith
      (match areaCode p with
       | Some id =>
           if String.eqb id "1" then Some 100
           else if String.eqb id "39" then Some 50
           else None
       | None => None
       end).

(** Regions "A".."D" with counts 5, 7, 5, 7; types as in [threeTypes]. *)
Definition tiedAreas : list AreaCode :=
  [ {| code := "A"; name := "a"; rnum := None |};
    {| code := "B"; name := "b"; rnum := None |};
    {| code := "C"; name := "c"; rnum := None |};
    {| code := "D"; name := "d"; rnum := None |} ].

Definition tiedCalls : ListCalls :=
  fun fan i p =>
    match fan with
    | RegionFanOut =>
        answerWith
          (match areaCode p with
           | Some id =>
               if String.eqb id "A" then Some 5
               else if String.eqb id "B" then Some 7
               else if String.eqb id "C" then Some 5
               else if String.eqb id "D" then Some 7
               else None
           | None => None
           end)
    | TypeFanOut => threeTypes 10 0 30 fan i p
    end.

Definition tiedRegionStats : list RegionStats :=
  [ {| rs_code := "A"; rs_name := "a"; rs_count := 5 |};
    {| rs_code := "B"; rs_name := "b"; rs_count := 7 |};
    {| rs_code := "C"; rs_name := "c"; rs_count := 5 |};
    {| rs_code := "D"; rs_name := "d"; rs_count := 7 |} ].

Definition tiedTypeStats : list TypeStats :=
  [ {| ts_contentTypeId := "12"; typeName := "관광지"; ts_count := 10;
       percentage := Some 25%float |};
    {| ts_contentTypeId := "14"; typeName := "문화시설"; ts_count := 0;
       percentage := Some 0%float |};
    {| ts_contentTypeId := "15"; typeName := "축제/행사"; ts_count := 30;
       percentage := Some 75%float |} ].

(** The answers of the provider seen by the recommendation block. *)
Definition BlockCalls : Type :=
  nat -> GetAreaBasedListParams -> Outcome (ListResponse TourItem).

Definition ids (l : list TourItem) : list string := map contentid l.

(** Tier 1: same region and same content type; tier 2: same content type. *)
Definition tier1Query (d : TourDetail) : GetAreaBasedListParams :=
  listParams (td_areacode d) (Some (td_contenttypeid d)) 10 1.

Definition tier2Query (d : TourDetail) : GetAreaBasedListParams :=
  listParams None (Some (td_contenttypeid d)) 10 1.

(** A failing query counts as zero items. *)
Definition itemsOrNone (o : Outcome (ListResponse TourItem)) : list TourItem :=
  match o with
  | Returned r => items r
  | Thrown _ => []
  end.

(** What the provider sends for each tier; tier 1 is asked only for a
    subject with a known region, and tier 2 is then the second call. *)
Definition tier1Answer (call : BlockCalls) (d : TourDetail) : list TourItem :=
  if truthy (td_areacode d) then itemsOrNone (call O (tier1Query d)) else [].

Definition tier2Answer (call : BlockCalls) (d : TourDetail) : list TourItem :=
  itemsOrNone (call (if truthy (td_areacode d) then 1%nat else O)
                    (tier2Query d)).

(** The cascade in the words of the specification. *)
Definition tier1Selection (call : BlockCalls) (d : TourDetail) : list TourItem :=
  firstn 6 (filter (differsFrom (td_contentid d)) (tier1Answer call d)).

Definition tier2Selection (call : BlockCalls) (d : TourDetail)
           (selected : list TourItem) : list TourItem :=
  if (List.length selected <? 6)%nat then
    firstn (6 - List.length selected)
           (filter (fun item => differsFrom (td_contentid d) item
                                && negb (alreadyIn selected item))
                   (tier2Answer call d))
  else [].

Definition cascade (call : BlockCalls) (d : TourDetail) : list TourItem :=
  tier1Selection call d ++ tier2Selection call d (tier1Selection call d).

(** Sample data for the recommendations. *)
Definition place (id area type : string) : TourItem :=
  {| addr1 := ""; addr2 := None; areacode := area; contentid := id;
     contenttypeid := type; title := id; mapx := "0"; mapy := "0";
     firstimage := None; firstimage2 := None; tel := None;
     item_cat1 := None; item_cat2 := None; item_cat3 := None;
     modifiedtime := "" |}.

Definition subjectDetail : TourDetail :=
  {| td_contentid := "125266"; td_contenttypeid := "12";
     td_title := "subject"; td_addr1 := ""; td_addr2 := None;
     td_zipcode := None; td_tel := None; td_homepage := None;
     td_overview := None; td_firstimage := None; td_firstimage2 := None;
     td_mapx := "0"; td_mapy := "0"; td_areacode := Some "1" |}.

Definition listOf (l : list TourItem) : Outcome (ListResponse TourItem) :=
  Returned {| items := l; totalCount := Z.of_nat (List.length l);
              lr_pageNo := Some 1; lr_numOfRows := Some 10 |}.

(** The region query answers with [regional], the other with [national]. *)
Definition twoTiers (regional national : list TourItem) : BlockCalls :=
  fun _ p =>
    match areaCode p with
    | Some _ => listOf regional
    | None => listOf national
    end.

(** Four places of the subject's region and type (and the subject)... *)
Definition fourRegional : list TourItem :=
  [ place "a1" "1" "12"; place "125266" "1" "12"; place "a2" "1" "12";
    place "a3" "1" "12"; place "a4" "1" "12" ].

(** ... and ten places of its type. *)
Definition tenNational : list TourItem :=
  [ place "a1" "1" "12"; place "b1" "2" "12"; place "125266" "1" "12";
    place "a3" "1" "12"; place "b2" "3" "12"; place "b3" "4" "12";
    place "b4" "5" "12"; place "a2" "1" "12"; place "b5" "6" "12";
    place "a4" "1" "12" ].

(** A regional answer that lists one place twice. *)
Definition repeatedRegional : list TourItem :=
  [ place "a1" "1" "12"; place "a1" "1" "12" ].

(* ================================================================== *)
(** * Further definitions: the fetcher's runs *)

(** [k] rounds of a request followed by its back-off sleep, the first
    one being attempt number [attempt]. *)
Fixpoint retryRounds (url : Url) (k : nat) (attempt : Z) : Trace :=
  match k with
  | O => []
  | S k' =>
      EvFetch url :: EvSleep (2 ^ attempt * 1000)
        :: retryRounds url k' (attempt + 1)
  end.

(** A provider whose first [k] answers have status [code] and whose
    later answers are [later]. *)
Definition firstThen (k : nat) (code : Z) (later : NetOutcome string)
  : nat -> Url -> NetOutcome string :=
  fun i _ => if (i <? k)%nat then NetResponse (statusOnly code "retry")
             else later.

(** A provider that cannot be reached. *)
Definition unreachable (message : string) : nat -> Url -> NetOutcome string :=
  fun _ _ => NetFailure message.

(* ================================================================== *)
(** * Further definitions: parameter objects and endpoint calls *)

(** The value under the first entry with the given key (the lookup of a
    query string, [searchParams.get(key)]; [None] is null). *)
Fixpoint assocGet {V} (k : string) (l : list (string * V)) : option V :=
  match l with
  | [] => None
  | (k', v) :: rest => if String.eqb k k' then Some v else assocGet k rest
  end.

(** The value an object literal ends up with for a key: that of the last
    property written with this name. *)
Definition lastValue (k : string) (o : ParamObject) : option ParamValue :=
  assocGet k (rev o).

Definition keysOf {V} (l : list (string * V)) : list string := map fst l.

(** The four service parameters for a resolved key. *)
Definition serviceParams (key : string) : ParamObject :=
  [ ("serviceKey", PString key); ("MobileOS", PString "ETC");
    ("MobileApp", PString "MyTrip"); ("_type", PString "json") ].

(** A call of one of the seven endpoint clients. *)
Inductive EndpointCall : Type :=
| CallAreaCode (p : option GetAreaCodeParams)
| CallAreaBasedList (p : GetAreaBasedListParams)
| CallSearchKeyword (p : SearchKeywordParams)
| CallDetailCommon (p : GetDetailCommonParams)
| CallDetailIntro (p : GetDetailIntroParams)
| CallDetailImage (p : GetDetailImageParams)
| CallDetailPetTour (p : GetDetailPetTourParams).

(** The path and the parameter object the client hands to [buildUrl]. *)
Definition endpointPath (c : EndpointCall) : string :=
  match c with
  | CallAreaCode _ => "/areaCode2"
  | CallAreaBasedList _ => "/areaBasedList2"
  | CallSearchKeyword _ => "/searchKeyword2"
  | CallDetailCommon _ => "/detailCommon2"
  | CallDetailIntro _ => "/detailIntro2"
  | CallDetailImage _ => "/detailImage2"
  | CallDetailPetTour _ => "/detailPetTour2"
  end.

Definition endpointObject (c : EndpointCall) : ParamObject :=
  match c with
  | CallAreaCode p => areaCodeObject p
  | CallAreaBasedList p =>
      spread [ ("numOfRows", PNumber (withDefault (numOfRows p) 10));
               ("pageNo", PNumber (withDefault (pageNo p) 1)) ]
             (areaBasedListRest p)
  | CallSearchKeyword p =>
      spread [ ("numOfRows", PNumber (withDefault (sk_numOfRows p) 10));
               ("pageNo", PNumber (withDefault (sk_pageNo p) 1)) ]
             (searchKeywordRest p)
  | CallDetailCommon p => detailCommonObject p
  | CallDetailIntro p => detailIntroObject p
  | CallDetailImage p => detailImageObject p
  | CallDetailPetTour p => detailPetTourObject p
  end.

(** What the call leaves in the trace, and what it throws if it does. *)
Definition endpointTrace {Item} (network : nat -> Url -> NetOutcome Item)
           (env : Env) (c : EndpointCall) (t : Trace) : Trace :=
  match c with
  | CallAreaCode p => snd (getAreaCode network env p t)
  | CallAreaBasedList p => snd (getAreaBasedList network env p t)
  | CallSearchKeyword p => snd (searchKeyword network env p t)
  | CallDetailCommon p => snd (getDetailCommon network env p t)
  | CallDetailIntro p => snd (getDetailIntro network env p t)
  | CallDetailImage p => snd (getDetailImage network env p t)
  | CallDetailPetTour p => snd (getDetailPetTour network env p t)
  end.

Definition thrownBy {A S} (r : Outcome A * S) : option Exn :=
  match fst r with
  | Returned _ => None
  | Thrown e => Some e
  end.

Definition endpointThrown {Item} (network : nat -> Url -> NetOutcome Item)
           (env : Env) (c : EndpointCall) (t : Trace) : option Exn :=
  match c with
  | CallAreaCode p => thrownBy (getAreaCode network env p t)
  | CallAreaBasedList p => thrownBy (getAreaBasedList network env p t)
  | CallSearchKeyword p => thrownBy (searchKeyword network env p t)
  | CallDetailCommon p => thrownBy (getDetailCommon network env p t)
  | CallDetailIntro p => thrownBy (getDetailIntro network env p t)
  | CallDetailImage p => thrownBy (getDetailImage network env p t)
  | CallDetailPetTour p => thrownBy (getDetailPetTour network env p t)
  end.

Definition sampleListParams : GetAreaBasedListParams :=
  {| areaCode := Some "1"; contentTypeId := Some "12";
     numOfRows := None; pageNo := None;
     sigunguCode := None; cat1 := None; cat2 := None; cat3 := None |}.

(** The message prefixes of a client: for a response that is not OK and
    for an error that is not a [TourApiError]. *)
Definition fetchPrefix (c : EndpointCall) : string :=
  match c with
  | CallAreaCode _ => "Failed to fetch area codes: "
  | CallAreaBasedList _ => "Failed to fetch area based list: "
  | CallSearchKeyword _ => "Failed to search keyword: "
  | CallDetailCommon _ => "Failed to fetch detail common: "
  | CallDetailIntro _ => "Failed to fetch detail intro: "
  | CallDetailImage _ => "Failed to fetch detail image: "
  | CallDetailPetTour _ => "Failed to fetch pet tour info: "
  end.

Definition wrapPrefix (c : EndpointCall) : string :=
  match c with
  | CallAreaCode _ => "Failed to get area codes"
  | CallAreaBasedList _ => "Failed to get area based list"
  | CallSearchKeyword _ => "Failed to search keyword"
  | CallDetailCommon _ => "Failed to get detail common"
  | CallDetailIntro _ => "Failed to get detail intro"
  | CallDetailImage _ => "Failed to get detail image"
  | CallDetailPetTour _ => "Failed to get pet tour info"
  end.

(** The two optional endpoints, whose catch block inspects the message. *)
Definition inspectsMessage (c : EndpointCall) : bool :=
  match c with
  | CallDetailImage _ | CallDetailPetTour _ => true
  | _ => false
  end.

(** The array an [item] field normalises to, when it is present. *)
Definition itemsOf {Item} (i : ItemField Item) : option (list Item) :=
  match i with
  | ItemUndefined | ItemNull => None
  | ItemObject x => Some [x]
  | ItemArray xs => Some xs
  end.

Definition invalidBody (code : Z) (text message : string) : Response string :=
  {| status := code; statusText := text; body := JsonInvalid message |}.

Definition answers (r : Response string) : nat -> Url -> NetOutcome string :=
  fun _ _ => NetResponse r.

Definition pagedEnvelope (i : ItemField string) (total page rows : option Z)
  : ApiResponse string :=
  {| item := i; body_totalCount := total;
     body_numOfRows := rows; body_pageNo := page |}.

(* ================================================================== *)
(** * Further definitions: statistics and their chart *)

(** [s] is [l] with some elements left out, the order being kept. *)
Inductive Subsequence {A} : list A -> list A -> Prop :=
| sub_nil : Subsequence [] []
| sub_skip x l s : Subsequence s l -> Subsequence s (x :: l)
| sub_keep x l s : Subsequence s l -> Subsequence (x :: s) (x :: l).

(** components/stats/region-chart.tsx: a row of the chart. *)
Record ChartDataItem : Type := {
  chart_name : string;
  chart_value : Z;
  chart_code : string
}.

(** What [RegionChart] renders: the client chart with its data, or the
    error box of its catch block. *)
Inductive RegionChartView : Type :=
| RegionChartClient (data : list ChartDataItem)
| RegionChartError.

(** [regionStats.sort((a, b) => b.count - a.count).slice(0, 10).map(...)] *)
Definition regionChartData (regionStats : list RegionStats)
  : list ChartDataItem :=
  map (fun region =>
         {| chart_name := rs_name region;
            chart_value := rs_count region;
            chart_code := rs_code region |})
      (firstn 10 (sort (fun a b => rs_count b - rs_count a) regionStats)).

Definition RegionChart (areaCodeCall : Outcome (list AreaCode))
           (areaBasedListCall : ListCalls) : RegionChartView :=
  match getRegionStats areaCodeCall areaBasedListCall with
  | Returned regionStats => RegionChartClient (regionChartData regionStats)
  | Thrown _ => RegionChartError
  end.

(** The first [n] of a list and the rest, by descending count. *)
Definition TopOf {A} (count : A -> Z) (n : nat) (l top : list A) : Prop :=
  List.length top = Nat.min n (List.length l)
  /\ StronglySorted (geCount count) top
  /\ exists rest,
       Permutation l (top ++ rest)
       /\ forall a b, In a top -> In b rest -> count a >= count b.

Definition allDown : ListCalls := fun _ _ _ => answerWith None.

(* ================================================================== *)
(** * lib/types/stats.ts : names of content types *)

(** [CONTENT_TYPES]: the own properties of the table, by key. *)
Definition CONTENT_TYPES : list (string * ContentType) :=
  [ ("12", {| ct_id := "12"; ct_name := "관광지" |});
    ("14", {| ct_id := "14"; ct_name := "문화시설" |});
    ("15", {| ct_id := "15"; ct_name := "축제/행사" |});
    ("25", {| ct_id := "25"; ct_name := "여행코스" |});
    ("28", {| ct_id := "28"; ct_name := "레포츠" |});
    ("32", {| ct_id := "32"; ct_name := "숙박" |});
    ("38", {| ct_id := "38"; ct_name := "쇼핑" |});
    ("39", {| ct_id := "39"; ct_name := "음식점" |}) ].

(** The functions a plain object inherits from [Object.prototype]; the
    property read [CONTENT_TYPES[id]] finds them when [id] is not an own
    key, and their [name] is the property name ([Object] for the
    constructor).  [__proto__] yields the prototype object, which has no
    [name]. *)
Definition inheritedFunctions : list string :=
  [ "hasOwnProperty"; "isPrototypeOf"; "propertyIsEnumerable";
    "toLocaleString"; "toString"; "valueOf"; "__defineGetter__";
    "__defineSetter__"; "__lookupGetter__"; "__lookupSetter__" ].

Definition inheritedName (id : string) : option string :=
  if String.eqb id "constructor" then Some "Object"
  else if existsb (String.eqb id) inheritedFunctions then Some id
  else None.

Definition unknownTypeName : string := "알 수 없음".

(** [CONTENT_TYPES[id]?.name || "알 수 없음"] *)
Definition getContentTypeName (id : string) : string :=
  let name_ :=
    match assocGet id CONTENT_TYPES with
    | Some type => Some (ct_name type)
    | None => inheritedName id
    end in
  if truthy name_ then
    match name_ with
    | Some n => n
    | None => unknownTypeName
    end
  else unknownTypeName.

(** [Object.values(CONTENT_TYPES).find((type) => type.name === name)?.id] *)
Definition getContentTypeId (name_ : string) : option string :=
  match find (fun type => String.eqb (ct_name type) name_)
             (map snd CONTENT_TYPES) with
  | Some entry => Some (ct_id entry)
  | None => None
  end.

(* ================================================================== *)
(** * The detail page: share URL and description *)

(** [s.replace(/\/$/, "")]: one slash at the very end is removed. *)
Fixpoint dropTrailingSlash (s : string) : string :=
  match s with
  | EmptyString => EmptyString
  | String c rest =>
      match rest with
      | EmptyString => if Ascii.eqb c "/" then EmptyString else s
      | String _ _ => String c (dropTrailingSlash rest)
      end
  end.

Fixpoint endsWithSlash (s : string) : bool :=
  match s with
  | EmptyString => false
  | String c rest =>
      match rest with
      | EmptyString => Ascii.eqb c "/"
      | String _ _ => endsWithSlash rest
      end
  end.

(** [typeof process.env.NEXT_PUBLIC_SITE_URL === "string"
      ? process.env.NEXT_PUBLIC_SITE_URL.replace(/\/$/, "") : ""] *)
Definition siteOrigin (NEXT_PUBLIC_SITE_URL : option string) : string :=
  match NEXT_PUBLIC_SITE_URL with
  | Some site => dropTrailingSlash site
  | None => ""
  end.

(** [origin ? `${origin}/places/${contentId}` : `/places/${contentId}`],
    in [PlaceDetailContent] (the share button) and in [generateMetadata]
    (the Open Graph URL). *)
Definition shareUrl (NEXT_PUBLIC_SITE_URL : option string) (contentId : string)
  : string :=
  let origin := siteOrigin NEXT_PUBLIC_SITE_URL in
  if truthy (Some origin) then origin +++ "/places/" +++ contentId
  else "/places/" +++ contentId.

Section Description.

(** A string as the sequence of its UTF-16 code units, of which only the
    two angle brackets are told apart. *)
Variable CodeUnit : Type.
Variable isLt : CodeUnit -> bool.
Variable isGt : CodeUnit -> bool.

(** [s.replace(/<[^>]*>/g, "")], scanning from the left: a [<] with a
    [>] somewhere after it starts a match that runs to the nearest such
    [>]; a [<] with no [>] after it stays.  [inTag] says that the scan is
    inside a match. *)
Fixpoint stripFrom (inTag : bool) (s : list CodeUnit) : list CodeUnit :=
  match s with
  | [] => []
  | c :: rest =>
      if inTag then
        if isGt c then stripFrom false rest else stripFrom true rest
      else if isLt c && existsb isGt rest then stripFrom true rest
      else c :: stripFrom false rest
  end.

Definition stripTags (s : list CodeUnit) : list CodeUnit := stripFrom false s.

(** [detailData.overview
      ? detailData.overview.replace(/<[^>]*>/g, "").substring(0, 100)
      : fallback] in [generateMetadata]. *)
Definition metadataDescription (overview : option (list CodeUnit))
           (fallback : list CodeUnit) : list CodeUnit :=
  match overview with
  | Some (c :: rest) => firstn 100 (stripTags (c :: rest))
  | Some [] | None => fallback
  end.

(** No [<] of the text has a [>] after it. *)
Definition NoCompleteTag (s : list CodeUnit) : Prop :=
  forall before c after,
    s = before ++ c :: after -> isLt c = true -> existsb isGt after = false.

End Description.

Arguments stripFrom {CodeUnit} isLt isGt inTag s.
Arguments stripTags {CodeUnit} isLt isGt s.
Arguments metadataDescription {CodeUnit} isLt isGt overview fallback.
Arguments NoCompleteTag {CodeUnit} isLt isGt s.

(** Code units as ASCII characters, for examples. *)
Definition asciiLt (c : ascii) : bool := Ascii.eqb c "<".
Definition asciiGt (c : ascii) : bool := Ascii.eqb c ">".

(* ================================================================== *)
(** * app/api/tour/route.ts *)

(** [URLSearchParams]: the pairs of the query in order; [get] is
    [assocGet]. *)
Definition SearchParams : Type := list (string * string).

(** [getQueryParam(searchParams, key, required)] *)
Definition getQueryParam (searchParams : SearchParams) (key : string)
           (required : bool) : Outcome (option string) :=
  let value := assocGet key searchParams in
  if required && negb (truthy value) then
    Thrown (JsError ("Missing required parameter: " +++ key))
  else
    (* value || undefined *)
    Returned (if truthy value then value else None).

Section Route.

Variable Item : Type.

(** The [data] of a success body. *)
Inductive RouteData : Type :=
| DataItem (x : Item)
| DataItems (l : list Item)
| DataList (r : ListResponse Item)
| DataNull.

(** [ApiSuccessResponse<T> | ApiErrorResponse] *)
Inductive RouteBody : Type :=
| Success (data : RouteData)
| Failure (error : string) (statusCode : Z).

Record HttpResponse : Type := {
  http_status : Z;
  http_body : RouteBody
}.

(** [NextResponse.json(body, { status })]: the [Response] constructor
    refuses a status outside 200..599 with a RangeError. *)
Definition jsonResponse (body_ : RouteBody) (status_ : Z)
  : Outcome HttpResponse :=
  if (200 <=? status_) && (status_ <=? 599) then
    Returned {| http_status := status_; http_body := body_ |}
  else
    Thrown (JsError "init.status must be in the range of 200 to 599, inclusive.").

(** [handleError(error)] *)
Definition handleError (error : Exn) : Outcome HttpResponse :=
  match error with
  | TourApiError message code _ =>
      let statusCode_ := orElse code 500 in
      jsonResponse (Failure message statusCode_) statusCode_
  | JsError message =>
      if includes "Missing required parameter" message
         || includes "Invalid" message then
        jsonResponse (Failure message 400) 400
      else
        jsonResponse (Failure "Internal server error" 500) 500
  end.

Variable network : nat -> Url -> NetOutcome Item.
Variable env : Env.

(** [NextResponse.json({ success: true, data })] *)
Definition respond (data : RouteData) : M Trace HttpResponse :=
  ret {| http_status := 200; http_body := Success data |}.

(** [if (!value) throw new Error(`Missing required parameter: ${key}`)] *)
Definition requireParam (value : option string) (key : string)
  : M Trace string :=
  match value with
  | Some v =>
      if truthy value then ret v
      else throw (JsError ("Missing required parameter: " +++ key))
  | None => throw (JsError ("Missing required parameter: " +++ key))
  end.

Definition handleDetailCommon (searchParams : SearchParams)
  : M Trace HttpResponse :=
  contentId_ <- lift (getQueryParam searchParams "contentId" true) ;;
  contentId <- requireParam contentId_ "contentId" ;;
  contentTypeId_ <- lift (getQueryParam searchParams "contentTypeId" false) ;;
  defaultYN_ <- lift (getQueryParam searchParams "defaultYN" false) ;;
  firstImageYN_ <- lift (getQueryParam searchParams "firstImageYN" false) ;;
  areacodeYN_ <- lift (getQueryParam searchParams "areacodeYN" false) ;;
  catcodeYN_ <- lift (getQueryParam searchParams "catcodeYN" false) ;;
  addrinfoYN_ <- lift (getQueryParam searchParams "addrinfoYN" false) ;;
  mapinfoYN_ <- lift (getQueryParam searchParams "mapinfoYN" false) ;;
  overviewYN_ <- lift (getQueryParam searchParams "overviewYN" false) ;;
  data <- getDetailCommon network env
            {| dc_contentId := contentId;
               dc_contentTypeId := contentTypeId_;
               defaultYN := defaultYN_;
               firstImageYN := firstImageYN_;
               areacodeYN := areacodeYN_;
               catcodeYN := catcodeYN_;
               addrinfoYN := addrinfoYN_;
               mapinfoYN := mapinfoYN_;
               overviewYN := overviewYN_ |} ;;
  respond (DataItem data).

Definition handleDetailIntro (searchParams : SearchParams)
  : M Trace HttpResponse :=
  contentId_ <- lift (getQueryParam searchParams "contentId" true) ;;
  contentTypeId_ <- lift (getQueryParam searchParams "contentTypeId" true) ;;
  contentId <- requireParam contentId_ "contentId" ;;
  contentTypeId <- requireParam contentTypeId_ "contentTypeId" ;;
  data <- getDetailIntro network env
            {| di_contentId := contentId;
               di_contentTypeId := contentTypeId |} ;;
  respond (DataItem data).

Definition handleDetailImage (searchParams : SearchParams)
  : M Trace HttpResponse :=
  contentId_ <- lift (getQueryParam searchParams "contentId" true) ;;
  contentId <- requireParam contentId_ "contentId" ;;
  imageYN_ <- lift (getQueryParam searchParams "imageYN" false) ;;
  subImageYN_ <- lift (getQueryParam searchParams "subImageYN" false) ;;
  data <- getDetailImage network env
            {| im_contentId := contentId;
               imageYN := imageYN_;
               subImageYN := subImageYN_ |} ;;
  respond (DataItems data).

Definition handleDetailPet (searchParams : SearchParams)
  : M Trace HttpResponse :=
  contentId_ <- lift (getQueryParam searchParams "contentId" true) ;;
  contentId <- requireParam contentId_ "contentId" ;;
  data <- getDetailPetTour network env {| pt_contentId := contentId |} ;;
  respond (match data with
           | Some x => DataItem x
           | None => DataNull
           end).

(** The three list handlers read numbers with [Number(value)], whose
    results need not be integers; they are left as parameters of [GET]. *)
Variable handleAreaCode : SearchParams -> M Trace HttpResponse.
Variable handleAreaBasedList : SearchParams -> M Trace HttpResponse.
Variable handleSearch : SearchParams -> M Trace HttpResponse.

(** [GET(request)], from the search parameters of the request URL on. *)
Definition GET (searchParams : SearchParams) : M Trace HttpResponse :=
  try_catch
    (let endpoint := assocGet "endpoint" searchParams in
     match endpoint with
     | Some e =>
         if negb (truthy endpoint) then
           lift (jsonResponse
                   (Failure "Missing required parameter: endpoint" 400) 400)
         else if String.eqb e "area-code" then handleAreaCode searchParams
         else if String.eqb e "area-based-list" then
           handleAreaBasedList searchParams
         else if String.eqb e "search" then handleSearch searchParams
         else if String.eqb e "detail/common" then
           handleDetailCommon searchParams
         else if String.eqb e "detail/intro" then
           handleDetailIntro searchParams
         else if String.eqb e "detail/image" then
           handleDetailImage searchParams
         else if String.eqb e "detail/pet" then handleDetailPet searchParams
         else
           lift (jsonResponse (Failure ("Unknown endpoint: " +++ e) 400) 400)
     | None =>
         lift (jsonResponse
                 (Failure "Missing required parameter: endpoint" 400) 400)
     end)
    (fun error => lift (handleError error)).

End Route.

Arguments DataItem {Item} x.
Arguments DataItems {Item} l.
Arguments DataList {Item} r.
Arguments DataNull {Item}.
Arguments Success {Item} data.
Arguments Failure {Item} error statusCode.
Arguments http_status {Item} _.
Arguments http_body {Item} _.
Arguments jsonResponse {Item} body_ status_.
Arguments handleError {Item} error.
Arguments respond {Item} data.
Arguments handleDetailCommon {Item} network env searchParams.
Arguments handleDetailIntro {Item} network env searchParams.
Arguments handleDetailImage {Item} network env searchParams.
Arguments handleDetailPet {Item} network env searchParams.
Arguments GET {Item} network env handleAreaCode handleAreaBasedList
          handleSearch searchParams.

(** The four routes that are modelled in full. *)
Definition detailRoutes : list string :=
  [ "detail/common"; "detail/intro"; "detail/image"; "detail/pet" ].

Definition listRoutes : list string :=
  [ "area-code"; "area-based-list"; "search" ].

(** [value || undefined] for an optional query parameter. *)
Definition optionalParam (searchParams : SearchParams) (key : string)
  : option string :=
  if truthy (assocGet key searchParams) then assocGet key searchParams
  else None.

(** The client call a detail route makes for a query that has the
    required parameters. *)
Definition routeCall (searchParams : SearchParams) : option EndpointCall :=
  match optionalParam searchParams "endpoint",
        optionalParam searchParams "contentId" with
  | Some e, Some id =>
      if String.eqb e "detail/common" then
        Some (CallDetailCommon
                {| dc_contentId := id;
                   dc_contentTypeId := optionalParam searchParams "contentTypeId";
                   defaultYN := optionalParam searchParams "defaultYN";
                   firstImageYN := optionalParam searchParams "firstImageYN";
                   areacodeYN := optionalParam searchParams "areacodeYN";
                   catcodeYN := optionalParam searchParams "catcodeYN";
                   addrinfoYN := optionalParam searchParams "addrinfoYN";
                   mapinfoYN := optionalParam searchParams "mapinfoYN";
                   overviewYN := optionalParam searchParams "overviewYN" |})
      else if String.eqb e "detail/intro" then
        match optionalParam searchParams "contentTypeId" with
        | Some type =>
            Some (CallDetailIntro
                    {| di_contentId := id; di_contentTypeId := type |})
        | None => None
        end
      else if String.eqb e "detail/image" then
        Some (CallDetailImage
                {| im_contentId := id;
                   imageYN := optionalParam searchParams "imageYN";
                   subImageYN := optionalParam searchParams "subImageYN" |})
      else if String.eqb e "detail/pet" then
        Some (CallDetailPetTour {| pt_contentId := id |})
      else None
  | _, _ => None
  end.

(** The outcome of a client call as the data of a route. *)
Definition dataOf {Item A} (f : A -> RouteData Item)
           (r : Outcome A * Trace) : Outcome (RouteData Item) * Trace :=
  match r with
  | (Returned a, t) => (Returned (f a), t)
  | (Thrown e, t) => (Thrown e, t)
  end.

Definition endpointData {Item} (network : nat -> Url -> NetOutcome Item)
           (env : Env) (c : EndpointCall) (t : Trace)
  : Outcome (RouteData Item) * Trace :=
  match c with
  | CallAreaCode p => dataOf DataItems (getAreaCode network env p t)
  | CallAreaBasedList p => dataOf DataList (getAreaBasedList network env p t)
  | CallSearchKeyword p => dataOf DataList (searchKeyword network env p t)
  | CallDetailCommon p => dataOf DataItem (getDetailCommon network env p t)
  | CallDetailIntro p => dataOf DataItem (getDetailIntro network env p t)
  | CallDetailImage p => dataOf DataItems (getDetailImage network env p t)
  | CallDetailPetTour p =>
      dataOf (fun o => match o with
                       | Some x => DataItem x
                       | None => DataNull
                       end)
             (getDetailPetTour network env p t)
  end.

(** The handler [GET] runs for one of the four detail routes. *)
Definition detailHandler {Item} (network : nat -> Url -> NetOutcome Item)
           (env : Env) (e : string)
  : SearchParams -> M Trace (HttpResponse Item) :=
  if String.eqb e "detail/common" then handleDetailCommon network env
  else if String.eqb e "detail/intro" then handleDetailIntro network env
  else if String.eqb e "detail/image" then handleDetailImage network env
  else handleDetailPet network env.

(** The response of a rejected request. *)
Definition badRequest {Item} (message : string) : HttpResponse Item :=
  {| http_status := 400; http_body := Failure message 400 |}.

(** Every response of the provider has a status between [lo] and [hi]. *)
Definition statusesWithin {Item} (network : nat -> Url -> NetOutcome Item)
           (lo hi : Z) : Prop :=
  forall i url r, network i url = NetResponse r -> lo <= status r <= hi.

(** Body and status line of a response agree: a success is a 200, a
    failure carries its own status, which is never a 2xx. *)
Definition consistent {Item} (r : HttpResponse Item) : Prop :=
  match http_body r with
  | Success _ => http_status r = 200
  | Failure _ code => http_status r = code /\ 300 <= code <= 599
  end.

(** The query [?endpoint=e&contentId=id]. *)
Definition detailQuery (e id : string) : SearchParams :=
  [ ("endpoint", e); ("contentId", id) ].

(** A list handler that answers without a request. *)
Definition sampleListHandler : SearchParams -> M Trace (HttpResponse string) :=
  fun _ => respond (DataItems []).

(** The URL a client requests with the credential [key]. *)
Definition endpointUrl (key : string) (c : EndpointCall) : Url :=
  {| path := BASE_URL +++ endpointPath c;
     query := filterParams (spread (serviceParams key) (endpointObject c)) |}.

(** The answer of a detail route to an upstream 404. *)
Definition upstream404Answer {Item} (c : EndpointCall) : HttpResponse Item :=
  match c with
  | CallDetailPetTour _ =>
      {| http_status := 200; http_body := Success DataNull |}
  | _ =>
      {| http_status := 404;
         http_body := Failure "API request failed with status 404" 404 |}
  end.

(* ================================================================== *)
(** * Facts: the retrying fetcher *)

Lemma attempts_app (t u : Trace) :
  attempts (t ++ u) = (attempts t + attempts u)%nat.
Proof.
  induction t as [| [url | ms] t IH]; simpl; auto.
Qed.

Lemma sleeps_app (t u : Trace) : sleeps (t ++ u) = sleeps t ++ sleeps u.
Proof.
  induction t as [| [url | ms] t IH]; simpl; auto.
  now rewrite IH.
Qed.

Lemma attempts_backoffSchedule url n a :
  attempts (backoffSchedule url n a) = S n.
Proof.
  revert a; induction n as [| n IH]; intros a; simpl; auto.
Qed.

Section FetcherFacts.

Variable Item : Type.
Variable network : nat -> Url -> NetOutcome Item.
Variable url : Url.

Ltac run_attempt H :=
  unfold attemptOnce, try_catch, bind, fetch, sleep, ret, throw;
  rewrite H.

Ltac decide_test b v :=
  replace b with v
    by (symmetry;
        first [ apply Z.leb_le | apply Z.leb_gt | apply Z.ltb_lt
              | apply Z.ltb_ge ]; lia).

Lemma attemptOnce_4xx maxRetries attempt lastError t r :
  network (attempts t) url = NetResponse r ->
  400 <= status r < 500 ->
  attemptOnce network url maxRetries attempt lastError t
  = (Thrown (TourApiError
               ("API request failed with status " +++ showZ (status r))
               (Some (status r)) None),
     t ++ [EvFetch url]).
Proof.
  intros Hnet Hst.
  run_attempt Hnet.
  decide_test (400 <=? status r) true.
  decide_test (status r <? 500) true.
  reflexivity.
Qed.

Lemma attemptOnce_5xx_retry maxRetries attempt lastError t r :
  network (attempts t) url = NetResponse r ->
  500 <= status r ->
  attempt < maxRetries ->
  attemptOnce network url maxRetries attempt lastError t
  = (Returned (Next lastError),
     (t ++ [EvFetch url]) ++ [EvSleep (backoffDelay attempt)]).
Proof.
  intros Hnet Hst Hlt.
  run_attempt Hnet.
  decide_test (status r <? 500) false.
  decide_test (500 <=? status r) true.
  decide_test (attempt <? maxRetries) true.
  rewrite andb_false_r. reflexivity.
Qed.

Lemma attemptOnce_5xx_last maxRetries attempt lastError t r :
  network (attempts t) url = NetResponse r ->
  500 <= status r ->
  maxRetries <= attempt ->
  attemptOnce network url maxRetries attempt lastError t
  = (Thrown (TourApiError
               ("API request failed with status " +++ showZ (status r)
                  +++ " after " +++ showZ maxRetries +++ " retries")
               (Some (status r)) None),
     t ++ [EvFetch url]).
Proof.
  intros Hnet Hst Hge.
  run_attempt Hnet.
  decide_test (status r <? 500) false.
  decide_test (500 <=? status r) true.
  decide_test (attempt <? maxRetries) false.
  rewrite andb_false_r. reflexivity.
Qed.

Lemma attemptOnce_failure_retry maxRetries attempt lastError t m :
  network (attempts t) url = NetFailure m ->
  attempt < maxRetries ->
  attemptOnce network url maxRetries attempt lastError t
  = (Returned (Next (Some (JsError m))),
     (t ++ [EvFetch url]) ++ [EvSleep (backoffDelay attempt)]).
Proof.
  intros Hnet Hlt.
  run_attempt Hnet. simpl.
  decide_test (attempt <? maxRetries) true.
  reflexivity.
Qed.

Lemma attemptOnce_success maxRetries attempt lastError t r :
  network (attempts t) url = NetResponse r ->
  status r < 400 ->
  attemptOnce network url maxRetries attempt lastError t
  = (Returned (Done r), t ++ [EvFetch url]).
Proof.
  intros Hnet Hst.
  run_attempt Hnet.
  decide_test (400 <=? status r) false.
  decide_test (500 <=? status r) false.
  reflexivity.
Qed.

(** A retryable answer with retries left: one request, one sleep, and the
    loop goes on. *)
Lemma attemptOnce_retryable maxRetries attempt lastError t :
  retryable (network (attempts t) url) ->
  attempt < maxRetries ->
  exists lastError',
    attemptOnce network url maxRetries attempt lastError t
    = (Returned (Next lastError'),
       (t ++ [EvFetch url]) ++ [EvSleep (backoffDelay attempt)]).
Proof.
  intros Hre Hlt.
  destruct (network (attempts t) url) as [r | m] eqn:Hnet; simpl in Hre.
  - exists lastError. now apply (attemptOnce_5xx_retry _ _ _ _ r).
  - exists (Some (JsError m)). now apply (attemptOnce_failure_retry _ _ _ _ m).
Qed.

Lemma retryLoop_step n maxRetries attempt lastError t :
  retryLoop network (S n) url maxRetries attempt lastError t
  = match attemptOnce network url maxRetries attempt lastError t with
    | (Returned (Done response), t') => (Returned response, t')
    | (Returned (Next lastError'), t') =>
        retryLoop network n url maxRetries (attempt + 1) lastError' t'
    | (Thrown e, t') => (Thrown e, t')
    end.
Proof.
  simpl. unfold bind at 1.
  destruct (attemptOnce network url maxRetries attempt lastError t)
    as [[[response | lastError'] | e] t']; reflexivity.
Qed.

(** A 4xx answer stops the loop wherever it arrives: after [k] retryable
    answers it is request number [k + 1], and the last event. *)
Lemma retryLoop_4xx_stops maxRetries r :
  400 <= status r < 500 ->
  forall (k n : nat) attempt lastError t,
    (k <= n)%nat ->
    attempt + Z.of_nat n = maxRetries ->
    (forall i, (i < k)%nat -> retryable (network (attempts t + i) url)) ->
    network (attempts t + k) url = NetResponse r ->
    exists t',
      retryLoop network (S n) url maxRetries attempt lastError t
      = (Thrown (TourApiError
                   ("API request failed with status " +++ showZ (status r))
                   (Some (status r)) None),
         t' ++ [EvFetch url])
      /\ attempts (t' ++ [EvFetch url]) = (attempts t + k + 1)%nat.
Proof.
  intros Hst k.
  induction k as [| k IH]; intros n attempt lastError t Hkn Hsum Hpre Hnet.
  - exists t. rewrite retryLoop_step.
    rewrite Nat.add_0_r in Hnet.
    rewrite (attemptOnce_4xx _ _ _ _ _ Hnet Hst).
    split; [reflexivity |].
    rewrite attempts_app. simpl. lia.
  - destruct n as [| n]; [lia |].
    rewrite retryLoop_step.
    destruct (attemptOnce_retryable maxRetries attempt lastError t)
      as [le' Hstep].
    + specialize (Hpre O). rewrite Nat.add_0_r in Hpre. apply Hpre. lia.
    + lia.
    + rewrite Hstep.
      set (t1 := (t ++ [EvFetch url]) ++ [EvSleep (backoffDelay attempt)]).
      assert (Hat : attempts t1 = S (attempts t)).
      { unfold t1. rewrite !attempts_app. simpl. lia. }
      destruct (IH n (attempt + 1) le' t1) as [t' [Hrun Hcount]].
      * lia.
      * lia.
      * intros i Hi. rewrite Hat.
        replace (S (attempts t) + i)%nat with (attempts t + S i)%nat by lia.
        apply Hpre. lia.
      * rewrite Hat.
        replace (S (attempts t) + k)%nat with (attempts t + S k)%nat by lia.
        exact Hnet.
      * exists t'. split; [exact Hrun |]. rewrite Hcount, Hat. lia.
Qed.

(** Only 5xx answers: the loop uses every attempt, sleeps
    [2^attempt * 1000] ms between two of them and throws after the last. *)
Lemma retryLoop_all_5xx maxRetries :
  forall (n : nat) attempt lastError t,
    attempt + Z.of_nat n = maxRetries ->
    (forall i, (i <= n)%nat ->
       exists r, network (attempts t + i) url = NetResponse r
                 /\ 500 <= status r) ->
    exists rlast,
      network (attempts t + n) url = NetResponse rlast
      /\ 500 <= status rlast
      /\ retryLoop network (S n) url maxRetries attempt lastError t
         = (Thrown (TourApiError
                      ("API request failed with status "
                         +++ showZ (status rlast)
                         +++ " after " +++ showZ maxRetries +++ " retries")
                      (Some (status rlast)) None),
            t ++ backoffSchedule url n attempt).
Proof.
  induction n as [| n IH]; intros attempt lastError t Hsum Hall.
  - destruct (Hall O) as [r [Hnet Hst]]; [lia |].
    exists r. split; [exact Hnet | split; [exact Hst |]].
    rewrite Nat.add_0_r in Hnet.
    rewrite retryLoop_step.
    rewrite (attemptOnce_5xx_last _ _ _ _ _ Hnet Hst); [reflexivity |].
    simpl in Hsum. lia.
  - destruct (Hall O) as [r [Hnet Hst]]; [lia |].
    rewrite Nat.add_0_r in Hnet.
    rewrite retryLoop_step.
    rewrite (attemptOnce_5xx_retry _ _ _ _ _ Hnet Hst); [| lia].
    set (t1 := (t ++ [EvFetch url]) ++ [EvSleep (backoffDelay attempt)]).
    assert (Hat : attempts t1 = S (attempts t)).
    { unfold t1. rewrite !attempts_app. simpl. lia. }
    destruct (IH (attempt + 1) lastError t1) as [rlast [Hlast [Hst' Hrun]]].
    + lia.
    + intros i Hi. rewrite Hat.
      replace (S (attempts t) + i)%nat with (attempts t + S i)%nat by lia.
      apply Hall. lia.
    + exists rlast. split; [| split; [exact Hst' |]].
      * rewrite Hat in Hlast.
        replace (attempts t + S n)%nat with (S (attempts t) + n)%nat by lia.
        exact Hlast.
      * rewrite Hrun. unfold t1, backoffDelay. simpl.
        now rewrite <- !app_assoc.
Qed.

End FetcherFacts.

Lemma sleeps_backoffSchedule url n a :
  sleeps (backoffSchedule url n a) = backoffDelays a n.
Proof.
  unfold backoffDelays.
  revert a; induction n as [| n IH]; intros a; simpl; [reflexivity |].
  rewrite IH, <- seq_shift, map_map. f_equal.
  - now rewrite Z.add_0_r.
  - apply map_ext. intros i. do 2 f_equal. lia.
Qed.

(** A status below 400 is handed back as it is, after the one request. *)
Lemma fetchWithRetry_success
      (Item : Type) (network : nat -> Url -> NetOutcome Item)
      (url : Url) (maxRetries : Z) (t : Trace) (r : Response Item) :
  0 <= maxRetries ->
  network (attempts t) url = NetResponse r ->
  status r < 400 ->
  fetchWithRetry network url maxRetries t = (Returned r, t ++ [EvFetch url]).
Proof.
  intros Hmax Hnet Hst.
  unfold fetchWithRetry.
  destruct (Z.to_nat (maxRetries + 1)) as [| n] eqn:Hn; [lia |].
  rewrite retryLoop_step.
  now rewrite (attemptOnce_success _ _ _ _ _ _ _ _ Hnet Hst).
Qed.

(** A 4xx answer to the first request: the error is thrown at once. *)
Lemma fetchWithRetry_4xx_throws
      (Item : Type) (network : nat -> Url -> NetOutcome Item)
      (url : Url) (maxRetries : Z) (t : Trace) (r : Response Item) :
  0 <= maxRetries ->
  network (attempts t) url = NetResponse r ->
  400 <= status r < 500 ->
  fetchWithRetry network url maxRetries t
  = (Thrown (TourApiError
               ("API request failed with status " +++ showZ (status r))
               (Some (status r)) None),
     t ++ [EvFetch url]).
Proof.
  intros Hmax Hnet Hst.
  unfold fetchWithRetry.
  destruct (Z.to_nat (maxRetries + 1)) as [| n] eqn:Hn; [lia |].
  rewrite retryLoop_step.
  now rewrite (attemptOnce_4xx _ _ _ _ _ _ _ _ Hnet Hst).
Qed.

(** The same at any later attempt: a 4xx answer that comes after [k]
    retryable ones (transport errors or 5xx) is the last request. *)
Lemma fetchWithRetry_4xx_stops
      (Item : Type) (network : nat -> Url -> NetOutcome Item)
      (url : Url) (maxRetries : Z) (t : Trace) (r : Response Item) (k : nat) :
  Z.of_nat k <= maxRetries ->
  (forall i, (i < k)%nat -> retryable (network (attempts t + i)%nat url)) ->
  network (attempts t + k)%nat url = NetResponse r ->
  400 <= status r < 500 ->
  exists t',
    fetchWithRetry network url maxRetries t
    = (Thrown (TourApiError
                 ("API request failed with status " +++ showZ (status r))
                 (Some (status r)) None),
       t' ++ [EvFetch url])
    /\ attempts (t' ++ [EvFetch url]) = (attempts t + k + 1)%nat.
Proof.
  intros Hk Hpre Hnet Hst.
  unfold fetchWithRetry.
  replace (Z.to_nat (maxRetries + 1)) with (S (Z.to_nat maxRetries)) by lia.
  apply (retryLoop_4xx_stops Item network url maxRetries r Hst k);
    auto; lia.
Qed.

(** C3. When every attempt is answered with a status of 500 or more,
    [fetchWithRetry] makes [maxRetries + 1] requests, sleeps
    [2^attempt * 1000] ms after attempt number [attempt] and before the
    next one, and after the last request throws a [TourApiError] that
    carries the last status code and names the retry count in its message.
    With the default budget of 3 the run is: request, 1000 ms, request,
    2000 ms, request, 4000 ms, request. *)
Theorem fetchWithRetry_5xx_exhausts
        (Item : Type) (network : nat -> Url -> NetOutcome Item)
        (url : Url) (maxRetries : Z) (t : Trace) :
  0 <= maxRetries ->
  (forall i, (i <= Z.to_nat maxRetries)%nat ->
     exists r, network (attempts t + i)%nat url = NetResponse r
               /\ 500 <= status r) ->
  exists rlast t',
    network (attempts t + Z.to_nat maxRetries)%nat url = NetResponse rlast
    /\ fetchWithRetry network url maxRetries t
       = (Thrown (TourApiError
                    ("API request failed with status "
                       +++ showZ (status rlast)
                       +++ " after " +++ showZ maxRetries +++ " retries")
                    (Some (status rlast)) None),
          t')
    /\ t' = t ++ backoffSchedule url (Z.to_nat maxRetries) 0
    /\ Z.of_nat (attempts t') = Z.of_nat (attempts t) + maxRetries + 1
    /\ sleeps t' = sleeps t ++ backoffDelays 0 (Z.to_nat maxRetries)
    /\ (maxRetries = defaultMaxRetries ->
        t' = t ++ [EvFetch url; EvSleep 1000; EvFetch url; EvSleep 2000;
                   EvFetch url; EvSleep 4000; EvFetch url]).
Proof.
  intros Hmax Hall.
  destruct (retryLoop_all_5xx Item network url maxRetries
              (Z.to_nat maxRetries) 0 None t)
    as [rlast [Hlast [_ Hrun]]]; [lia | exact Hall |].
  exists rlast, (t ++ backoffSchedule url (Z.to_nat maxRetries) 0).
  split; [exact Hlast |].
  split.
  { unfold fetchWithRetry.
    replace (Z.to_nat (maxRetries + 1)) with (S (Z.to_nat maxRetries)) by lia.
    exact Hrun. }
  split; [reflexivity |].
  split.
  { rewrite attempts_app, attempts_backoffSchedule. lia. }
  split.
  { now rewrite sleeps_app, sleeps_backoffSchedule. }
  intros ->. reflexivity.
Qed.

Lemma fetchWithRetry_5xx_exhausts_witness :
  exists rlast t',
    alwaysStatus 503 "Service Unavailable" (attempts [] + Z.to_nat 3)%nat sampleUrl
    = NetResponse rlast
    /\ fetchWithRetry (alwaysStatus 503 "Service Unavailable") sampleUrl 3 []
       = (Thrown (TourApiError
                    ("API request failed with status "
                       +++ showZ (status rlast)
                       +++ " after " +++ showZ 3 +++ " retries")
                    (Some (status rlast)) None),
          t')
    /\ t' = [] ++ backoffSchedule sampleUrl (Z.to_nat 3) 0
    /\ Z.of_nat (attempts t') = Z.of_nat (attempts []) + 3 + 1
    /\ sleeps t' = sleeps [] ++ backoffDelays 0 (Z.to_nat 3)
    /\ (3 = defaultMaxRetries ->
        t' = [] ++ [EvFetch sampleUrl; EvSleep 1000; EvFetch sampleUrl;
                    EvSleep 2000; EvFetch sampleUrl; EvSleep 4000;
                    EvFetch sampleUrl]).
Proof.
  apply (fetchWithRetry_5xx_exhausts
           string (alwaysStatus 503 "Service Unavailable") sampleUrl 3 []).
  - lia.
  - intros i _. exists (statusOnly 503 "Service Unavailable").
    split; [reflexivity | simpl; lia].
Defined.

(** A run of only 503 answers with the default budget, evaluated. *)
Example fetchWithRetry_503_default :
  fetchWithRetry (alwaysStatus 503 "Service Unavailable") sampleUrl
                 defaultMaxRetries []
  = (Thrown (TourApiError
               "API request failed with status 503 after 3 retries"
               (Some 503) None),
     [EvFetch sampleUrl; EvSleep 1000; EvFetch sampleUrl; EvSleep 2000;
      EvFetch sampleUrl; EvSleep 4000; EvFetch sampleUrl]).
Proof. vm_compute. reflexivity. Qed.

(* ================================================================== *)
(** * Facts: credential and endpoint clients *)

Lemma getApiKey_missing env :
  truthy (TOUR_API_KEY env) = false ->
  truthy (NEXT_PUBLIC_TOUR_API_KEY env) = false ->
  getApiKey env = Thrown missingKeyError.
Proof.
  intros Hs Hp. unfold getApiKey.
  destruct (serverSide env); simpl.
  - rewrite Hs, Hp. reflexivity.
  - rewrite Hp. reflexivity.
Qed.

Lemma getApiKey_server env k :
  serverSide env = true ->
  TOUR_API_KEY env = Some k ->
  k <> ""%string ->
  getApiKey env = Returned k.
Proof.
  intros Hside Hkey Hne. unfold getApiKey.
  rewrite Hside, Hkey.
  assert (Ht : truthy (Some k) = true).
  { simpl. apply negb_true_iff. now apply String.eqb_neq. }
  cbv zeta. rewrite Ht. cbv iota. rewrite Ht. reflexivity.
Qed.

Lemma getApiKey_public env k :
  truthy (if serverSide env then TOUR_API_KEY env else None) = false ->
  NEXT_PUBLIC_TOUR_API_KEY env = Some k ->
  k <> ""%string ->
  getApiKey env = Returned k.
Proof.
  intros Hs Hkey Hne. unfold getApiKey.
  cbv zeta. rewrite Hs, Hkey.
  assert (Ht : truthy (Some k) = true).
  { simpl. apply negb_true_iff. now apply String.eqb_neq. }
  rewrite Ht. reflexivity.
Qed.

Section EndpointFacts.

Variable Item : Type.
Variable network : nat -> Url -> NetOutcome Item.
Variable env : Env.

Lemma request_missing_key endpoint params (t : Trace) :
  getApiKey env = Thrown missingKeyError ->
  request network env endpoint params t = (Thrown missingKeyError, t).
Proof.
  intros Hkey.
  unfold request, bind, lift, buildUrl, getCommonParams.
  now rewrite Hkey.
Qed.

(** Unfolds an endpoint client up to its request, whose result is known. *)
Ltac after_request Hreq :=
  unfold try_catch, bind; rewrite Hreq.

Lemma isItemsMissing_missingKey : isItemsMissing missingKeyError = false.
Proof. vm_compute. reflexivity. Qed.

Lemma isItemsMissing_parse :
  isItemsMissing (TourApiError itemsMissingMessage None None) = true.
Proof. vm_compute. reflexivity. Qed.

(** Without a credential no endpoint ever reaches the network. *)
Lemma endpoints_missing_key (t : Trace) :
  getApiKey env = Thrown missingKeyError ->
  (forall p, getAreaCode network env p t = (Thrown missingKeyError, t))
  /\ (forall p, getAreaBasedList network env p t = (Thrown missingKeyError, t))
  /\ (forall p, searchKeyword network env p t = (Thrown missingKeyError, t))
  /\ (forall p, getDetailCommon network env p t = (Thrown missingKeyError, t))
  /\ (forall p, getDetailIntro network env p t = (Thrown missingKeyError, t))
  /\ (forall p, getDetailImage network env p t = (Thrown missingKeyError, t))
  /\ (forall p, getDetailPetTour network env p t = (Thrown missingKeyError, t)).
Proof.
  intros Hkey.
  repeat split; intros p.
  - unfold getAreaCode. after_request (request_missing_key "/areaCode2"
      (areaCodeObject p) t Hkey). reflexivity.
  - unfold getAreaBasedList. cbv zeta.
    after_request (request_missing_key "/areaBasedList2"
      (spread [("numOfRows", PNumber (withDefault (numOfRows p) 10));
               ("pageNo", PNumber (withDefault (pageNo p) 1))]%string
              (areaBasedListRest p)) t Hkey). reflexivity.
  - unfold searchKeyword. cbv zeta.
    after_request (request_missing_key "/searchKeyword2"
      (spread [("numOfRows", PNumber (withDefault (sk_numOfRows p) 10));
               ("pageNo", PNumber (withDefault (sk_pageNo p) 1))]%string
              (searchKeywordRest p)) t Hkey). reflexivity.
  - unfold getDetailCommon. after_request (request_missing_key "/detailCommon2"
      (detailCommonObject p) t Hkey). reflexivity.
  - unfold getDetailIntro. after_request (request_missing_key "/detailIntro2"
      (detailIntroObject p) t Hkey). reflexivity.
  - unfold getDetailImage. after_request (request_missing_key "/detailImage2"
      (detailImageObject p) t Hkey).
    rewrite isItemsMissing_missingKey. reflexivity.
  - unfold getDetailPetTour. after_request (request_missing_key "/detailPetTour2"
      (detailPetTourObject p) t Hkey).
    rewrite isItemsMissing_missingKey. reflexivity.
Qed.

End EndpointFacts.

(** C9. The credential is looked up in the environment of the call: on the
    server a non-empty [TOUR_API_KEY] is the key whatever the public
    variable holds; otherwise a non-empty [NEXT_PUBLIC_TOUR_API_KEY] is;
    and when both are absent (or empty) every endpoint throws the
    configuration [TourApiError], which has no status code, and the trace
    is unchanged: no request was issued. *)
Theorem credential_precedence_and_absence :
  (forall env k,
     serverSide env = true -> TOUR_API_KEY env = Some k -> k <> ""%string ->
     getApiKey env = Returned k)
  /\ (forall env k,
        truthy (if serverSide env then TOUR_API_KEY env else None) = false ->
        NEXT_PUBLIC_TOUR_API_KEY env = Some k -> k <> ""%string ->
        getApiKey env = Returned k)
  /\ (forall env (Item : Type) (network : nat -> Url -> NetOutcome Item)
             (t : Trace),
        truthy (TOUR_API_KEY env) = false ->
        truthy (NEXT_PUBLIC_TOUR_API_KEY env) = false ->
        statusCode missingKeyError = None
        /\ isTourApiError missingKeyError = true
        /\ (forall p, getAreaCode network env p t = (Thrown missingKeyError, t))
        /\ (forall p, getAreaBasedList network env p t
                      = (Thrown missingKeyError, t))
        /\ (forall p, searchKeyword network env p t
                      = (Thrown missingKeyError, t))
        /\ (forall p, getDetailCommon network env p t
                      = (Thrown missingKeyError, t))
        /\ (forall p, getDetailIntro network env p t
                      = (Thrown missingKeyError, t))
        /\ (forall p, getDetailImage network env p t
                      = (Thrown missingKeyError, t))
        /\ (forall p, getDetailPetTour network env p t
                      = (Thrown missingKeyError, t))).
Proof.
  split; [exact getApiKey_server |].
  split; [exact getApiKey_public |].
  intros env Item network t Hs Hp.
  split; [reflexivity |].
  split; [reflexivity |].
  apply endpoints_missing_key.
  now apply getApiKey_missing.
Qed.

Lemma credential_precedence_and_absence_witness :
  getApiKey sampleEnv = Returned "server-key"
  /\ getApiKey publicOnlyEnv = Returned "public-key"
  /\ getDetailCommon (alwaysItems ItemUndefined) noKeyEnv
                     sampleCommonParams []
     = (Thrown missingKeyError, []).
Proof.
  split; [| split].
  - apply (proj1 credential_precedence_and_absence sampleEnv "server-key");
      [reflexivity | reflexivity | discriminate].
  - apply (proj1 (proj2 credential_precedence_and_absence)
             publicOnlyEnv "public-key");
      [reflexivity | reflexivity | discriminate].
  - apply (proj2 (proj2 credential_precedence_and_absence)
             noKeyEnv string (alwaysItems ItemUndefined) []);
      reflexivity.
Defined.

Section EndpointResponses.

Variable Item : Type.
Variable network : nat -> Url -> NetOutcome Item.
Variable env : Env.

(** The steps every client takes once its request has returned an OK
    response whose body parses. *)
Ltac with_response Hreq Hok Hbody :=
  unfold try_catch, bind; rewrite Hreq, Hok; cbv [negb];
  unfold json; rewrite Hbody; unfold ret at 1.

Lemma parse_array {S} (data : ApiResponse Item) xs (s : S) :
  item data = ItemArray xs ->
  parseApiResponse data s = (Returned (Many xs), s).
Proof. intros H. unfold parseApiResponse. now rewrite H. Qed.

Lemma getDetailCommon_zero_items params t t' response data parsed :
  request network env "/detailCommon2" (detailCommonObject params) t
  = (Returned response, t') ->
  ok response = true ->
  body response = JsonOk data ->
  parseApiResponse data t' = (Returned parsed, t') ->
  normalizeToArray parsed = [] ->
  getDetailCommon network env params t
  = (Thrown (TourApiError
               ("Tour detail not found for contentId: " +++ dc_contentId params)
               (Some 404) None),
     t').
Proof.
  intros Hreq Hok Hbody Hparse Hnorm.
  unfold getDetailCommon. with_response Hreq Hok Hbody.
  rewrite Hparse. cbv zeta. rewrite Hnorm. reflexivity.
Qed.

Lemma getDetailCommon_first params t t' response data x y rest :
  request network env "/detailCommon2" (detailCommonObject params) t
  = (Returned response, t') ->
  ok response = true ->
  body response = JsonOk data ->
  item data = ItemArray (x :: y :: rest) ->
  getDetailCommon network env params t = (Returned x, t').
Proof.
  intros Hreq Hok Hbody Hitem.
  unfold getDetailCommon. with_response Hreq Hok Hbody.
  rewrite (parse_array data _ t' Hitem). reflexivity.
Qed.

Lemma getDetailIntro_first params t t' response data x y rest :
  request network env "/detailIntro2" (detailIntroObject params) t
  = (Returned response, t') ->
  ok response = true ->
  body response = JsonOk data ->
  item data = ItemArray (x :: y :: rest) ->
  getDetailIntro network env params t = (Returned x, t').
Proof.
  intros Hreq Hok Hbody Hitem.
  unfold getDetailIntro. with_response Hreq Hok Hbody.
  rewrite (parse_array data _ t' Hitem). reflexivity.
Qed.

Lemma getDetailPetTour_first params t t' response data x y rest :
  request network env "/detailPetTour2" (detailPetTourObject params) t
  = (Returned response, t') ->
  ok response = true ->
  body response = JsonOk data ->
  item data = ItemArray (x :: y :: rest) ->
  getDetailPetTour network env params t = (Returned (Some x), t').
Proof.
  intros Hreq Hok Hbody Hitem.
  unfold getDetailPetTour. with_response Hreq Hok Hbody.
  unfold itemFalsy. rewrite Hitem.
  rewrite (parse_array data _ t' Hitem). reflexivity.
Qed.

(** An absent [item] does not reach the normalisation: the error of
    [parseApiResponse], which has no status code, is rethrown. *)
Lemma getDetailCommon_item_absent params t t' response data :
  request network env "/detailCommon2" (detailCommonObject params) t
  = (Returned response, t') ->
  ok response = true ->
  body response = JsonOk data ->
  item data = ItemUndefined \/ item data = ItemNull ->
  getDetailCommon network env params t
  = (Thrown (TourApiError itemsMissingMessage None None), t').
Proof.
  intros Hreq Hok Hbody Hitem.
  unfold getDetailCommon. with_response Hreq Hok Hbody.
  unfold parseApiResponse. destruct Hitem as [-> | ->]; reflexivity.
Qed.

(** An absent [item] is an empty result for the optional endpoints. *)
Lemma getDetailImage_item_absent params t t' response data :
  request network env "/detailImage2" (detailImageObject params) t
  = (Returned response, t') ->
  ok response = true ->
  body response = JsonOk data ->
  item data = ItemUndefined \/ item data = ItemNull ->
  getDetailImage network env params t = (Returned [], t').
Proof.
  intros Hreq Hok Hbody Hitem.
  unfold getDetailImage. with_response Hreq Hok Hbody.
  unfold itemFalsy. destruct Hitem as [-> | ->]; reflexivity.
Qed.

Lemma getDetailPetTour_item_absent params t t' response data :
  request network env "/detailPetTour2" (detailPetTourObject params) t
  = (Returned response, t') ->
  ok response = true ->
  body response = JsonOk data ->
  item data = ItemUndefined \/ item data = ItemNull ->
  getDetailPetTour network env params t = (Returned None, t').
Proof.
  intros Hreq Hok Hbody Hitem.
  unfold getDetailPetTour. with_response Hreq Hok Hbody.
  unfold itemFalsy. destruct Hitem as [-> | ->]; reflexivity.
Qed.

(** What the request of an endpoint does with a 4xx answer. *)
Lemma request_4xx endpoint params t url r :
  buildUrl env endpoint params = Returned url ->
  network (attempts t) url = NetResponse r ->
  400 <= status r < 500 ->
  request network env endpoint params t
  = (Thrown (TourApiError
               ("API request failed with status " +++ showZ (status r))
               (Some (status r)) None),
     t ++ [EvFetch url]).
Proof.
  intros Hurl Hnet Hst.
  unfold request, bind, lift. rewrite Hurl.
  apply (fetchWithRetry_4xx_throws Item network url
           defaultMaxRetries t r); auto.
  unfold defaultMaxRetries. lia.
Qed.

(** An upstream 404 never comes back from [fetchWithRetry] as a response:
    it is thrown.  [getDetailPetTour] turns the thrown error into null. *)
Lemma getDetailPetTour_upstream_404 params t url r :
  buildUrl env "/detailPetTour2" (detailPetTourObject params) = Returned url ->
  network (attempts t) url = NetResponse r ->
  status r = 404 ->
  getDetailPetTour network env params t = (Returned None, t ++ [EvFetch url]).
Proof.
  intros Hurl Hnet Hst.
  unfold getDetailPetTour, try_catch, bind at 1.
  rewrite (request_4xx _ _ t url r Hurl Hnet) by lia.
  rewrite Hst. vm_compute. reflexivity.
Qed.

(** [getDetailImage] has no such case in its catch block and rethrows. *)
Lemma getDetailImage_upstream_404 params t url r :
  buildUrl env "/detailImage2" (detailImageObject params) = Returned url ->
  network (attempts t) url = NetResponse r ->
  status r = 404 ->
  getDetailImage network env params t
  = (Thrown upstream404Error, t ++ [EvFetch url]).
Proof.
  intros Hurl Hnet Hst.
  unfold getDetailImage, try_catch, bind at 1.
  rewrite (request_4xx _ _ t url r Hurl Hnet) by lia.
  rewrite Hst.
  change (isItemsMissing
            (TourApiError ("API request failed with status " +++ showZ 404)
                          (Some 404) None))
    with false.
  reflexivity.
Qed.

End EndpointResponses.

(** C2. A response with a status in [400,500) makes [fetchWithRetry] throw
    at once a [TourApiError] that carries this status code; the run is
    exactly one request and no sleep, whatever the retry budget
    [maxRetries >= 0] (with a negative budget the loop body, hence the
    request that gets the response, is never reached).  Every endpoint
    client starts with [request], which calls [fetchWithRetry] with the
    default budget: there too the 4xx answer ends the run after the one
    request. *)
Theorem fetchWithRetry_4xx_single_attempt
        (Item : Type) (network : nat -> Url -> NetOutcome Item)
        (url : Url) (maxRetries : Z) (t : Trace) (r : Response Item) :
  0 <= maxRetries ->
  network (attempts t) url = NetResponse r ->
  400 <= status r < 500 ->
  let error :=
    TourApiError ("API request failed with status " +++ showZ (status r))
                 (Some (status r)) None in
  fetchWithRetry network url maxRetries t = (Thrown error, t ++ [EvFetch url])
  /\ attempts (t ++ [EvFetch url]) = S (attempts t)
  /\ sleeps (t ++ [EvFetch url]) = sleeps t
  /\ (forall env endpoint params,
        buildUrl env endpoint params = Returned url ->
        request network env endpoint params t
        = (Thrown error, t ++ [EvFetch url])).
Proof.
  intros Hmax Hnet Hst error.
  split; [| split; [| split]].
  - now apply fetchWithRetry_4xx_throws.
  - rewrite attempts_app. simpl. lia.
  - rewrite sleeps_app. simpl. now rewrite app_nil_r.
  - intros env endpoint params Hurl. now apply request_4xx.
Qed.

Lemma fetchWithRetry_4xx_single_attempt_witness :
  fetchWithRetry (alwaysStatus 404 "Not Found") sampleImageUrl 3 []
  = (Thrown upstream404Error, [EvFetch sampleImageUrl])
  /\ attempts ([] ++ [EvFetch sampleImageUrl]) = 1%nat
  /\ sleeps ([] ++ [EvFetch sampleImageUrl]) = []
  /\ (forall env endpoint params,
        buildUrl env endpoint params = Returned sampleImageUrl ->
        request (alwaysStatus 404 "Not Found") env endpoint params []
        = (Thrown upstream404Error, [EvFetch sampleImageUrl])).
Proof.
  apply (fetchWithRetry_4xx_single_attempt
           string (alwaysStatus 404 "Not Found") sampleImageUrl 3 []
           (statusOnly 404 "Not Found")).
  - lia.
  - reflexivity.
  - simpl. lia.
Defined.

(** C5. [getDetailCommon], on an OK response whose body parses and
    normalises to zero items, throws a [TourApiError] with status code 404
    (which the page classifies as not found); it returns no value. *)
Theorem getDetailCommon_zero_items_not_found
        (Item : Type) (network : nat -> Url -> NetOutcome Item) (env : Env)
        (params : GetDetailCommonParams) (t t' : Trace)
        (response : Response Item) (data : ApiResponse Item)
        (parsed : OneOrMany Item) :
  request network env "/detailCommon2" (detailCommonObject params) t
  = (Returned response, t') ->
  ok response = true ->
  body response = JsonOk data ->
  parseApiResponse data t' = (Returned parsed, t') ->
  normalizeToArray parsed = [] ->
  exists e,
    getDetailCommon network env params t = (Thrown e, t')
    /\ isTourApiError e = true
    /\ statusCode e = Some 404
    /\ isNotFound e = true
    /\ exn_message e
       = "Tour detail not found for contentId: " +++ dc_contentId params.
Proof.
  intros Hreq Hok Hbody Hparse Hnorm.
  eexists. split.
  - eapply getDetailCommon_zero_items; eauto.
  - repeat split.
Qed.

Lemma getDetailCommon_zero_items_not_found_witness :
  exists e,
    getDetailCommon (alwaysItems (ItemArray [])) sampleEnv
                    sampleCommonParams []
    = (Thrown e,
       [EvFetch {| path := BASE_URL +++ "/detailCommon2";
                   query := [("serviceKey", "server-key"); ("MobileOS", "ETC");
                             ("MobileApp", "MyTrip"); ("_type", "json");
                             ("contentId", "125266")] |}])
    /\ isTourApiError e = true
    /\ statusCode e = Some 404
    /\ isNotFound e = true
    /\ exn_message e = "Tour detail not found for contentId: 125266".
Proof.
  apply (getDetailCommon_zero_items_not_found
           string (alwaysItems (ItemArray [])) sampleEnv sampleCommonParams
           [] _ (okResponse (envelope (ItemArray []))) (envelope (ItemArray []))
           (Many [])); reflexivity.
Defined.

(** C10. When [item] is an array of more than one element, the three
    single-entity clients return its first element; the others are
    dropped. *)
Theorem single_entity_first_of_many
        (Item : Type) (network : nat -> Url -> NetOutcome Item) (env : Env)
        (t t' : Trace) (response : Response Item) (data : ApiResponse Item)
        (x y : Item) (rest : list Item) :
  ok response = true ->
  body response = JsonOk data ->
  item data = ItemArray (x :: y :: rest) ->
  (forall params,
     request network env "/detailCommon2" (detailCommonObject params) t
     = (Returned response, t') ->
     getDetailCommon network env params t = (Returned x, t'))
  /\ (forall params,
        request network env "/detailIntro2" (detailIntroObject params) t
        = (Returned response, t') ->
        getDetailIntro network env params t = (Returned x, t'))
  /\ (forall params,
        request network env "/detailPetTour2" (detailPetTourObject params) t
        = (Returned response, t') ->
        getDetailPetTour network env params t = (Returned (Some x), t')).
Proof.
  intros Hok Hbody Hitem.
  split; [| split]; intros params Hreq.
  - eapply getDetailCommon_first; eauto.
  - eapply getDetailIntro_first; eauto.
  - eapply getDetailPetTour_first; eauto.
Qed.

Lemma single_entity_first_of_many_witness :
  let net := alwaysItems (ItemArray ["first"; "second"; "third"]) in
  (exists t', getDetailCommon net sampleEnv sampleCommonParams []
              = (Returned "first", t'))
  /\ (exists t', getDetailIntro net sampleEnv sampleIntroParams []
                 = (Returned "first", t'))
  /\ (exists t', getDetailPetTour net sampleEnv samplePetParams []
                 = (Returned (Some "first"), t')).
Proof.
  intros net.
  pose proof (fun t' =>
    single_entity_first_of_many string net sampleEnv [] t'
      (okResponse (envelope (ItemArray ["first"; "second"; "third"])))
      (envelope (ItemArray ["first"; "second"; "third"]))
      "first" "second" ["third"] eq_refl eq_refl eq_refl) as H.
  split; [| split]; eexists.
  - apply (proj1 (H _) sampleCommonParams). reflexivity.
  - apply (proj1 (proj2 (H _)) sampleIntroParams). reflexivity.
  - apply (proj2 (proj2 (H _)) samplePetParams). reflexivity.
Defined.

(** Soft absence, evaluated: an absent [item] gives [[]] and null, and an
    upstream 404 gives null for the pet information. *)
Example optional_endpoints_soft_absence :
  fst (getDetailImage (alwaysItems ItemUndefined) sampleEnv
                      sampleImageParams []) = Returned []
  /\ fst (getDetailImage (alwaysItems ItemNull) sampleEnv
                         sampleImageParams []) = Returned []
  /\ fst (getDetailPetTour (alwaysItems ItemUndefined) sampleEnv
                           samplePetParams []) = Returned None
  /\ fst (getDetailPetTour (alwaysItems ItemNull) sampleEnv
                           samplePetParams []) = Returned None
  /\ fst (getDetailPetTour (alwaysStatus 404 "Not Found") sampleEnv
                           samplePetParams []) = Returned None.
Proof. repeat split; vm_compute; reflexivity. Qed.

(** C4 says that on an upstream 404 [getDetailImage] returns [[]] and
    [getDetailPetTour] null.  For [getDetailImage] that is not what
    happens: the error [fetchWithRetry] threw for the 4xx status goes
    through the catch block, which only recognises the missing-items
    message, and reaches the caller after a single request. *)
Theorem getDetailImage_upstream_404_throws :
  getDetailImage (alwaysStatus 404 "Not Found") sampleEnv sampleImageParams []
  = (Thrown upstream404Error, [EvFetch sampleImageUrl])
  /\ fst (getDetailImage (alwaysStatus 404 "Not Found") sampleEnv
                         sampleImageParams [])
     <> Returned [].
Proof.
  split.
  - vm_compute. reflexivity.
  - vm_compute. discriminate.
Qed.

(* ================================================================== *)
(** * Facts: statistics *)

Section FanOutFacts.

Variables A B : Type.

Lemma In_nonNull_mapiFrom (f : nat -> A -> option B) (l : list A) :
  forall i b,
    In b (nonNull (mapiFrom i f l))
    <-> exists j a, nth_error l j = Some a /\ f (i + j)%nat a = Some b.
Proof.
  induction l as [| x l IH]; intros i b; simpl.
  - split; [tauto |]. intros [j [a [H _]]]. destruct j; discriminate.
  - assert (Hrest : In b (nonNull (mapiFrom (S i) f l))
                    <-> exists j a, nth_error l j = Some a
                                    /\ f (i + S j)%nat a = Some b).
    { rewrite IH. split; intros [j [a [H1 H2]]]; exists j, a;
        (split; [exact H1 |]);
        [replace (i + S j)%nat with (S i + j)%nat by lia
        |replace (S i + j)%nat with (i + S j)%nat by lia]; exact H2. }
    destruct (f i x) as [y |] eqn:Hfx; simpl.
    + split.
      * intros [<- | Hin].
        -- exists O, x. rewrite Nat.add_0_r. auto.
        -- apply Hrest in Hin. destruct Hin as [j [a [H1 H2]]].
           exists (S j), a. auto.
      * intros [[| j] [a [H1 H2]]]; simpl in H1.
        -- injection H1 as <-. rewrite Nat.add_0_r, Hfx in H2.
           injection H2 as ->. now left.
        -- right. apply Hrest. eauto.
    + split.
      * intros Hin. apply Hrest in Hin. destruct Hin as [j [a [H1 H2]]].
        exists (S j), a. auto.
      * intros [[| j] [a [H1 H2]]]; simpl in H1.
        -- injection H1 as <-. rewrite Nat.add_0_r, Hfx in H2. discriminate.
        -- apply Hrest. eauto.
Qed.

End FanOutFacts.

Section RegionFacts.

Variable call : ListCalls.

Lemma regionBranch_query i area :
  regionBranch call i area
  = match call RegionFanOut i (regionQuery area) with
    | Returned result =>
        Some {| rs_code := code area; rs_name := name area;
                rs_count := totalCount result |}
    | Thrown _ => None
    end.
Proof. reflexivity. Qed.

(** Successes and failures partition the regions. *)
Lemma region_successes_failures areas :
  forall i,
    (List.length (nonNull (mapiFrom i (regionBranch call) areas))
     + failedFrom call i areas)%nat
    = List.length areas.
Proof.
  induction areas as [| area rest IH]; intros i; simpl; [reflexivity |].
  rewrite regionBranch_query.
  destruct (call RegionFanOut i (regionQuery area)); simpl;
    specialize (IH (S i)); lia.
Qed.

Lemma getRegionStats_unfold areas :
  getRegionStats (Returned areas) call
  = let validResults :=
      nonNull (mapi (regionBranch call) areas) in
    if Nat.eqb (List.length validResults) 0 then
      Thrown (TourApiError
                "Failed to get region stats: All area queries failed"
                None None)
    else Returned validResults.
Proof.
  unfold getRegionStats, catching, andThen. cbv zeta.
  destruct (Nat.eqb _ 0); reflexivity.
Qed.

End RegionFacts.

(** C7. Over N regions of which M queries fail, [getRegionStats] returns
    the N − M entries of the queries that succeeded when M < N, and it
    throws if and only if M = N. *)
Theorem getRegionStats_partial_failure
        (call : ListCalls) (areaCodes : list AreaCode) :
  let N := List.length areaCodes in
  let M := failedRegionQueries call areaCodes in
  ((M < N)%nat ->
   exists stats,
     getRegionStats (Returned areaCodes) call = Returned stats
     /\ List.length stats = (N - M)%nat
     /\ forall s,
          In s stats
          <-> exists i area result,
                nth_error areaCodes i = Some area
                /\ call RegionFanOut i (regionQuery area) = Returned result
                /\ s = {| rs_code := code area; rs_name := name area;
                          rs_count := totalCount result |})
  /\ ((exists e, getRegionStats (Returned areaCodes) call = Thrown e)
      <-> M = N).
Proof.
  intros N M.
  pose proof (region_successes_failures call areaCodes O)
    as Hpart.
  fold (mapi (regionBranch call) areaCodes) in Hpart.
  fold (failedRegionQueries call areaCodes) in Hpart.
  fold M in Hpart. fold N in Hpart.
  rewrite getRegionStats_unfold. cbv zeta.
  set (valid := nonNull (mapi (regionBranch call) areaCodes)) in *.
  split.
  - intros Hlt.
    destruct (Nat.eqb_spec (List.length valid) 0) as [Hz | Hnz]; [lia |].
    exists valid. split; [reflexivity |]. split; [lia |].
    intros s. unfold valid, mapi. rewrite In_nonNull_mapiFrom.
    split.
    + intros [j [area [Hnth Hbr]]]. simpl in Hbr.
      rewrite regionBranch_query in Hbr.
      destruct (call RegionFanOut j (regionQuery area)) as [result |] eqn:Hc;
        [| discriminate].
      injection Hbr as <-. exists j, area, result. auto.
    + intros [j [area [result [Hnth [Hc ->]]]]].
      exists j, area. split; [exact Hnth |]. simpl.
      rewrite regionBranch_query, Hc. reflexivity.
  - destruct (Nat.eqb_spec (List.length valid) 0) as [Hz | Hnz].
    + split; [intros _; lia | intros _; eexists; reflexivity].
    + split; [intros [e He]; discriminate | intros Heq; lia].
Qed.

Lemma getRegionStats_partial_failure_witness :
  exists stats,
    getRegionStats (Returned sampleAreas) oneAreaDown = Returned stats
    /\ List.length stats = (3 - 1)%nat
    /\ forall s,
         In s stats
         <-> exists i area result,
               nth_error sampleAreas i = Some area
               /\ oneAreaDown RegionFanOut i (regionQuery area)
                  = Returned result
               /\ s = {| rs_code := code area; rs_name := name area;
                         rs_count := totalCount result |}.
Proof.
  apply (proj1 (getRegionStats_partial_failure oneAreaDown sampleAreas)).
  vm_compute. lia.
Defined.

(** The run of the witness, evaluated: the failed region is left out. *)
Example getRegionStats_one_down :
  getRegionStats (Returned sampleAreas) oneAreaDown
  = Returned [ {| rs_code := "1"; rs_name := "서울"; rs_count := 100 |};
               {| rs_code := "39"; rs_name := "제주도"; rs_count := 50 |} ].
Proof. vm_compute. reflexivity. Qed.

Lemma fold_left_counts {A} (count : A -> Z) (l : list A) :
  forall acc,
    fold_left (fun sum r => sum + count r) l acc = acc + sumZ (map count l).
Proof.
  induction l as [| x l IH]; intros acc; simpl.
  - lia.
  - rewrite IH. lia.
Qed.

Section TypeFacts.

Variable call : ListCalls.

Lemma typeBranch_count_from (types : list ContentType) :
  forall i,
    map ts_count (nonNull (mapiFrom i (typeBranch call) types))
    = nonNull
        (mapiFrom i (fun i type =>
                       match call TypeFanOut i (typeQuery type) with
                       | Returned result => Some (totalCount result)
                       | Thrown _ => None
                       end)
                  types).
Proof.
  induction types as [| type rest IH]; intros i; simpl; [reflexivity |].
  unfold typeBranch at 1. fold (typeQuery type).
  destruct (call TypeFanOut i (typeQuery type)); simpl; now rewrite IH.
Qed.

Lemma typeBranch_counts :
  map ts_count (nonNull (mapi (typeBranch call) getAllContentTypes))
  = successfulTypeCounts call.
Proof. apply typeBranch_count_from. Qed.

Lemma getTypeStats_unfold :
  getTypeStats call
  = let validResults := nonNull (mapi (typeBranch call) getAllContentTypes) in
    if Nat.eqb (List.length validResults) 0 then
      Thrown (TourApiError
                "Failed to get type stats: All content type queries failed"
                None None)
    else
      let total := sumZ (map ts_count validResults) in
      Returned
        (map (fun r =>
                {| ts_contentTypeId := ts_contentTypeId r;
                   typeName := typeName r;
                   ts_count := ts_count r;
                   percentage := Some (percentageOf (ts_count r) total) |})
             validResults).
Proof.
  unfold getTypeStats, catching. cbv zeta.
  destruct (Nat.eqb _ 0); [reflexivity |].
  now rewrite fold_left_counts.
Qed.

End TypeFacts.

Lemma percentageOf_no_total count total :
  total <= 0 -> percentageOf count total = 0%float.
Proof.
  intros H. unfold percentageOf.
  destruct (Z.gtb_spec total 0); [lia | reflexivity].
Qed.

(** [Math.round] on a few doubles: ties go up, also below zero. *)
Example Math_round_values :
  Math_round 2.5 = 3%float
  /\ Math_round (-2.5) = (-2)%float
  /\ Math_round 287.5 = 288%float
  /\ Math_round 0x1.1f7ffffffffffp+8 = 287%float
  /\ Math_round 0.25 = 0%float
  /\ Math_round 750 = 750%float.
Proof. repeat split; vm_compute; reflexivity. Qed.

(** C6, as the code has it.  [getTypeStats] returns as soon as one type
    query succeeds; the total is the sum of the counts of the successful
    queries only, and every percentage is computed from that total as
    [Math.round((count / total) * 100 * 10) / 10] on doubles (the product
    is taken in two steps); when the total is zero every percentage is 0
    and nothing is thrown.  Counts 10, 0, 30 give 25, 0, 75. *)
Theorem getTypeStats_percentages :
  (forall call : ListCalls,
     let counts := successfulTypeCounts call in
     let total := sumZ counts in
     counts <> [] ->
     exists stats,
       getTypeStats call = Returned stats
       /\ map ts_count stats = counts
       /\ map percentage stats
          = map (fun count =>
                   Some (if total >? 0 then
                           (Math_round
                              ((Z2float count / Z2float total) * 100 * 10)
                            / 10)%float
                         else 0%float))
                counts
       /\ (total = 0 ->
           Forall (fun s => percentage s = Some 0%float) stats))
  /\ (exists stats,
        getTypeStats (threeTypes 10 0 30) = Returned stats
        /\ map ts_count stats = [10; 0; 30]
        /\ map percentage stats = [Some 25%float; Some 0%float; Some 75%float])
  /\ (exists stats,
        getTypeStats (threeTypes 0 0 0) = Returned stats
        /\ map percentage stats = [Some 0%float; Some 0%float; Some 0%float]).
Proof.
  split; [| split].
  - intros call counts total Hne.
    rewrite getTypeStats_unfold. cbv zeta.
    pose proof (typeBranch_counts call) as Hcounts.
    fold counts in Hcounts.
    set (valid := nonNull (mapi (typeBranch call) getAllContentTypes)) in *.
    destruct (Nat.eqb_spec (List.length valid) 0) as [Hz | Hnz].
    + exfalso. apply Hne. rewrite <- Hcounts.
      destruct valid; [reflexivity | discriminate].
    + rewrite Hcounts. fold total.
      eexists. split; [reflexivity |].
      split; [| split].
      * rewrite map_map. simpl. exact Hcounts.
      * rewrite map_map. simpl. rewrite <- Hcounts, map_map. reflexivity.
      * intros Hzero. apply Forall_forall. intros s Hin.
        apply in_map_iff in Hin. destruct Hin as [r [<- _]]. simpl.
        rewrite percentageOf_no_total by lia. reflexivity.
  - eexists. split; [vm_compute; reflexivity |].
    split; vm_compute; reflexivity.
  - eexists. split; [vm_compute; reflexivity |].
    vm_compute; reflexivity.
Qed.

Lemma getTypeStats_percentages_witness :
  exists stats,
    getTypeStats (threeTypes 10 0 30) = Returned stats
    /\ map ts_count stats = successfulTypeCounts (threeTypes 10 0 30)
    /\ map percentage stats
       = map (fun count =>
                Some (if sumZ (successfulTypeCounts (threeTypes 10 0 30)) >? 0
                      then
                        (Math_round
                           ((Z2float count
                             / Z2float (sumZ (successfulTypeCounts
                                                (threeTypes 10 0 30))))
                            * 100 * 10)
                         / 10)%float
                      else 0%float))
             (successfulTypeCounts (threeTypes 10 0 30))
    /\ (sumZ (successfulTypeCounts (threeTypes 10 0 30)) = 0 ->
        Forall (fun s => percentage s = Some 0%float) stats).
Proof.
  apply (proj1 getTypeStats_percentages (threeTypes 10 0 30)).
  vm_compute. discriminate.
Defined.

(** The formula in the words of the specification is not what is
    computed: with counts 23 and 57 (total 80) the share of the first type is 28.75 percent, which
    [round(count / total * 1000) / 10] makes 28.8; the code multiplies by
    100 and then by 10, gets 287.49999999999994 and returns 28.7. *)
Lemma getTypeStats_percentage_not_spec_formula :
  exists stats,
    getTypeStats (threeTypes 23 57 0) = Returned stats
    /\ map ts_count stats = [23; 57; 0]
    /\ nth 0 (map percentage stats) None = Some (287 / 10)%float
    /\ specPercentage 23 (23 + 57 + 0) = (288 / 10)%float
    /\ nth 0 (map percentage stats) None
       <> Some (specPercentage 23 (23 + 57 + 0)).
Proof.
  eexists. split; [vm_compute; reflexivity |].
  split; [vm_compute; reflexivity |].
  split; [vm_compute; reflexivity |].
  split; [vm_compute; reflexivity |].
  intros H.
  apply (f_equal (fun o => match o with
                           | Some p => PrimFloat.eqb p (288 / 10)
                           | None => false
                           end)) in H.
  vm_compute in H. discriminate.
Qed.

Section SortFacts.

Variable A : Type.
Variable count : A -> Z.

Lemma insertBy_perm x l : Permutation (x :: l) (insertBy (byCountDesc count) x l).
Proof.
  induction l as [| y l IH]; simpl; [reflexivity |].
  destruct (byCountDesc count x y <=? 0); [reflexivity |].
  rewrite perm_swap. now apply perm_skip.
Qed.

Lemma insertBy_sorted x l :
  StronglySorted (geCount count) l -> StronglySorted (geCount count) (insertBy (byCountDesc count) x l).
Proof.
  induction l as [| y l IH]; intros Hs; simpl.
  - constructor; constructor.
  - inversion Hs as [| y' l' Hsl Hall]; subst.
    destruct (Z.leb_spec (byCountDesc count x y) 0) as [Hle | Hgt];
      unfold byCountDesc in *.
    + constructor; [exact Hs |].
      constructor; [unfold geCount; lia |].
      eapply Forall_impl; [| exact Hall].
      unfold geCount. intros b Hb. lia.
    + constructor; [now apply IH |].
      eapply Permutation_Forall; [apply insertBy_perm |].
      constructor; [unfold geCount; lia | exact Hall].
Qed.

Lemma insertBy_filter c x l :
  filter (fun a => count a =? c) (insertBy (byCountDesc count) x l)
  = filter (fun a => count a =? c) (x :: l).
Proof.
  induction l as [| y l IH]; simpl; [reflexivity |].
  destruct (Z.leb_spec (byCountDesc count x y) 0) as [Hle | Hgt]; [reflexivity |].
  unfold byCountDesc in Hgt. simpl. rewrite IH. simpl.
  destruct (Z.eqb_spec (count x) c) as [Hx | Hx];
    destruct (Z.eqb_spec (count y) c) as [Hy | Hy]; try reflexivity.
  lia.
Qed.

Lemma sort_stable_descending l :
  StableDescending count l (sort (byCountDesc count) l).
Proof.
  unfold StableDescending, sort.
  induction l as [| x l [Hperm [Hsorted Hstable]]]; simpl.
  - repeat split; constructor.
  - split; [| split].
    + rewrite <- insertBy_perm. now apply perm_skip.
    + now apply insertBy_sorted.
    + intros c. rewrite insertBy_filter. simpl. now rewrite Hstable.
Qed.

End SortFacts.

(** C8. [getStatsSummary] takes [totalCount] from the type statistics (the
    sum of their counts; the region counts play no part in it), and
    [topRegions] / [topTypes] are the first three of the respective list
    put in descending order of count, elements of equal count keeping the
    order they have in the list. *)
Theorem getStatsSummary_totals_and_top3
        (areaCall : Outcome (list AreaCode)) (call : ListCalls) (now : string)
        (regionStats : list RegionStats) (typeStats : list TypeStats) :
  getRegionStats areaCall call = Returned regionStats ->
  getTypeStats call = Returned typeStats ->
  exists summary sortedRegions sortedTypes,
    getStatsSummary areaCall call now = Returned summary
    /\ sum_totalCount summary = sumZ (map ts_count typeStats)
    /\ StableDescending rs_count regionStats sortedRegions
    /\ topRegions summary = firstn 3 sortedRegions
    /\ StableDescending ts_count typeStats sortedTypes
    /\ topTypes summary = firstn 3 sortedTypes
    /\ lastUpdated summary = now.
Proof.
  intros Hregions Htypes.
  unfold getStatsSummary, catching, andThen.
  rewrite Hregions, Htypes. cbv zeta.
  eexists. exists (sort (fun a b => rs_count b - rs_count a) regionStats).
  exists (sort (fun a b => ts_count b - ts_count a) typeStats).
  split; [reflexivity |]. simpl.
  split; [rewrite fold_left_counts; lia |].
  split; [apply sort_stable_descending |].
  split; [reflexivity |].
  split; [apply sort_stable_descending |].
  split; reflexivity.
Qed.

Lemma getStatsSummary_totals_and_top3_witness :
  exists summary sortedRegions sortedTypes,
    getStatsSummary (Returned tiedAreas) tiedCalls "2026-01-01T00:00:00.000Z"
    = Returned summary
    /\ sum_totalCount summary = sumZ (map ts_count tiedTypeStats)
    /\ StableDescending rs_count tiedRegionStats sortedRegions
    /\ topRegions summary = firstn 3 sortedRegions
    /\ StableDescending ts_count tiedTypeStats sortedTypes
    /\ topTypes summary = firstn 3 sortedTypes
    /\ lastUpdated summary = "2026-01-01T00:00:00.000Z".
Proof.
  apply (getStatsSummary_totals_and_top3
           (Returned tiedAreas) tiedCalls "2026-01-01T00:00:00.000Z"
           tiedRegionStats tiedTypeStats);
    vm_compute; reflexivity.
Defined.

(** The summary of the witness, evaluated: the total is 40, the sum of
    the type counts (the region counts add up to 24), and of the regions
    tied at 7 and at 5 the earlier one comes first. *)
Example getStatsSummary_ties :
  getStatsSummary (Returned tiedAreas) tiedCalls "2026-01-01T00:00:00.000Z"
  = Returned
      {| sum_totalCount := 40;
         topRegions :=
           [ {| rs_code := "B"; rs_name := "b"; rs_count := 7 |};
             {| rs_code := "D"; rs_name := "d"; rs_count := 7 |};
             {| rs_code := "A"; rs_name := "a"; rs_count := 5 |} ];
         topTypes :=
           [ {| ts_contentTypeId := "15"; typeName := "축제/행사";
                ts_count := 30; percentage := Some 75%float |};
             {| ts_contentTypeId := "12"; typeName := "관광지";
                ts_count := 10; percentage := Some 25%float |};
             {| ts_contentTypeId := "14"; typeName := "문화시설";
                ts_count := 0; percentage := Some 0%float |} ];
         lastUpdated := "2026-01-01T00:00:00.000Z" |}.
Proof. vm_compute. reflexivity. Qed.

(* ================================================================== *)
(** * Facts: recommendations *)

Section ListFacts.

Variables (A B : Type) (f : A -> B).

Lemma firstn_incl n (l : list A) : incl (firstn n l) l.
Proof.
  revert n; induction l as [| x l IH]; intros [| n]; simpl;
    intros y Hin; try contradiction.
  destruct Hin as [<- | Hin]; [now left | right; now apply (IH n)].
Qed.

Lemma NoDup_map_firstn n (l : list A) :
  NoDup (map f l) -> NoDup (map f (firstn n l)).
Proof.
  revert n; induction l as [| x l IH]; intros [| n] Hnd; simpl;
    try constructor.
  - simpl in Hnd. inversion Hnd as [| ? ? Hnotin Hrest]; subst.
    intros Hin. apply Hnotin.
    apply in_map_iff in Hin. destruct Hin as [y [Hy Hin]].
    apply in_map_iff. exists y. split; [exact Hy |].
    now apply (firstn_incl n l).
  - simpl in Hnd. inversion Hnd; subst. now apply IH.
Qed.

Lemma NoDup_map_filter (p : A -> bool) (l : list A) :
  NoDup (map f l) -> NoDup (map f (filter p l)).
Proof.
  induction l as [| x l IH]; intros Hnd; simpl; [constructor |].
  simpl in Hnd. inversion Hnd as [| ? ? Hnotin Hrest]; subst.
  destruct (p x); simpl; [| now apply IH].
  constructor; [| now apply IH].
  intros Hin. apply Hnotin.
  apply in_map_iff in Hin. destruct Hin as [y [Hy Hin]].
  apply in_map_iff. exists y. split; [exact Hy |].
  apply filter_In in Hin. tauto.
Qed.

End ListFacts.

Lemma alreadyIn_false recs item :
  alreadyIn recs item = false -> ~ In (contentid item) (ids recs).
Proof.
  unfold alreadyIn, ids. intros Hex Hin.
  apply in_map_iff in Hin. destruct Hin as [rec [Hid Hin]].
  assert (Htrue : existsb
                    (fun rec => String.eqb (contentid rec) (contentid item))
                    recs = true).
  { apply existsb_exists. exists rec. split; [exact Hin |].
    now apply String.eqb_eq. }
  congruence.
Qed.

Lemma differsFrom_true id item :
  differsFrom id item = true -> contentid item <> id.
Proof.
  unfold differsFrom. intros H. apply negb_true_iff in H.
  now apply String.eqb_neq.
Qed.

Section RecommendationFacts.

Variable call : BlockCalls.
Variable detailData : TourDetail.

Lemma tier1Selection_length :
  (List.length (tier1Selection call detailData) <= 6)%nat.
Proof. apply firstn_le_length. Qed.

Lemma tier2Selection_length selected :
  (List.length selected <= 6)%nat ->
  (List.length (selected ++ tier2Selection call detailData selected) <= 6)%nat.
Proof.
  intros Hsel. rewrite length_app. unfold tier2Selection.
  destruct (Nat.ltb_spec (List.length selected) 6) as [Hlt | Hge].
  - pose proof (firstn_le_length (6 - List.length selected)
                  (filter (fun item =>
                             differsFrom (td_contentid detailData) item
                             && negb (alreadyIn selected item))
                          (tier2Answer call detailData))).
    lia.
  - simpl. lia.
Qed.

Lemma cascade_excludes_subject item :
  In item (cascade call detailData) ->
  contentid item <> td_contentid detailData.
Proof.
  unfold cascade. intros Hin. apply in_app_or in Hin.
  destruct Hin as [Hin | Hin].
  - unfold tier1Selection in Hin. apply firstn_incl in Hin.
    apply filter_In in Hin. now apply differsFrom_true.
  - unfold tier2Selection in Hin.
    destruct (Nat.ltb _ 6); [| destruct Hin].
    apply firstn_incl in Hin. apply filter_In in Hin.
    destruct Hin as [_ Hp]. apply andb_true_iff in Hp.
    now apply differsFrom_true.
Qed.

Lemma cascade_unique :
  NoDup (ids (tier1Answer call detailData)) ->
  NoDup (ids (tier2Answer call detailData)) ->
  NoDup (ids (cascade call detailData)).
Proof.
  intros Hn1 Hn2. unfold cascade, ids. rewrite map_app.
  apply NoDup_app.
  - unfold tier1Selection. now apply NoDup_map_firstn, NoDup_map_filter.
  - unfold tier2Selection. destruct (Nat.ltb _ 6); [| constructor].
    now apply NoDup_map_firstn, NoDup_map_filter.
  - intros id Hin1 Hin2.
    unfold tier2Selection in Hin2.
    destruct (Nat.ltb _ 6); [| destruct Hin2].
    apply in_map_iff in Hin2. destruct Hin2 as [item [<- Hin2]].
    apply firstn_incl in Hin2. apply filter_In in Hin2.
    destruct Hin2 as [_ Hp]. apply andb_true_iff in Hp.
    destruct Hp as [_ Hnew]. apply negb_true_iff in Hnew.
    now apply (alreadyIn_false _ _ Hnew).
Qed.

(** The block computes the cascade, and never throws. *)
Lemma recommend_cascade :
  recommend call detailData = Returned (cascade call detailData).
Proof.
  unfold recommend, cascade, tier1Selection, tier2Selection, tier1Answer,
    tier2Answer, recommendationBlock, try_catch, bind, callAreaBasedList,
    readRecommendations, writeRecommendations, ret, initialRecState,
    tier1Query, tier2Query, listParams.
  destruct (truthy (td_areacode detailData));
    repeat (cbn -[firstn Nat.sub]; rewrite ?firstn_nil, ?app_nil_r;
            match goal with
            | |- context [match call ?i ?p with _ => _ end] =>
                destruct (call i p)
            | |- context [if Nat.leb ?a ?b then _ else _] =>
                destruct (Nat.leb a b)
            end);
    cbn -[firstn Nat.sub]; rewrite ?firstn_nil, ?app_nil_r; reflexivity.
Qed.

(** The single-query variant of the page. *)
Lemma recommendSingle_result :
  recommendSingle call detailData
  = Returned (firstn 6 (filter (differsFrom (td_contentid detailData))
                               (itemsOrNone (call O (tier2Query detailData))))).
Proof.
  unfold recommendSingle, recommendationBlockSingle, try_catch, bind,
    callAreaBasedList, writeRecommendations, ret, initialRecState.
  fold (tier2Query detailData). cbn [calls recommendations].
  destruct (call O (tier2Query detailData)); reflexivity.
Qed.

End RecommendationFacts.

(** C1, as the code has it.  The block never throws; its result is the
    cascade: the first six places, other than the subject, of the answer
    for region and type (asked only when the region is known, a failure
    counting as no place), followed, if those are fewer than six, by as
    many as fill up to six of the places of the answer for the type that
    are neither the subject nor already selected.  The result has at most
    six places and never the subject, and no identifier twice provided
    neither answer lists an identifier twice. *)
Theorem recommend_two_tier_cascade (call : BlockCalls) (detailData : TourDetail) :
  recommend call detailData = Returned (cascade call detailData)
  /\ (List.length (cascade call detailData) <= 6)%nat
  /\ ~ In (td_contentid detailData) (ids (cascade call detailData))
  /\ (NoDup (ids (tier1Answer call detailData)) ->
      NoDup (ids (tier2Answer call detailData)) ->
      NoDup (ids (cascade call detailData))).
Proof.
  split; [apply recommend_cascade |].
  split; [apply tier2Selection_length, tier1Selection_length |].
  split; [| apply cascade_unique].
  intros Hin. unfold ids in Hin. apply in_map_iff in Hin.
  destruct Hin as [item [Hid Hin]].
  now apply (cascade_excludes_subject call detailData item Hin).
Qed.

Ltac distinct_strings :=
  repeat (constructor; [simpl; intuition discriminate |]); constructor.

Lemma recommend_two_tier_cascade_witness :
  NoDup (ids (cascade (twoTiers fourRegional tenNational) subjectDetail)).
Proof.
  apply (proj2 (proj2 (proj2
           (recommend_two_tier_cascade (twoTiers fourRegional tenNational)
                                       subjectDetail))));
    vm_compute; distinct_strings.
Defined.

(** The scenario of the specification: four places for region and type,
    ten for the type; the four come first, two more fill up to six. *)
Example recommend_four_then_two :
  recommend (twoTiers fourRegional tenNational) subjectDetail
  = Returned [ place "a1" "1" "12"; place "a2" "1" "12";
               place "a3" "1" "12"; place "a4" "1" "12";
               place "b1" "2" "12"; place "b2" "3" "12" ].
Proof. vm_compute. reflexivity. Qed.

(** Uniqueness does not hold unconditionally: a provider answer that
    lists a place twice is passed on with the repetition, since only tier 2
    is compared with what was already selected. *)
Lemma recommend_repeats_provider_duplicates :
  exists result,
    recommend (twoTiers repeatedRegional []) subjectDetail = Returned result
    /\ (List.length result <= 6)%nat
    /\ ~ NoDup (ids result).
Proof.
  exists [place "a1" "1" "12"; place "a1" "1" "12"].
  split; [vm_compute; reflexivity |].
  split; [simpl; lia |].
  intros Hnd. inversion Hnd as [| x l Hnotin _]; subst.
  apply Hnotin. now left.
Qed.

(** The single-query block of [page.tsx] keeps the bounds as well. *)
Lemma recommendSingle_bounds (call : BlockCalls) (detailData : TourDetail) :
  exists result,
    recommendSingle call detailData = Returned result
    /\ (List.length result <= 6)%nat
    /\ ~ In (td_contentid detailData) (ids result).
Proof.
  eexists. split; [apply recommendSingle_result |].
  split; [apply firstn_le_length |].
  intros Hin. unfold ids in Hin. apply in_map_iff in Hin.
  destruct Hin as [item [Hid Hin]].
  apply firstn_incl in Hin. apply filter_In in Hin.
  destruct Hin as [_ Hp]. now apply differsFrom_true in Hp.
Qed.
(* ================================================================== *)
(** * Further facts: every run of the fetcher *)

Lemma backoffSchedule_rounds url k a :
  backoffSchedule url k a = retryRounds url k a ++ [EvFetch url].
Proof.
  revert a; induction k as [| k IH]; intros a; simpl; [reflexivity |].
  now rewrite IH.
Qed.

Lemma retryRounds_snoc url k a :
  retryRounds url (S k) a
  = retryRounds url k a
      ++ [EvFetch url; EvSleep (backoffDelay (a + Z.of_nat k))].
Proof.
  revert a; induction k as [| k IH]; intros a.
  - simpl. unfold backoffDelay. now rewrite Z.add_0_r.
  - change (retryRounds url (S (S k)) a)
      with (EvFetch url :: EvSleep (2 ^ a * 1000)
              :: retryRounds url (S k) (a + 1)).
    rewrite IH. simpl.
    replace (a + 1 + Z.of_nat k) with (a + Z.of_nat (S k)) by lia.
    reflexivity.
Qed.

Lemma sumZ_backoffDelays a k :
  0 <= a ->
  sumZ (backoffDelays a k) = (2 ^ (a + Z.of_nat k) - 2 ^ a) * 1000.
Proof.
  intros Ha. unfold backoffDelays.
  induction k as [| k IH].
  - simpl. rewrite Z.add_0_r. lia.
  - assert (Hfold : forall l z,
               fold_right Z.add z l = fold_right Z.add 0 l + z).
    { induction l as [| x l IHl]; intros z; simpl; [lia |].
      rewrite IHl. lia. }
    unfold sumZ in *.
    rewrite seq_S, map_app, fold_right_app. cbn [map fold_right].
    rewrite Hfold, IH, Nat.add_0_l.
    replace (2 ^ (a + Z.of_nat (S k))) with (2 * 2 ^ (a + Z.of_nat k)).
    + lia.
    + rewrite Nat2Z.inj_succ, Z.add_succ_r, Z.pow_succ_r by lia. reflexivity.
Qed.

Section FetcherRuns.

Variable Item : Type.
Variable network : nat -> Url -> NetOutcome Item.
Variable url : Url.
Variable maxRetries : Z.

(** Retryable answers with budget left only add rounds to the trace. *)
Lemma retryLoop_rounds :
  forall (k n : nat) attempt lastError t,
    (k <= n)%nat ->
    attempt + Z.of_nat n = maxRetries ->
    (forall i, (i < k)%nat -> retryable (network (attempts t + i) url)) ->
    exists lastError',
      retryLoop network (S n) url maxRetries attempt lastError t
      = retryLoop network (S (n - k)) url maxRetries
                  (attempt + Z.of_nat k) lastError'
                  (t ++ retryRounds url k attempt)
      /\ attempts (t ++ retryRounds url k attempt) = (attempts t + k)%nat.
Proof.
  induction k as [| k IH]; intros n attempt lastError t Hkn Hsum Hpre.
  - exists lastError. simpl. rewrite app_nil_r, Nat.sub_0_r, Z.add_0_r.
    split; [reflexivity | lia].
  - destruct n as [| n]; [lia |].
    rewrite retryLoop_step.
    destruct (attemptOnce_retryable Item network url maxRetries attempt
                lastError t) as [le1 Hstep].
    + specialize (Hpre O). rewrite Nat.add_0_r in Hpre. apply Hpre. lia.
    + lia.
    + rewrite Hstep.
      set (t1 := (t ++ [EvFetch url]) ++ [EvSleep (backoffDelay attempt)]).
      assert (Hat : attempts t1 = S (attempts t)).
      { unfold t1. rewrite !attempts_app. simpl. lia. }
      destruct (IH n (attempt + 1) le1 t1) as [le' [Hrun Hcount]].
      * lia.
      * lia.
      * intros i Hi. rewrite Hat.
        replace (S (attempts t) + i)%nat with (attempts t + S i)%nat by lia.
        apply Hpre. lia.
      * exists le'. rewrite Hrun.
        replace (attempt + 1 + Z.of_nat k) with (attempt + Z.of_nat (S k))
          by lia.
        replace (S n - S k)%nat with (n - k)%nat by lia.
        assert (Htrace : t1 ++ retryRounds url k (attempt + 1)
                         = t ++ retryRounds url (S k) attempt).
        { unfold t1, backoffDelay. simpl. now rewrite <- !app_assoc. }
        rewrite Htrace in *. split; [reflexivity |].
        rewrite Hcount, Hat. lia.
Qed.

(** The outcome and the trace of any run: after some number [k] of
    retries within the budget the run ends on request [k]. *)
Lemma retryLoop_run :
  forall (n : nat) attempt lastError t,
    attempt + Z.of_nat n = maxRetries ->
    exists k,
      (k <= n)%nat
      /\ snd (retryLoop network (S n) url maxRetries attempt lastError t)
         = t ++ backoffSchedule url k attempt
      /\ match fst (retryLoop network (S n) url maxRetries attempt lastError t)
         with
         | Returned r =>
             network (attempts t + k)%nat url = NetResponse r
             /\ status r < 400
         | Thrown e =>
             isTourApiError e = true
             /\ match statusCode e with
                | Some c =>
                    400 <= c
                    /\ exists r, network (attempts t + k)%nat url
                                 = NetResponse r
                                 /\ status r = c
                | None =>
                    k = n
                    /\ exists m, network (attempts t + k)%nat url
                                 = NetFailure m
                                 /\ e = TourApiError
                                          ("API request failed after "
                                             +++ showZ maxRetries
                                             +++ " retries: " +++ m)
                                          None (Some (JsError m))
                end
         end.
Proof.
  induction n as [| n IH]; intros attempt lastError t Hsum.
  - exists O. split; [lia |]. rewrite Nat.add_0_r.
    rewrite retryLoop_step.
    destruct (network (attempts t) url) as [r | m] eqn:Hnet.
    + destruct (Z.lt_ge_cases (status r) 400) as [Hlow | Hhigh].
      * rewrite (attemptOnce_success Item network url _ _ _ _ _ Hnet Hlow).
        simpl. auto.
      * destruct (Z.lt_ge_cases (status r) 500) as [H4 | H5].
        -- rewrite (attemptOnce_4xx Item network url _ _ _ _ _ Hnet
                      (conj Hhigh H4)).
           simpl. repeat split; eauto.
        -- rewrite (attemptOnce_5xx_last Item network url _ _ _ _ _ Hnet H5)
             by (simpl in Hsum; lia).
           simpl. repeat split; [lia | eauto].
    + unfold attemptOnce, try_catch, bind, fetch, ret, throw.
      rewrite Hnet. simpl.
      replace (attempt <? maxRetries) with false
        by (symmetry; apply Z.ltb_ge; simpl in Hsum; lia).
      simpl. repeat split. exists m. split; reflexivity.
  - rewrite retryLoop_step.
    destruct (network (attempts t) url) as [r | m] eqn:Hnet.
    + destruct (Z.lt_ge_cases (status r) 400) as [Hlow | Hhigh].
      * exists O. split; [lia |]. rewrite Nat.add_0_r.
        rewrite (attemptOnce_success Item network url _ _ _ _ _ Hnet Hlow).
        simpl. auto.
      * destruct (Z.lt_ge_cases (status r) 500) as [H4 | H5].
        -- exists O. split; [lia |]. rewrite Nat.add_0_r.
           rewrite (attemptOnce_4xx Item network url _ _ _ _ _ Hnet
                      (conj Hhigh H4)).
           simpl. repeat split; eauto.
        -- rewrite (attemptOnce_5xx_retry Item network url _ _ _ _ _ Hnet H5)
             by lia.
           set (t1 := (t ++ [EvFetch url]) ++ [EvSleep (backoffDelay attempt)]).
           assert (Hat : attempts t1 = S (attempts t)).
           { unfold t1. rewrite !attempts_app. simpl. lia. }
           destruct (IH (attempt + 1) lastError t1) as [k [Hk [Htr Hout]]];
             [lia |].
           exists (S k). split; [lia |].
           replace (attempts t + S k)%nat with (attempts t1 + k)%nat by lia.
           split.
           { rewrite Htr. unfold t1, backoffDelay. simpl.
             now rewrite <- !app_assoc. }
           destruct (fst (retryLoop network (S n) url maxRetries
                                    (attempt + 1) lastError t1))
             as [r' | e]; [exact Hout |].
           destruct Hout as [Hty Hst]. split; [exact Hty |].
           destruct (statusCode e); [exact Hst |].
           destruct Hst as [-> Hm]. split; [reflexivity | exact Hm].
    + rewrite (attemptOnce_failure_retry Item network url _ _ _ _ _ Hnet)
        by lia.
      set (t1 := (t ++ [EvFetch url]) ++ [EvSleep (backoffDelay attempt)]).
      assert (Hat : attempts t1 = S (attempts t)).
      { unfold t1. rewrite !attempts_app. simpl. lia. }
      destruct (IH (attempt + 1) (Some (JsError m)) t1) as [k [Hk [Htr Hout]]];
        [lia |].
      exists (S k). split; [lia |].
      replace (attempts t + S k)%nat with (attempts t1 + k)%nat by lia.
      split.
      { rewrite Htr. unfold t1, backoffDelay. simpl.
        now rewrite <- !app_assoc. }
      destruct (fst (retryLoop network (S n) url maxRetries
                               (attempt + 1) (Some (JsError m)) t1))
        as [r' | e]; [exact Hout |].
      destruct Hout as [Hty Hst]. split; [exact Hty |].
      destruct (statusCode e); [exact Hst |].
      destruct Hst as [-> Hm]. split; [reflexivity | exact Hm].
Qed.

End FetcherRuns.

Lemma attemptOnce_failure_last
      (Item : Type) (network : nat -> Url -> NetOutcome Item) (url : Url)
      maxRetries attempt lastError t m :
  network (attempts t) url = NetFailure m ->
  maxRetries <= attempt ->
  attemptOnce network url maxRetries attempt lastError t
  = (Returned (Next (Some (JsError m))), t ++ [EvFetch url]).
Proof.
  intros Hnet Hge.
  unfold attemptOnce, try_catch, bind, fetch, ret, throw.
  rewrite Hnet. cbn [isTourApiError].
  replace (attempt <? maxRetries) with false
    by (symmetry; apply Z.ltb_ge; lia).
  reflexivity.
Qed.

(** X1. Whatever the provider does, a run of [fetchWithRetry] with a
    budget [maxRetries >= 0] is a request followed by [k <= maxRetries]
    rounds of sleep and request to the same URL: at least one and at most
    [maxRetries + 1] requests, the sleeps are the first [k] back-off
    delays 1000, 2000, 4000, ... in this order, and they add up to at most
    [(2^maxRetries - 1) * 1000] ms (7000 ms with the default budget). *)
Theorem fetchWithRetry_run_shape
        (Item : Type) (network : nat -> Url -> NetOutcome Item)
        (url : Url) (maxRetries : Z) (t : Trace) :
  0 <= maxRetries ->
  exists k : nat,
    Z.of_nat k <= maxRetries
    /\ snd (fetchWithRetry network url maxRetries t)
       = t ++ backoffSchedule url k 0
    /\ attempts (snd (fetchWithRetry network url maxRetries t))
       = (attempts t + k + 1)%nat
    /\ sleeps (snd (fetchWithRetry network url maxRetries t))
       = sleeps t ++ backoffDelays 0 k
    /\ sumZ (backoffDelays 0 k) <= (2 ^ maxRetries - 1) * 1000
    /\ (maxRetries = defaultMaxRetries -> sumZ (backoffDelays 0 k) <= 7000).
Proof.
  intros Hmax.
  unfold fetchWithRetry.
  replace (Z.to_nat (maxRetries + 1)) with (S (Z.to_nat maxRetries)) by lia.
  destruct (retryLoop_run Item network url maxRetries (Z.to_nat maxRetries)
              0 None t) as [k [Hk [Htr _]]]; [lia |].
  exists k.
  assert (Hsum : sumZ (backoffDelays 0 k) <= (2 ^ maxRetries - 1) * 1000).
  { rewrite sumZ_backoffDelays by lia. simpl (2 ^ 0).
    assert (2 ^ (0 + Z.of_nat k) <= 2 ^ maxRetries)
      by (apply Z.pow_le_mono_r; lia).
    lia. }
  split; [lia |]. split; [exact Htr |].
  rewrite Htr.
  split; [rewrite attempts_app, attempts_backoffSchedule; lia |].
  split; [now rewrite sleeps_app, sleeps_backoffSchedule |].
  split; [exact Hsum |].
  intros ->. exact Hsum.
Qed.

Lemma fetchWithRetry_run_shape_witness :
  exists k : nat,
    Z.of_nat k <= 3
    /\ snd (fetchWithRetry (firstThen 2 503 (NetFailure "reset")) sampleUrl 3 [])
       = [] ++ backoffSchedule sampleUrl k 0
    /\ attempts (snd (fetchWithRetry (firstThen 2 503 (NetFailure "reset"))
                                     sampleUrl 3 []))
       = (attempts [] + k + 1)%nat
    /\ sleeps (snd (fetchWithRetry (firstThen 2 503 (NetFailure "reset"))
                                   sampleUrl 3 []))
       = sleeps [] ++ backoffDelays 0 k
    /\ sumZ (backoffDelays 0 k) <= (2 ^ 3 - 1) * 1000
    /\ (3 = defaultMaxRetries -> sumZ (backoffDelays 0 k) <= 7000).
Proof.
  apply (fetchWithRetry_run_shape
           string (firstThen 2 503 (NetFailure "reset")) sampleUrl 3 []).
  lia.
Defined.

(** X2. What [fetchWithRetry] can come back with, for every provider and
    every budget: a response it returns is an answer of the provider with
    a status below 400; what it throws is always a [TourApiError], and a
    status code on it is the status, 400 or more, of an answer of the
    provider. *)
Theorem fetchWithRetry_outcome
        (Item : Type) (network : nat -> Url -> NetOutcome Item)
        (url : Url) (maxRetries : Z) (t : Trace) :
  match fst (fetchWithRetry network url maxRetries t) with
  | Returned r =>
      status r < 400 /\ exists i, network i url = NetResponse r
  | Thrown e =>
      isTourApiError e = true
      /\ forall c, statusCode e = Some c ->
                   400 <= c
                   /\ exists i r, network i url = NetResponse r
                                  /\ status r = c
  end.
Proof.
  unfold fetchWithRetry.
  destruct (Z.to_nat (maxRetries + 1)) as [| n] eqn:Hn.
  - simpl. split; [reflexivity | intros c Hc; discriminate].
  - destruct (retryLoop_run Item network url maxRetries n 0 None t)
      as [k [_ [_ Hout]]]; [lia |].
    destruct (fst (retryLoop network (S n) url maxRetries 0 None t))
      as [r | e].
    + destruct Hout as [Hnet Hst]. eauto.
    + destruct Hout as [Hty Hst]. split; [exact Hty |].
      intros c Hc. rewrite Hc in Hst.
      destruct Hst as [Hge [r [Hnet Hr]]]. eauto.
Qed.

(** X3. The first answer that is not retryable decides the run.  When the
    provider gives [k] retryable answers (transport errors or 5xx) within
    the budget and then a response with a status below 500, the run ends
    on request [k + 1] after the sleeps of the [k] rounds: the response
    is returned if its status is below 400 and a [TourApiError] with its
    status is thrown otherwise. *)
Theorem fetchWithRetry_first_decisive
        (Item : Type) (network : nat -> Url -> NetOutcome Item)
        (url : Url) (maxRetries : Z) (t : Trace) (k : nat)
        (r : Response Item) :
  Z.of_nat k <= maxRetries ->
  (forall i, (i < k)%nat -> retryable (network (attempts t + i)%nat url)) ->
  network (attempts t + k)%nat url = NetResponse r ->
  status r < 500 ->
  fetchWithRetry network url maxRetries t
  = (if status r <? 400 then Returned r
     else Thrown (TourApiError
                    ("API request failed with status " +++ showZ (status r))
                    (Some (status r)) None),
     t ++ backoffSchedule url k 0).
Proof.
  intros Hk Hpre Hnet Hst.
  unfold fetchWithRetry.
  replace (Z.to_nat (maxRetries + 1)) with (S (Z.to_nat maxRetries)) by lia.
  destruct (retryLoop_rounds Item network url maxRetries k
              (Z.to_nat maxRetries) 0 None t) as [le' [Hrun Hat]];
    [lia | lia | exact Hpre |].
  rewrite Hrun, retryLoop_step, backoffSchedule_rounds, app_assoc.
  rewrite <- Hat in Hnet.
  destruct (Z.ltb_spec (status r) 400) as [Hlow | Hhigh].
  - now rewrite (attemptOnce_success Item network url _ _ _ _ _ Hnet Hlow).
  - now rewrite (attemptOnce_4xx Item network url _ _ _ _ _ Hnet
                   (conj Hhigh Hst)).
Qed.

Lemma fetchWithRetry_first_decisive_witness :
  fetchWithRetry (firstThen 2 503 (NetResponse (statusOnly 200 "OK")))
                 sampleUrl 3 []
  = (Returned (statusOnly 200 "OK"),
     [EvFetch sampleUrl; EvSleep 1000; EvFetch sampleUrl; EvSleep 2000;
      EvFetch sampleUrl]).
Proof.
  apply (fetchWithRetry_first_decisive
           string (firstThen 2 503 (NetResponse (statusOnly 200 "OK")))
           sampleUrl 3 [] 2 (statusOnly 200 "OK")).
  - lia.
  - intros [| [| i]] Hi; simpl; lia.
  - reflexivity.
  - simpl. lia.
Defined.

(** X4. When the budget runs out on a transport error (the answers before
    it being retryable), [fetchWithRetry] has made [maxRetries + 1]
    requests and throws a [TourApiError] without status code whose
    message names the retry count and the last transport error, and which
    keeps that error as its original error. *)
Theorem fetchWithRetry_transport_exhausted
        (Item : Type) (network : nat -> Url -> NetOutcome Item)
        (url : Url) (maxRetries : Z) (t : Trace) (m : string) :
  0 <= maxRetries ->
  (forall i, (i < Z.to_nat maxRetries)%nat ->
             retryable (network (attempts t + i)%nat url)) ->
  network (attempts t + Z.to_nat maxRetries)%nat url = NetFailure m ->
  fetchWithRetry network url maxRetries t
  = (Thrown (TourApiError
               ("API request failed after " +++ showZ maxRetries
                  +++ " retries: " +++ m)
               None (Some (JsError m))),
     t ++ backoffSchedule url (Z.to_nat maxRetries) 0).
Proof.
  intros Hmax Hpre Hnet.
  unfold fetchWithRetry.
  replace (Z.to_nat (maxRetries + 1)) with (S (Z.to_nat maxRetries)) by lia.
  destruct (retryLoop_rounds Item network url maxRetries
              (Z.to_nat maxRetries) (Z.to_nat maxRetries) 0 None t)
    as [le' [Hrun Hat]]; [lia | lia | exact Hpre |].
  rewrite Hrun, Nat.sub_diag, retryLoop_step, backoffSchedule_rounds, app_assoc.
  rewrite <- Hat in Hnet.
  rewrite (attemptOnce_failure_last Item network url _ _ _ _ m Hnet) by lia.
  reflexivity.
Qed.

Lemma fetchWithRetry_transport_exhausted_witness :
  fetchWithRetry (unreachable "fetch failed") sampleUrl 3 []
  = (Thrown (TourApiError "API request failed after 3 retries: fetch failed"
                          None (Some (JsError "fetch failed"))),
     [EvFetch sampleUrl; EvSleep 1000; EvFetch sampleUrl; EvSleep 2000;
      EvFetch sampleUrl; EvSleep 4000; EvFetch sampleUrl]).
Proof.
  apply (fetchWithRetry_transport_exhausted
           string (unreachable "fetch failed") sampleUrl 3 [] "fetch failed").
  - lia.
  - intros i _. exact I.
  - reflexivity.
Defined.

(** X5. With a negative budget [fetchWithRetry] issues no request at all:
    the trace is unchanged and the error thrown has no status code, no
    original error, and "undefined" where the last message would be. *)
Theorem fetchWithRetry_negative_budget
        (Item : Type) (network : nat -> Url -> NetOutcome Item)
        (url : Url) (maxRetries : Z) (t : Trace) :
  maxRetries < 0 ->
  fetchWithRetry network url maxRetries t
  = (Thrown (TourApiError
               ("API request failed after " +++ showZ maxRetries
                  +++ " retries: undefined")
               None None),
     t).
Proof.
  intros Hneg. unfold fetchWithRetry.
  replace (Z.to_nat (maxRetries + 1)) with O by lia.
  reflexivity.
Qed.

Lemma fetchWithRetry_negative_budget_witness :
  fetchWithRetry (alwaysItems (ItemArray ["x"])) sampleUrl (-1) []
  = (Thrown (TourApiError "API request failed after -1 retries: undefined"
                          None None),
     []).
Proof.
  apply (fetchWithRetry_negative_budget
           string (alwaysItems (ItemArray ["x"])) sampleUrl (-1) []).
  lia.
Defined.

(* ================================================================== *)
(** * Further facts: the query of a request *)

Section ObjectFacts.

Lemma assocGet_app {V} k (l1 l2 : list (string * V)) :
  assocGet k (l1 ++ l2)
  = match assocGet k l1 with
    | Some v => Some v
    | None => assocGet k l2
    end.
Proof.
  induction l1 as [| [k' v] l1 IH]; simpl; [reflexivity |].
  destruct (String.eqb k k'); [reflexivity | exact IH].
Qed.

Lemma assocGet_None_keys {V} k (l : list (string * V)) :
  assocGet k l = None <-> ~ In k (keysOf l).
Proof.
  induction l as [| [k' v] l IH]; simpl; [tauto |].
  destruct (String.eqb_spec k k') as [-> | Hne].
  - split; [discriminate | intros H; exfalso; apply H; now left].
  - rewrite IH. split.
    + intros H [Heq | Hin]; [congruence | contradiction].
    + intros H Hin. apply H. now right.
Qed.

Lemma setKey_get k v (o : ParamObject) k' :
  assocGet k' (setKey k v o)
  = if String.eqb k' k then Some v else assocGet k' o.
Proof.
  induction o as [| [k0 v0] o IH]; simpl.
  - destruct (String.eqb k' k); reflexivity.
  - destruct (String.eqb_spec k k0) as [-> | Hne]; simpl.
    + destruct (String.eqb k' k0); reflexivity.
    + destruct (String.eqb_spec k' k0) as [-> | Hne'].
      * destruct (String.eqb_spec k0 k); [congruence | reflexivity].
      * exact IH.
Qed.

Lemma setKey_keys k v (o : ParamObject) :
  forall k', In k' (keysOf (setKey k v o)) <-> k' = k \/ In k' (keysOf o).
Proof.
  induction o as [| [k0 v0] o IH]; intros k'; simpl.
  - intuition.
  - destruct (String.eqb_spec k k0) as [-> | Hne]; simpl.
    + intuition.
    + rewrite IH. intuition.
Qed.

Lemma setKey_NoDup k v (o : ParamObject) :
  NoDup (keysOf o) -> NoDup (keysOf (setKey k v o)).
Proof.
  induction o as [| [k0 v0] o IH]; intros Hnd; simpl.
  - constructor; [intros [] | constructor].
  - simpl in Hnd. inversion Hnd as [| ? ? Hnotin Hrest]; subst.
    destruct (String.eqb_spec k k0) as [-> | Hne]; simpl.
    + now constructor.
    + constructor; [| now apply IH].
      intros Hin. apply setKey_keys in Hin.
      destruct Hin as [-> | Hin]; [congruence | contradiction].
Qed.

Lemma spread_NoDup (a b : ParamObject) :
  NoDup (keysOf a) -> NoDup (keysOf (spread a b)).
Proof.
  unfold spread. revert a.
  induction b as [| [k v] b IH]; intros a Hnd; simpl; [exact Hnd |].
  apply IH. now apply setKey_NoDup.
Qed.

Lemma spread_get (a b : ParamObject) k :
  assocGet k (spread a b)
  = match lastValue k b with
    | Some v => Some v
    | None => assocGet k a
    end.
Proof.
  unfold spread, lastValue. revert a.
  induction b as [| [k0 v0] b IH]; intros a; simpl; [reflexivity |].
  rewrite IH, assocGet_app, setKey_get. simpl.
  destruct (assocGet k (rev b)); [reflexivity |].
  destruct (String.eqb k k0); reflexivity.
Qed.

Lemma filterParams_keys (o : ParamObject) k :
  In k (keysOf (filterParams o)) -> In k (keysOf o).
Proof.
  induction o as [| [k0 v0] o IH]; simpl; [tauto |].
  destruct (stringOfParam v0); simpl; intuition.
Qed.

Lemma filterParams_NoDup (o : ParamObject) :
  NoDup (keysOf o) -> NoDup (keysOf (filterParams o)).
Proof.
  induction o as [| [k0 v0] o IH]; intros Hnd; simpl; [constructor |].
  simpl in Hnd. inversion Hnd as [| ? ? Hnotin Hrest]; subst.
  destruct (stringOfParam v0); simpl; [| now apply IH].
  constructor; [| now apply IH].
  intros Hin. apply Hnotin. now apply filterParams_keys.
Qed.

Lemma filterParams_get (o : ParamObject) k :
  NoDup (keysOf o) ->
  assocGet k (filterParams o)
  = match assocGet k o with
    | Some v => stringOfParam v
    | None => None
    end.
Proof.
  induction o as [| [k0 v0] o IH]; intros Hnd; simpl; [reflexivity |].
  simpl in Hnd. inversion Hnd as [| ? ? Hnotin Hrest]; subst.
  destruct (String.eqb_spec k k0) as [-> | Hne].
  - destruct (stringOfParam v0) eqn:Hs; simpl.
    + now rewrite String.eqb_refl.
    + apply assocGet_None_keys. intros Hin. apply Hnotin.
      now apply filterParams_keys.
  - destruct (stringOfParam v0); simpl.
    + destruct (String.eqb_spec k k0); [congruence | now apply IH].
    + now apply IH.
Qed.

Lemma serviceParams_NoDup key : NoDup (keysOf (serviceParams key)).
Proof.
  simpl. repeat (constructor; [simpl; intuition discriminate |]). constructor.
Qed.

Lemma buildUrl_with_key env endpoint params key :
  getApiKey env = Returned key ->
  buildUrl env endpoint params
  = Returned {| path := BASE_URL +++ endpoint;
                query := filterParams (spread (serviceParams key) params) |}.
Proof.
  intros Hkey. unfold buildUrl, getCommonParams. now rewrite Hkey.
Qed.

End ObjectFacts.

(** X6. The query of a URL built with a resolved credential is a map:
    no key occurs twice, and the value under a key is the string form of
    what the caller passed under it last; a caller's undefined or null
    removes the parameter, also a service parameter; a key the caller
    does not pass has the service value ([serviceKey] the credential,
    [MobileOS] ETC, [MobileApp] MyTrip, [_type] json) or none. *)
Theorem buildUrl_query_map (env : Env) (endpoint : string)
        (params : ParamObject) (key : string) :
  getApiKey env = Returned key ->
  exists url,
    buildUrl env endpoint params = Returned url
    /\ path url = BASE_URL +++ endpoint
    /\ NoDup (keysOf (query url))
    /\ forall k,
         assocGet k (query url)
         = match lastValue k params with
           | Some v => stringOfParam v
           | None =>
               if String.eqb k "serviceKey" then Some key
               else if String.eqb k "MobileOS" then Some "ETC"
               else if String.eqb k "MobileApp" then Some "MyTrip"
               else if String.eqb k "_type" then Some "json"
               else None
           end.
Proof.
  intros Hkey. eexists.
  split; [exact (buildUrl_with_key env endpoint params key Hkey) |].
  split; [reflexivity |]. cbn [query].
  split.
  - apply filterParams_NoDup, spread_NoDup, serviceParams_NoDup.
  - intros k.
    rewrite filterParams_get
      by apply spread_NoDup, serviceParams_NoDup.
    rewrite spread_get.
    destruct (lastValue k params); [reflexivity |]. simpl.
    repeat (destruct (String.eqb k _); [reflexivity |]). reflexivity.
Qed.

Lemma buildUrl_query_map_witness :
  exists url,
    buildUrl sampleEnv "/detailImage2"
             [("contentId", PString "125266"); ("imageYN", PUndefined);
              ("_type", PNull); ("contentId", PNumber 7)]
    = Returned url
    /\ path url = BASE_URL +++ "/detailImage2"
    /\ NoDup (keysOf (query url))
    /\ forall k,
         assocGet k (query url)
         = match lastValue k [("contentId", PString "125266");
                              ("imageYN", PUndefined); ("_type", PNull);
                              ("contentId", PNumber 7)] with
           | Some v => stringOfParam v
           | None =>
               if String.eqb k "serviceKey" then Some "server-key"
               else if String.eqb k "MobileOS" then Some "ETC"
               else if String.eqb k "MobileApp" then Some "MyTrip"
               else if String.eqb k "_type" then Some "json"
               else None
           end.
Proof.
  apply (buildUrl_query_map sampleEnv "/detailImage2" _ "server-key").
  reflexivity.
Defined.

(* ================================================================== *)
(** * Further facts: what every endpoint client does *)

Section EndpointRuns.

Variable Item : Type.
Variable network : nat -> Url -> NetOutcome Item.
Variable env : Env.

(** Case analysis on everything a client inspects after its request. *)
Ltac client_cases :=
  repeat match goal with
         | |- context [if ?b then _ else _] => destruct b eqn:?
         | |- context [match body ?r with _ => _ end] => destruct (body r) eqn:?
         | |- context [match item ?d with _ => _ end] => destruct (item d) eqn:?
         | |- context [match ?l with [] => _ | _ :: _ => _ end] =>
             destruct l eqn:?
         end.

Ltac open_client :=
  cbv [getAreaCode getAreaBasedList searchKeyword getDetailCommon
       getDetailIntro getDetailImage getDetailPetTour try_catch bind];
  cbv zeta.

Ltac run_client :=
  cbv [json parseApiResponse normalizeToArray firstOr itemFalsy
       rethrowWrapped ret throw try_catch bind isNotFound isItemsMissing
       statusCode isTourApiError exn_message andb negb fst snd].

(** A client has no effect of its own: its trace is that of its request. *)
Lemma endpointTrace_request (c : EndpointCall) (t : Trace) :
  endpointTrace network env c t
  = snd (request network env (endpointPath c) (endpointObject c) t).
Proof.
  destruct c as [p | p | p | p | p | p | p];
    unfold endpointTrace, endpointPath, endpointObject; open_client;
    destruct (request network env _ _ t) as [[response | e] t'];
    cbn [fst snd]; run_client; client_cases; run_client; client_cases;
    reflexivity.
Qed.

Lemma getApiKey_throws e :
  getApiKey env = Thrown e -> e = missingKeyError.
Proof.
  unfold getApiKey, missingKeyError. cbv zeta.
  destruct (negb _); [congruence |].
  destruct (if truthy _ then _ else _); congruence.
Qed.

Lemma request_without_key endpoint params t e :
  getApiKey env = Thrown e ->
  request network env endpoint params t = (Thrown e, t).
Proof.
  intros Hkey. unfold request, bind, lift, buildUrl, getCommonParams.
  now rewrite Hkey.
Qed.

Lemma request_with_url endpoint params t url :
  buildUrl env endpoint params = Returned url ->
  request network env endpoint params t
  = fetchWithRetry network url defaultMaxRetries t.
Proof.
  intros Hurl. unfold request, bind, lift. now rewrite Hurl.
Qed.

(** What [fetchWithRetry] hands on, in short. *)
Lemma fetchWithRetry_classified url maxRetries t :
  match fst (fetchWithRetry network url maxRetries t) with
  | Returned r => status r < 400
  | Thrown e => isTourApiError e = true
  end.
Proof.
  unfold fetchWithRetry.
  destruct (Z.to_nat (maxRetries + 1)) as [| n] eqn:Hn; [reflexivity |].
  destruct (retryLoop_run Item network url maxRetries n 0 None t)
    as [k [_ [_ Hout]]]; [lia |].
  destruct (fst (retryLoop network (S n) url maxRetries 0 None t));
    tauto.
Qed.

Lemma request_classified endpoint params t :
  match fst (request network env endpoint params t) with
  | Returned r => status r < 400
  | Thrown e => isTourApiError e = true
  end.
Proof.
  destruct (getApiKey env) as [key | e] eqn:Hkey.
  - rewrite (request_with_url endpoint params t _
               (buildUrl_with_key env endpoint params key Hkey)).
    apply fetchWithRetry_classified.
  - rewrite (request_without_key endpoint params t e Hkey). simpl.
    now rewrite (getApiKey_throws e Hkey).
Qed.

Lemma request_trace endpoint params t key :
  getApiKey env = Returned key ->
  exists k : nat,
    (k <= 3)%nat
    /\ snd (request network env endpoint params t)
       = t ++ backoffSchedule
                {| path := BASE_URL +++ endpoint;
                   query := filterParams (spread (serviceParams key) params) |}
                k 0.
Proof.
  intros Hkey.
  rewrite (request_with_url endpoint params t _
             (buildUrl_with_key env endpoint params key Hkey)).
  unfold fetchWithRetry, defaultMaxRetries.
  destruct (retryLoop_run Item network
              {| path := BASE_URL +++ endpoint;
                 query := filterParams (spread (serviceParams key) params) |}
              3 3%nat 0 None t) as [k [Hk [Htr _]]]; [reflexivity |].
  exists k. split; [exact Hk | exact Htr].
Qed.

Lemma endpointObject_no_service_key (c : EndpointCall) :
  lastValue "serviceKey" (endpointObject c) = None
  /\ lastValue "MobileOS" (endpointObject c) = None
  /\ lastValue "MobileApp" (endpointObject c) = None
  /\ lastValue "_type" (endpointObject c) = None.
Proof.
  destruct c as [[p |] | p | p | p | p | p | p]; repeat split; reflexivity.
Qed.

End EndpointRuns.

(** X7. Every call of one of the seven endpoint clients issues either no
    request (when the credential cannot be resolved) or between one and
    four requests, all of them to the one URL built for the call, with
    the back-off sleeps in between; that URL carries the resolved
    credential as [serviceKey] and the fixed [MobileOS], [MobileApp] and
    [_type]. *)
Theorem endpoint_requests_one_url
        (Item : Type) (network : nat -> Url -> NetOutcome Item) (env : Env)
        (c : EndpointCall) (t : Trace) :
  (forall e, getApiKey env = Thrown e -> endpointTrace network env c t = t)
  /\ (forall key,
        getApiKey env = Returned key ->
        exists url (k : nat),
          buildUrl env (endpointPath c) (endpointObject c) = Returned url
          /\ (k <= 3)%nat
          /\ endpointTrace network env c t = t ++ backoffSchedule url k 0
          /\ attempts (endpointTrace network env c t)
             = (attempts t + k + 1)%nat
          /\ path url = BASE_URL +++ endpointPath c
          /\ assocGet "serviceKey" (query url) = Some key
          /\ assocGet "MobileOS" (query url) = Some "ETC"
          /\ assocGet "MobileApp" (query url) = Some "MyTrip"
          /\ assocGet "_type" (query url) = Some "json").
Proof.
  rewrite endpointTrace_request.
  split.
  - intros e Hkey. now rewrite (request_without_key Item network env _ _ t e).
  - intros key Hkey.
    destruct (request_trace Item network env (endpointPath c)
                (endpointObject c) t key Hkey) as [k [Hk Htr]].
    eexists. exists k.
    split; [exact (buildUrl_with_key env _ _ key Hkey) |].
    split; [exact Hk |]. split; [exact Htr |].
    split; [rewrite Htr, attempts_app, attempts_backoffSchedule; lia |].
    split; [reflexivity |]. cbn [query].
    destruct (endpointObject_no_service_key c) as [H1 [H2 [H3 H4]]].
    repeat split;
      rewrite filterParams_get by apply spread_NoDup, serviceParams_NoDup;
      rewrite spread_get;
      [rewrite H1 | rewrite H2 | rewrite H3 | rewrite H4]; reflexivity.
Qed.

Lemma endpoint_requests_one_url_witness :
  endpointTrace (alwaysItems (ItemArray ["x"])) noKeyEnv
                (CallDetailCommon sampleCommonParams) []
  = []
  /\ exists url (k : nat),
       buildUrl sampleEnv (endpointPath (CallDetailImage sampleImageParams))
                (endpointObject (CallDetailImage sampleImageParams))
       = Returned url
       /\ (k <= 3)%nat
       /\ endpointTrace (alwaysStatus 503 "Service Unavailable") sampleEnv
                        (CallDetailImage sampleImageParams) []
          = [] ++ backoffSchedule url k 0
       /\ attempts (endpointTrace (alwaysStatus 503 "Service Unavailable")
                                  sampleEnv
                                  (CallDetailImage sampleImageParams) [])
          = (attempts [] + k + 1)%nat
       /\ path url
          = BASE_URL +++ endpointPath (CallDetailImage sampleImageParams)
       /\ assocGet "serviceKey" (query url) = Some "server-key"
       /\ assocGet "MobileOS" (query url) = Some "ETC"
       /\ assocGet "MobileApp" (query url) = Some "MyTrip"
       /\ assocGet "_type" (query url) = Some "json".
Proof.
  split.
  - apply (proj1 (endpoint_requests_one_url
                    string (alwaysItems (ItemArray ["x"])) noKeyEnv
                    (CallDetailCommon sampleCommonParams) [])
                 missingKeyError).
    reflexivity.
  - apply (proj2 (endpoint_requests_one_url
                    string (alwaysStatus 503 "Service Unavailable") sampleEnv
                    (CallDetailImage sampleImageParams) [])
                 "server-key").
    reflexivity.
Defined.

Section EndpointErrors.

Variable Item : Type.
Variable network : nat -> Url -> NetOutcome Item.
Variable env : Env.

Ltac client_cases :=
  repeat match goal with
         | |- context [if ?b then _ else _] => destruct b eqn:?
         | |- context [match body ?r with _ => _ end] => destruct (body r) eqn:?
         | |- context [match item ?d with _ => _ end] => destruct (item d) eqn:?
         | |- context [match ?l with [] => _ | _ :: _ => _ end] =>
             destruct l eqn:?
         end.

Ltac open_client :=
  cbv [getAreaCode getAreaBasedList searchKeyword getDetailCommon
       getDetailIntro getDetailImage getDetailPetTour try_catch bind];
  cbv zeta.

Ltac run_client :=
  cbv [json parseApiResponse normalizeToArray firstOr itemFalsy
       rethrowWrapped ret throw try_catch bind isNotFound isItemsMissing
       statusCode isTourApiError exn_message andb negb fst snd].

Lemma endpointThrown_typed (c : EndpointCall) (t : Trace) (e : Exn) :
  endpointThrown network env c t = Some e -> isTourApiError e = true.
Proof.
  destruct c as [p | p | p | p | p | p | p];
    unfold endpointThrown, thrownBy; open_client;
    match goal with
    | |- context [request network env ?ep ?o t] =>
        pose proof (request_classified Item network env ep o t) as Hreq;
        destruct (request network env ep o t) as [[response | [m s o' | m]] t']
    end;
    cbn [fst snd] in *; try discriminate Hreq;
    run_client; client_cases; run_client; client_cases;
    intros H; try discriminate H; injection H as <-; reflexivity.
Qed.

End EndpointErrors.

(** X8. Whatever the provider and the environment do, an endpoint client
    throws nothing but a [TourApiError]: transport errors, malformed
    bodies and the missing credential all reach the caller as that one
    error class. *)
Theorem endpoints_throw_only_TourApiError
        (Item : Type) (network : nat -> Url -> NetOutcome Item) (env : Env)
        (c : EndpointCall) (t : Trace) (e : Exn) :
  endpointThrown network env c t = Some e ->
  isTourApiError e = true.
Proof.
  apply endpointThrown_typed.
Qed.

Lemma endpoints_throw_only_TourApiError_witness :
  isTourApiError
    (TourApiError "API request failed after 3 retries: fetch failed"
                  None (Some (JsError "fetch failed")))
  = true.
Proof.
  apply (endpoints_throw_only_TourApiError
           string (unreachable "fetch failed") sampleEnv
           (CallAreaBasedList sampleListParams) []).
  vm_compute. reflexivity.
Defined.

Section EndpointAnswers.

Variable Item : Type.
Variable network : nat -> Url -> NetOutcome Item.
Variable env : Env.

Ltac client_cases :=
  repeat match goal with
         | |- context [if ?b then _ else _] => destruct b eqn:?
         | |- context [match body ?r with _ => _ end] => destruct (body r) eqn:?
         | |- context [match item ?d with _ => _ end] => destruct (item d) eqn:?
         | |- context [match ?l with [] => _ | _ :: _ => _ end] =>
             destruct l eqn:?
         end.

Ltac open_client :=
  cbv [getAreaCode getAreaBasedList searchKeyword getDetailCommon
       getDetailIntro getDetailImage getDetailPetTour try_catch bind];
  cbv zeta.

Ltac run_client :=
  cbv [json parseApiResponse normalizeToArray firstOr itemFalsy
       rethrowWrapped ret throw try_catch bind isNotFound isItemsMissing
       statusCode isTourApiError exn_message andb negb fst snd].

(** A malformed body is wrapped by every client. *)
Lemma endpointThrown_invalid_body (c : EndpointCall) t t' response m :
  request network env (endpointPath c) (endpointObject c) t
  = (Returned response, t') ->
  ok response = true ->
  body response = JsonInvalid m ->
  endpointThrown network env c t
  = Some (TourApiError (wrapPrefix c +++ ": " +++ m) None (Some (JsError m))).
Proof.
  intros Hreq Hok Hbody.
  destruct c as [p | p | p | p | p | p | p];
    unfold endpointThrown, thrownBy, endpointPath, endpointObject in *;
    open_client; rewrite Hreq, Hok; cbn [negb];
    unfold json; rewrite Hbody; reflexivity.
Qed.

(** A response that is not OK is turned into an error with its status. *)
Lemma endpointThrown_not_ok (c : EndpointCall) t t' response :
  request network env (endpointPath c) (endpointObject c) t
  = (Returned response, t') ->
  ok response = false ->
  (inspectsMessage c = true ->
   includes "items.item is missing" (fetchPrefix c +++ statusText response)
   = false) ->
  endpointThrown network env c t
  = Some (TourApiError (fetchPrefix c +++ statusText response)
                       (Some (status response)) None).
Proof.
  intros Hreq Hok Hmsg.
  pose proof (request_classified Item network env (endpointPath c)
                (endpointObject c) t) as Hst.
  rewrite Hreq in Hst. cbn [fst] in Hst.
  assert (H404 : (status response =? 404) = false)
    by (apply Z.eqb_neq; lia).
  destruct c as [p | p | p | p | p | p | p];
    unfold endpointThrown, thrownBy, endpointPath, endpointObject,
      fetchPrefix, inspectsMessage in *;
    open_client; rewrite Hreq, Hok; cbn [negb];
    try reflexivity;
    rewrite H404;
    cbv [throw isItemsMissing isNotFound isTourApiError exn_message
         statusCode andb];
    rewrite (Hmsg eq_refl), ?H404; reflexivity.
Qed.

(** The list endpoints take an absent [item] for an error. *)
Lemma list_endpoints_absent_item t t' response data :
  ok response = true ->
  body response = JsonOk data ->
  itemsOf (item data) = None ->
  (forall p,
     request network env "/areaCode2" (areaCodeObject p) t
     = (Returned response, t') ->
     getAreaCode network env p t
     = (Thrown (TourApiError itemsMissingMessage None None), t'))
  /\ (forall p,
        request network env "/areaBasedList2"
                (endpointObject (CallAreaBasedList p)) t
        = (Returned response, t') ->
        getAreaBasedList network env p t
        = (Thrown (TourApiError itemsMissingMessage None None), t'))
  /\ (forall p,
        request network env "/searchKeyword2"
                (endpointObject (CallSearchKeyword p)) t
        = (Returned response, t') ->
        searchKeyword network env p t
        = (Thrown (TourApiError itemsMissingMessage None None), t')).
Proof.
  intros Hok Hbody Hitem.
  repeat split; intros p Hreq; unfold endpointObject in Hreq;
    open_client; rewrite Hreq, Hok; cbn [negb];
    unfold json; rewrite Hbody; cbv [ret parseApiResponse];
    destruct (item data); try discriminate Hitem; reflexivity.
Qed.

(** What a value returned by a required endpoint is. *)
Lemma getDetailCommon_sound p t t' x :
  getDetailCommon network env p t = (Returned x, t') ->
  exists response data rest,
    request network env "/detailCommon2" (detailCommonObject p) t
    = (Returned response, t')
    /\ ok response = true
    /\ body response = JsonOk data
    /\ itemsOf (item data) = Some (x :: rest).
Proof.
  open_client.
  destruct (request network env "/detailCommon2" (detailCommonObject p) t)
    as [[response | e] t1] eqn:Hreq;
    run_client; client_cases; run_client; client_cases;
    intros H; try discriminate H; injection H as <- <-;
    exists response; eexists; eexists;
    (split; [reflexivity |]);
    (split; [destruct (ok response); [reflexivity | discriminate] |]);
    (split; [eassumption |]);
    match goal with Hi : item _ = _ |- _ => rewrite Hi end; reflexivity.
Qed.

Lemma getDetailIntro_sound p t t' x :
  getDetailIntro network env p t = (Returned x, t') ->
  exists response data rest,
    request network env "/detailIntro2" (detailIntroObject p) t
    = (Returned response, t')
    /\ ok response = true
    /\ body response = JsonOk data
    /\ itemsOf (item data) = Some (x :: rest).
Proof.
  open_client.
  destruct (request network env "/detailIntro2" (detailIntroObject p) t)
    as [[response | e] t1] eqn:Hreq;
    run_client; client_cases; run_client; client_cases;
    intros H; try discriminate H; injection H as <- <-;
    exists response; eexists; eexists;
    (split; [reflexivity |]);
    (split; [destruct (ok response); [reflexivity | discriminate] |]);
    (split; [eassumption |]);
    match goal with Hi : item _ = _ |- _ => rewrite Hi end; reflexivity.
Qed.

Lemma orElse_zero value fallback :
  orElse value fallback = 0 -> fallback = 0.
Proof.
  unfold orElse. destruct value as [[| n | n] |]; intros H;
    try discriminate H; exact H.
Qed.

Lemma getAreaBasedList_sound p t t' r :
  getAreaBasedList network env p t = (Returned r, t') ->
  exists response data,
    request network env "/areaBasedList2"
            (endpointObject (CallAreaBasedList p)) t
    = (Returned response, t')
    /\ ok response = true
    /\ body response = JsonOk data
    /\ itemsOf (item data) = Some (items r)
    /\ totalCount r
       = orElse (body_totalCount data) (Z.of_nat (List.length (items r)))
    /\ lr_pageNo r
       = Some (orElse (body_pageNo data) (withDefault (pageNo p) 1))
    /\ lr_numOfRows r
       = Some (orElse (body_numOfRows data) (withDefault (numOfRows p) 10)).
Proof.
  unfold endpointObject. open_client.
  destruct (request network env "/areaBasedList2" _ t)
    as [[response | e] t1] eqn:Hreq;
    run_client; client_cases; run_client; client_cases;
    intros H; try discriminate H; injection H as <- <-;
    exists response; eexists;
    (split; [reflexivity |]);
    (split; [destruct (ok response); [reflexivity | discriminate] |]);
    (split; [eassumption |]);
    match goal with Hi : item _ = _ |- _ => rewrite Hi end;
    repeat split.
Qed.

Lemma searchKeyword_sound p t t' r :
  searchKeyword network env p t = (Returned r, t') ->
  exists response data,
    request network env "/searchKeyword2"
            (endpointObject (CallSearchKeyword p)) t
    = (Returned response, t')
    /\ ok response = true
    /\ body response = JsonOk data
    /\ itemsOf (item data) = Some (items r)
    /\ totalCount r
       = orElse (body_totalCount data) (Z.of_nat (List.length (items r)))
    /\ lr_pageNo r = None
    /\ lr_numOfRows r = None.
Proof.
  unfold endpointObject. open_client.
  destruct (request network env "/searchKeyword2" _ t)
    as [[response | e] t1] eqn:Hreq;
    run_client; client_cases; run_client; client_cases;
    intros H; try discriminate H; injection H as <- <-;
    exists response; eexists;
    (split; [reflexivity |]);
    (split; [destruct (ok response); [reflexivity | discriminate] |]);
    (split; [eassumption |]);
    match goal with Hi : item _ = _ |- _ => rewrite Hi end;
    repeat split.
Qed.

(** On an OK response with a body that parses, the optional endpoints
    always return. *)
Lemma getDetailImage_ok_body p t t' response data :
  request network env "/detailImage2" (detailImageObject p) t
  = (Returned response, t') ->
  ok response = true ->
  body response = JsonOk data ->
  getDetailImage network env p t
  = (Returned match itemsOf (item data) with
              | Some images => images
              | None => []
              end,
     t').
Proof.
  intros Hreq Hok Hbody.
  open_client. rewrite Hreq, Hok. cbn [negb].
  unfold json. rewrite Hbody. run_client.
  destruct (item data); reflexivity.
Qed.

Lemma getDetailPetTour_ok_body p t t' response data :
  request network env "/detailPetTour2" (detailPetTourObject p) t
  = (Returned response, t') ->
  ok response = true ->
  body response = JsonOk data ->
  getDetailPetTour network env p t
  = (Returned match itemsOf (item data) with
              | Some (x :: _) => Some x
              | _ => None
              end,
     t').
Proof.
  intros Hreq Hok Hbody.
  open_client. rewrite Hreq, Hok. cbn [negb].
  unfold json. rewrite Hbody. run_client.
  destruct (item data) as [| | x | [| x xs]]; reflexivity.
Qed.

End EndpointAnswers.

Lemma stringOfParam_optString v : stringOfParam (optString v) = v.
Proof. destruct v; reflexivity. Qed.

(** X9. The two list endpoints always send [numOfRows] and [pageNo], 10
    and 1 unless the caller gives them, and send [areaCode] and
    [contentTypeId] exactly when the caller gives them; [searchKeyword]
    always sends the keyword.  The URL meant is the one the requests of
    the call go to. *)
Theorem list_endpoints_paging_defaults
        (Item : Type) (network : nat -> Url -> NetOutcome Item) (env : Env)
        (key : string) (t : Trace) :
  getApiKey env = Returned key ->
  (forall p,
     exists url (k : nat),
       endpointTrace network env (CallAreaBasedList p) t
       = t ++ backoffSchedule url k 0
       /\ assocGet "numOfRows" (query url)
          = Some (showZ (withDefault (numOfRows p) 10))
       /\ assocGet "pageNo" (query url)
          = Some (showZ (withDefault (pageNo p) 1))
       /\ assocGet "areaCode" (query url) = areaCode p
       /\ assocGet "contentTypeId" (query url) = contentTypeId p)
  /\ (forall p,
        exists url (k : nat),
          endpointTrace network env (CallSearchKeyword p) t
          = t ++ backoffSchedule url k 0
          /\ assocGet "numOfRows" (query url)
             = Some (showZ (withDefault (sk_numOfRows p) 10))
          /\ assocGet "pageNo" (query url)
             = Some (showZ (withDefault (sk_pageNo p) 1))
          /\ assocGet "keyword" (query url) = Some (keyword p)
          /\ assocGet "areaCode" (query url) = sk_areaCode p
          /\ assocGet "contentTypeId" (query url) = sk_contentTypeId p).
Proof.
  intros Hkey.
  split; intros p; rewrite endpointTrace_request;
    match goal with
    | |- context [request network env ?ep ?o t] =>
        destruct (request_trace Item network env ep o t key Hkey)
          as [k [_ Htr]]
    end;
    eexists; exists k; (split; [exact Htr |]); cbn [query];
    repeat split;
    rewrite filterParams_get by apply spread_NoDup, serviceParams_NoDup;
    rewrite spread_get;
    match goal with
    | |- context [lastValue ?k0 ?o] =>
        let v := eval cbv [lastValue endpointObject spread fold_left setKey
                           areaBasedListRest searchKeywordRest rev app
                           assocGet fst snd String.eqb Ascii.eqb Bool.eqb]
                 in (lastValue k0 o) in
        change (lastValue k0 o) with v
    end;
    cbn [stringOfParam]; rewrite ?stringOfParam_optString; reflexivity.
Qed.

Lemma list_endpoints_paging_defaults_witness :
  exists url (k : nat),
    endpointTrace (alwaysItems (ItemArray ["x"])) sampleEnv
                  (CallAreaBasedList sampleListParams) []
    = [] ++ backoffSchedule url k 0
    /\ assocGet "numOfRows" (query url)
       = Some (showZ (withDefault (numOfRows sampleListParams) 10))
    /\ assocGet "pageNo" (query url)
       = Some (showZ (withDefault (pageNo sampleListParams) 1))
    /\ assocGet "areaCode" (query url) = areaCode sampleListParams
    /\ assocGet "contentTypeId" (query url) = contentTypeId sampleListParams.
Proof.
  apply (proj1 (list_endpoints_paging_defaults
                  string (alwaysItems (ItemArray ["x"])) sampleEnv
                  "server-key" [] eq_refl)
               sampleListParams).
Defined.

(** X10. For the three list endpoints an OK response whose [item] is
    absent (undefined or null, as when the provider sends an empty
    [items]) is an error: they throw the [TourApiError] of the normaliser,
    without status code, instead of returning an empty list. *)
Theorem list_endpoints_reject_absent_item
        (Item : Type) (network : nat -> Url -> NetOutcome Item) (env : Env)
        (t t' : Trace) (response : Response Item) (data : ApiResponse Item) :
  ok response = true ->
  body response = JsonOk data ->
  itemsOf (item data) = None ->
  (forall p,
     request network env "/areaCode2" (areaCodeObject p) t
     = (Returned response, t') ->
     getAreaCode network env p t
     = (Thrown (TourApiError itemsMissingMessage None None), t'))
  /\ (forall p,
        request network env "/areaBasedList2"
                (endpointObject (CallAreaBasedList p)) t
        = (Returned response, t') ->
        getAreaBasedList network env p t
        = (Thrown (TourApiError itemsMissingMessage None None), t'))
  /\ (forall p,
        request network env "/searchKeyword2"
                (endpointObject (CallSearchKeyword p)) t
        = (Returned response, t') ->
        searchKeyword network env p t
        = (Thrown (TourApiError itemsMissingMessage None None), t')).
Proof.
  apply list_endpoints_absent_item.
Qed.

Lemma list_endpoints_reject_absent_item_witness :
  getAreaBasedList (alwaysItems ItemUndefined) sampleEnv sampleListParams []
  = (Thrown (TourApiError "Invalid API response: items.item is missing"
                          None None),
     snd (getAreaBasedList (alwaysItems ItemUndefined) sampleEnv
                           sampleListParams [])).
Proof.
  apply (proj1 (proj2 (list_endpoints_reject_absent_item
                         string (alwaysItems ItemUndefined) sampleEnv []
                         (snd (getAreaBasedList (alwaysItems ItemUndefined)
                                                sampleEnv sampleListParams []))
                         (okResponse (envelope ItemUndefined))
                         (envelope ItemUndefined)
                         eq_refl eq_refl eq_refl))
               sampleListParams).
  reflexivity.
Defined.

(** X11. When the body of an OK response does not parse, each of the
    seven clients throws a [TourApiError] without status code whose
    message is the client's "Failed to ..." prefix followed by the parse
    error's message, and which keeps the parse error as original error. *)
Theorem endpoints_wrap_malformed_body
        (Item : Type) (network : nat -> Url -> NetOutcome Item) (env : Env)
        (c : EndpointCall) (t t' : Trace) (response : Response Item)
        (m : string) :
  request network env (endpointPath c) (endpointObject c) t
  = (Returned response, t') ->
  ok response = true ->
  body response = JsonInvalid m ->
  endpointThrown network env c t
  = Some (TourApiError (wrapPrefix c +++ ": " +++ m) None (Some (JsError m))).
Proof.
  apply endpointThrown_invalid_body.
Qed.

Lemma endpoints_wrap_malformed_body_witness :
  endpointThrown (answers (invalidBody 200 "OK" "Unexpected token <"))
                 sampleEnv (CallDetailPetTour samplePetParams) []
  = Some (TourApiError "Failed to get pet tour info: Unexpected token <"
                       None (Some (JsError "Unexpected token <"))).
Proof.
  eapply (endpoints_wrap_malformed_body
           string (answers (invalidBody 200 "OK" "Unexpected token <"))
           sampleEnv (CallDetailPetTour samplePetParams) [] _
           (invalidBody 200 "OK" "Unexpected token <")
           "Unexpected token <");
    reflexivity.
Defined.

(** X12. A response that [fetchWithRetry] hands back but that is not OK
    (its status is below 400 and outside 200..299) makes each client
    throw a [TourApiError] carrying that status and the status text; for
    the two optional endpoints this holds unless the message so formed
    contains the phrase their catch block looks for. *)
Theorem endpoints_reject_non_ok_response
        (Item : Type) (network : nat -> Url -> NetOutcome Item) (env : Env)
        (c : EndpointCall) (t t' : Trace) (response : Response Item) :
  request network env (endpointPath c) (endpointObject c) t
  = (Returned response, t') ->
  ok response = false ->
  (inspectsMessage c = true ->
   includes "items.item is missing" (fetchPrefix c +++ statusText response)
   = false) ->
  endpointThrown network env c t
  = Some (TourApiError (fetchPrefix c +++ statusText response)
                       (Some (status response)) None).
Proof.
  apply endpointThrown_not_ok.
Qed.

Lemma endpoints_reject_non_ok_response_witness :
  endpointThrown (answers (statusOnly 304 "Not Modified")) sampleEnv
                 (CallDetailImage sampleImageParams) []
  = Some (TourApiError "Failed to fetch detail image: Not Modified"
                       (Some 304) None).
Proof.
  eapply (endpoints_reject_non_ok_response
           string (answers (statusOnly 304 "Not Modified")) sampleEnv
           (CallDetailImage sampleImageParams) [] _
           (statusOnly 304 "Not Modified"));
    reflexivity.
Defined.

(** X13. A value returned by [getDetailCommon] or [getDetailIntro] is
    always the first item of the body of an OK response to the call's
    request: no value is made up, and none comes from a failed request. *)
Theorem required_endpoints_sound
        (Item : Type) (network : nat -> Url -> NetOutcome Item) (env : Env)
        (t t' : Trace) (x : Item) :
  (forall p,
     getDetailCommon network env p t = (Returned x, t') ->
     exists response data rest,
       request network env "/detailCommon2" (detailCommonObject p) t
       = (Returned response, t')
       /\ ok response = true
       /\ body response = JsonOk data
       /\ itemsOf (item data) = Some (x :: rest))
  /\ (forall p,
        getDetailIntro network env p t = (Returned x, t') ->
        exists response data rest,
          request network env "/detailIntro2" (detailIntroObject p) t
          = (Returned response, t')
          /\ ok response = true
          /\ body response = JsonOk data
          /\ itemsOf (item data) = Some (x :: rest)).
Proof.
  split; intros p.
  - apply getDetailCommon_sound.
  - apply getDetailIntro_sound.
Qed.

Lemma required_endpoints_sound_witness :
  exists response data rest,
    request (alwaysItems (ItemObject "only")) sampleEnv
            "/detailCommon2" (detailCommonObject sampleCommonParams) []
    = (Returned response,
       [EvFetch {| path := BASE_URL +++ "/detailCommon2";
                   query := [("serviceKey", "server-key"); ("MobileOS", "ETC");
                             ("MobileApp", "MyTrip"); ("_type", "json");
                             ("contentId", "125266")] |}])
    /\ ok response = true
    /\ body response = JsonOk data
    /\ itemsOf (item data) = Some ("only" :: rest).
Proof.
  apply (proj1 (required_endpoints_sound
                  string (alwaysItems (ItemObject "only")) sampleEnv [] _
                  "only")
               sampleCommonParams).
  reflexivity.
Defined.

(** X14. A list returned by [getAreaBasedList] or [searchKeyword] holds
    exactly the items of the body of an OK response (a bare object as a
    one-element list); its [totalCount] is the body's when that is
    present and not zero and the number of items otherwise, so a total of
    zero is only reported for an empty list; [getAreaBasedList] always
    fills in [pageNo] and [numOfRows], from the body or else from the
    request, and [searchKeyword] never does. *)
Theorem list_results_sound
        (Item : Type) (network : nat -> Url -> NetOutcome Item) (env : Env)
        (t t' : Trace) (r : ListResponse Item) :
  (forall p,
     getAreaBasedList network env p t = (Returned r, t') ->
     exists response data,
       request network env "/areaBasedList2"
               (endpointObject (CallAreaBasedList p)) t
       = (Returned response, t')
       /\ ok response = true
       /\ body response = JsonOk data
       /\ itemsOf (item data) = Some (items r)
       /\ totalCount r
          = orElse (body_totalCount data) (Z.of_nat (List.length (items r)))
       /\ (totalCount r = 0 -> items r = [])
       /\ lr_pageNo r
          = Some (orElse (body_pageNo data) (withDefault (pageNo p) 1))
       /\ lr_numOfRows r
          = Some (orElse (body_numOfRows data)
                         (withDefault (numOfRows p) 10)))
  /\ (forall p,
        searchKeyword network env p t = (Returned r, t') ->
        exists response data,
          request network env "/searchKeyword2"
                  (endpointObject (CallSearchKeyword p)) t
          = (Returned response, t')
          /\ ok response = true
          /\ body response = JsonOk data
          /\ itemsOf (item data) = Some (items r)
          /\ totalCount r
             = orElse (body_totalCount data)
                      (Z.of_nat (List.length (items r)))
          /\ (totalCount r = 0 -> items r = [])
          /\ lr_pageNo r = None
          /\ lr_numOfRows r = None).
Proof.
  assert (Hzero : forall data : ApiResponse Item,
            totalCount r
            = orElse (body_totalCount data) (Z.of_nat (List.length (items r))) ->
            totalCount r = 0 -> items r = []).
  { intros data Htotal Hz. rewrite Hz in Htotal. symmetry in Htotal.
    apply orElse_zero in Htotal.
    destruct (items r); [reflexivity | discriminate]. }
  split; intros p Hrun.
  - destruct (getAreaBasedList_sound Item network env p t t' r Hrun)
      as [response [data [H1 [H2 [H3 [H4 [H5 [H6 H7]]]]]]]].
    exists response, data. repeat split; auto. now apply (Hzero data).
  - destruct (searchKeyword_sound Item network env p t t' r Hrun)
      as [response [data [H1 [H2 [H3 [H4 [H5 [H6 H7]]]]]]]].
    exists response, data. repeat split; auto. now apply (Hzero data).
Qed.

Lemma list_results_sound_witness :
  exists response data,
    request (answers (okResponse (pagedEnvelope (ItemObject "only")
                                                (Some 0) None (Some 20))))
            sampleEnv "/areaBasedList2"
            (endpointObject (CallAreaBasedList sampleListParams)) []
    = (Returned response,
       [EvFetch {| path := BASE_URL +++ "/areaBasedList2";
                   query := [("serviceKey", "server-key"); ("MobileOS", "ETC");
                             ("MobileApp", "MyTrip"); ("_type", "json");
                             ("numOfRows", "10"); ("pageNo", "1");
                             ("areaCode", "1"); ("contentTypeId", "12")] |}])
    /\ ok response = true
    /\ body response = JsonOk data
    /\ itemsOf (item data) = Some ["only"]
    /\ 1 = orElse (body_totalCount data) (Z.of_nat (List.length ["only"]))
    /\ (1 = 0 -> ["only"] = [])
    /\ Some 1 = Some (orElse (body_pageNo data)
                             (withDefault (pageNo sampleListParams) 1))
    /\ Some 20 = Some (orElse (body_numOfRows data)
                              (withDefault (numOfRows sampleListParams) 10)).
Proof.
  apply (proj1 (list_results_sound
                  string
                  (answers (okResponse (pagedEnvelope (ItemObject "only")
                                                      (Some 0) None (Some 20))))
                  sampleEnv [] _
                  {| items := ["only"]; totalCount := 1;
                     lr_pageNo := Some 1; lr_numOfRows := Some 20 |})
               sampleListParams).
  reflexivity.
Defined.

(** X15. The two optional endpoints never throw on an OK response whose
    body parses: [getDetailImage] returns the images in the provider's
    order, or the empty list when [item] is absent; [getDetailPetTour]
    returns the first item, or null when [item] is absent or an empty
    array.  [getDetailPetTour] also returns null, after the one request,
    when the provider answers 404. *)
Theorem optional_endpoints_soft_results
        (Item : Type) (network : nat -> Url -> NetOutcome Item) (env : Env)
        (t : Trace) :
  (forall p t' response data,
     request network env "/detailImage2" (detailImageObject p) t
     = (Returned response, t') ->
     ok response = true ->
     body response = JsonOk data ->
     getDetailImage network env p t
     = (Returned match itemsOf (item data) with
                 | Some images => images
                 | None => []
                 end,
        t'))
  /\ (forall p t' response data,
        request network env "/detailPetTour2" (detailPetTourObject p) t
        = (Returned response, t') ->
        ok response = true ->
        body response = JsonOk data ->
        getDetailPetTour network env p t
        = (Returned match itemsOf (item data) with
                    | Some (x :: _) => Some x
                    | _ => None
                    end,
           t'))
  /\ (forall p url r,
        buildUrl env "/detailPetTour2" (detailPetTourObject p)
        = Returned url ->
        network (attempts t) url = NetResponse r ->
        status r = 404 ->
        getDetailPetTour network env p t
        = (Returned None, t ++ [EvFetch url])).
Proof.
  split; [| split].
  - intros p t' response data. apply getDetailImage_ok_body.
  - intros p t' response data. apply getDetailPetTour_ok_body.
  - intros p url r. apply getDetailPetTour_upstream_404.
Qed.

Lemma optional_endpoints_soft_results_witness :
  (exists t',
     getDetailImage (alwaysItems (ItemArray ["a"; "b"])) sampleEnv
                    sampleImageParams []
     = (Returned ["a"; "b"], t'))
  /\ (exists t',
        getDetailPetTour (alwaysItems (ItemArray [])) sampleEnv
                         samplePetParams []
        = (Returned None, t'))
  /\ (exists url,
        getDetailPetTour (alwaysStatus 404 "Not Found") sampleEnv
                         samplePetParams []
        = (Returned None, [] ++ [EvFetch url])).
Proof.
  pose proof (optional_endpoints_soft_results string) as H.
  split; [| split]; eexists.
  - apply (proj1 (H (alwaysItems (ItemArray ["a"; "b"])) sampleEnv [])
                 sampleImageParams _
                 (okResponse (envelope (ItemArray ["a"; "b"])))
                 (envelope (ItemArray ["a"; "b"])));
      reflexivity.
  - apply (proj1 (proj2 (H (alwaysItems (ItemArray [])) sampleEnv []))
                 samplePetParams _
                 (okResponse (envelope (ItemArray [])))
                 (envelope (ItemArray [])));
      reflexivity.
  - apply (proj2 (proj2 (H (alwaysStatus 404 "Not Found") sampleEnv []))
                 samplePetParams _ (statusOnly 404 "Not Found"));
      reflexivity.
Defined.

(* ================================================================== *)
(** * Further facts: statistics *)

Section SubsequenceFacts.

Variables A B : Type.

Lemma Subsequence_In (s l : list A) x :
  Subsequence s l -> In x s -> In x l.
Proof.
  induction 1 as [| y l s _ IH | y l s _ IH]; simpl; intuition.
Qed.

Lemma Subsequence_length (s l : list A) :
  Subsequence s l -> (List.length s <= List.length l)%nat.
Proof.
  induction 1; simpl; lia.
Qed.

Lemma Subsequence_NoDup (s l : list A) :
  Subsequence s l -> NoDup l -> NoDup s.
Proof.
  induction 1 as [| y l s Hsub IH | y l s Hsub IH]; intros Hnd.
  - constructor.
  - inversion Hnd; auto.
  - inversion Hnd as [| ? ? Hnotin Hrest]; subst.
    constructor; [| auto].
    intros Hin. apply Hnotin. now apply (Subsequence_In s l).
Qed.

Lemma Subsequence_map (f : A -> B) (s l : list A) :
  Subsequence s l -> Subsequence (map f s) (map f l).
Proof.
  induction 1; simpl;
    [apply sub_nil | apply sub_skip | apply sub_keep]; assumption.
Qed.

(** The successes of a fan-out, in the order of the fan-out. *)
Lemma nonNull_mapiFrom_Subsequence
      (f : nat -> A -> option B) (g : A -> B -> Prop) (l : list A) :
  (forall i a b, f i a = Some b -> g a b) ->
  forall i,
    exists kept : list A,
      Subsequence kept l
      /\ Forall2 g kept (nonNull (mapiFrom i f l)).
Proof.
  intros Hg. induction l as [| a l IH]; intros i; simpl.
  - exists []. split; [apply sub_nil | constructor].
  - destruct (IH (S i)) as [kept [Hsub Hall]].
    destruct (f i a) as [b |] eqn:Hf.
    + exists (a :: kept). split; [now apply sub_keep |].
      constructor; [now apply (Hg i) | exact Hall].
    + exists kept. split; [now apply sub_skip | exact Hall].
Qed.

End SubsequenceFacts.

Lemma Forall2_map_eq {A B C} (f : A -> C) (g : B -> C) (l : list A)
      (l' : list B) :
  Forall2 (fun a b => f a = g b) l l' -> map f l = map g l'.
Proof.
  induction 1; simpl; congruence.
Qed.

(** X16. The regions [getRegionStats] returns are regions of the list of
    [getAreaCode], in that list's order, each with its own name and with
    none put in twice: their (code, name) pairs form a subsequence of the
    list's.  The result is never empty, and its codes are distinct when
    those of the list are. *)
Theorem getRegionStats_keeps_order
        (call : ListCalls) (areaCodes : list AreaCode)
        (stats : list RegionStats) :
  getRegionStats (Returned areaCodes) call = Returned stats ->
  Subsequence (map (fun s => (rs_code s, rs_name s)) stats)
              (map (fun a => (code a, name a)) areaCodes)
  /\ stats <> []
  /\ (List.length stats <= List.length areaCodes)%nat
  /\ (NoDup (map code areaCodes) -> NoDup (map rs_code stats)).
Proof.
  rewrite getRegionStats_unfold. cbv zeta.
  destruct (Nat.eqb_spec
              (List.length (nonNull (mapi (regionBranch call) areaCodes))) 0)
    as [Hz | Hnz]; [discriminate |].
  intros H. injection H as <-.
  destruct (nonNull_mapiFrom_Subsequence AreaCode RegionStats
              (regionBranch call)
              (fun a s => (code a, name a) = (rs_code s, rs_name s))
              areaCodes) with (i := O) as [kept [Hsub Hall]].
  { intros i a b Hb. rewrite regionBranch_query in Hb.
    destruct (call RegionFanOut i (regionQuery a)); [| discriminate].
    injection Hb as <-. reflexivity. }
  fold (mapi (regionBranch call) areaCodes) in Hall.
  set (valid := nonNull (mapi (regionBranch call) areaCodes)) in *.
  assert (Hpairs : Subsequence (map (fun s => (rs_code s, rs_name s)) valid)
                               (map (fun a => (code a, name a)) areaCodes)).
  { rewrite <- (Forall2_map_eq _ _ _ _ Hall).
    now apply Subsequence_map. }
  split; [exact Hpairs |].
  split; [intros Hnil; rewrite Hnil in Hnz; now apply Hnz |].
  split.
  - apply Subsequence_length in Hpairs. now rewrite !length_map in Hpairs.
  - intros Hnd.
    apply (Subsequence_map _ _ fst) in Hpairs.
    rewrite !map_map in Hpairs. simpl in Hpairs.
    now apply (Subsequence_NoDup _ _ _ Hpairs).
Qed.

Lemma getRegionStats_keeps_order_witness :
  Subsequence [("1", "서울"); ("39", "제주도")]
              (map (fun a => (code a, name a)) sampleAreas)
  /\ [ {| rs_code := "1"; rs_name := "서울"; rs_count := 100 |};
       {| rs_code := "39"; rs_name := "제주도"; rs_count := 50 |} ] <> []
  /\ (2 <= List.length sampleAreas)%nat
  /\ (NoDup (map code sampleAreas) -> NoDup ["1"; "39"]).
Proof.
  apply (getRegionStats_keeps_order
           oneAreaDown sampleAreas
           [ {| rs_code := "1"; rs_name := "서울"; rs_count := 100 |};
             {| rs_code := "39"; rs_name := "제주도"; rs_count := 50 |} ]).
  vm_compute. reflexivity.
Defined.

Lemma getTypeStats_returns_iff (call : ListCalls) :
  (exists stats, getTypeStats call = Returned stats)
  <-> successfulTypeCounts call <> [].
Proof.
  rewrite getTypeStats_unfold. cbv zeta.
  rewrite <- (typeBranch_counts call).
  destruct (nonNull (mapi (typeBranch call) getAllContentTypes))
    as [| s valid]; simpl.
  - split; [intros [stats H]; discriminate | intros H; now elim H].
  - split; [intros _; discriminate | intros _; eexists; reflexivity].
Qed.

Lemma getRegionStats_returns_iff (call : ListCalls) (areas : list AreaCode) :
  (exists stats, getRegionStats (Returned areas) call = Returned stats)
  <-> (failedRegionQueries call areas < List.length areas)%nat.
Proof.
  pose proof (region_successes_failures call areas O) as Hpart.
  fold (mapi (regionBranch call) areas) in Hpart.
  fold (failedRegionQueries call areas) in Hpart.
  rewrite getRegionStats_unfold. cbv zeta.
  destruct (Nat.eqb_spec
              (List.length (nonNull (mapi (regionBranch call) areas))) 0)
    as [Hz | Hnz].
  - split; [intros [stats H]; discriminate | lia].
  - split; [intros _; lia | intros _; eexists; reflexivity].
Qed.

Lemma getTypeStats_returned_shape (call : ListCalls) :
  forall stats,
    getTypeStats call = Returned stats ->
    Subsequence (map (fun s => (ts_contentTypeId s, typeName s)) stats)
                (map (fun c => (ct_id c, ct_name c)) getAllContentTypes)
    /\ (1 <= List.length stats <= 8)%nat
    /\ NoDup (map ts_contentTypeId stats)
    /\ Forall (fun s => percentage s <> None) stats.
Proof.
  rewrite getTypeStats_unfold. cbv zeta.
  destruct (nonNull_mapiFrom_Subsequence ContentType TypeStats
              (typeBranch call)
              (fun c s => (ct_id c, ct_name c)
                          = (ts_contentTypeId s, typeName s))
              getAllContentTypes) with (i := O) as [kept [Hsub Hall]].
  { intros i c s Hs. unfold typeBranch in Hs.
    destruct (call TypeFanOut i _); [| discriminate].
    injection Hs as <-. reflexivity. }
  fold (mapi (typeBranch call) getAllContentTypes) in Hall.
  remember (nonNull (mapi (typeBranch call) getAllContentTypes)) as valid
    eqn:Hv.
  clear Hv.
  destruct (Nat.eqb_spec (List.length valid) 0) as [Hz | Hnz];
    intros stats H; [discriminate |].
  injection H as <-.
  assert (Hpairs :
            Subsequence
              (map (fun s => (ts_contentTypeId s, typeName s)) valid)
              (map (fun c => (ct_id c, ct_name c)) getAllContentTypes)).
  { rewrite <- (Forall2_map_eq _ _ _ _ Hall). now apply Subsequence_map. }
  rewrite !map_map. cbn [ts_contentTypeId typeName percentage].
  split; [exact Hpairs |].
  split.
  + rewrite length_map. apply Subsequence_length in Hpairs.
    rewrite !length_map in Hpairs.
    change (List.length getAllContentTypes) with 8%nat in Hpairs. lia.
  + split.
    * apply (Subsequence_map _ _ fst) in Hpairs.
      rewrite !map_map in Hpairs. cbn [fst] in Hpairs.
      apply (Subsequence_NoDup _ _ _ Hpairs).
      simpl. repeat (constructor; [simpl; intuition discriminate |]).
      constructor.
    * apply Forall_forall. intros s Hin.
      apply in_map_iff in Hin. destruct Hin as [r [<- _]]. discriminate.
Qed.

(** X17. [getTypeStats] throws exactly when all eight type queries fail,
    and then the error is its own "all content type queries failed"
    [TourApiError].  What it returns lists content types of the fixed
    enumeration in the enumeration's order, each at most once and under
    its own name (between one and eight entries), and every entry has a
    percentage. *)
Theorem getTypeStats_structure (call : ListCalls) :
  ((exists e, getTypeStats call = Thrown e) <-> successfulTypeCounts call = [])
  /\ (forall e,
        getTypeStats call = Thrown e ->
        e = TourApiError
              "Failed to get type stats: All content type queries failed"
              None None)
  /\ (forall stats,
        getTypeStats call = Returned stats ->
        Subsequence (map (fun s => (ts_contentTypeId s, typeName s)) stats)
                    (map (fun c => (ct_id c, ct_name c)) getAllContentTypes)
        /\ (1 <= List.length stats <= 8)%nat
        /\ NoDup (map ts_contentTypeId stats)
        /\ Forall (fun s => percentage s <> None) stats).
Proof.
  pose proof (getTypeStats_returns_iff call) as Hiff.
  split; [| split].
  - split.
    + intros [e He].
      destruct (successfulTypeCounts call) as [| c l] eqn:Hc; [reflexivity |].
      destruct (proj2 Hiff) as [stats Hs]; [discriminate | congruence].
    + intros Hnil.
      destruct (getTypeStats call) as [stats | e] eqn:Hrun; [| eauto].
      exfalso. apply (proj1 Hiff); eauto.
  - rewrite getTypeStats_unfold. cbv zeta.
    destruct (Nat.eqb _ 0); intros e H; [| discriminate].
    now injection H as <-.
  - apply getTypeStats_returned_shape.
Qed.

Lemma getTypeStats_structure_witness :
  (exists e, getTypeStats allDown = Thrown e)
  /\ Subsequence [("12", "관광지"); ("14", "문화시설"); ("15", "축제/행사")]
                 (map (fun c => (ct_id c, ct_name c)) getAllContentTypes).
Proof.
  split.
  - apply (proj2 (proj1 (getTypeStats_structure allDown))).
    reflexivity.
  - apply (proj1 (proj2 (proj2 (getTypeStats_structure (threeTypes 10 0 30)))
                        tiedTypeStats eq_refl)).
Defined.



Section TopFacts.

Variable A : Type.
Variable count : A -> Z.

Lemma StronglySorted_app_inv (R : A -> A -> Prop) (l1 l2 : list A) :
  StronglySorted R (l1 ++ l2) ->
  StronglySorted R l1
  /\ StronglySorted R l2
  /\ forall a b, In a l1 -> In b l2 -> R a b.
Proof.
  induction l1 as [| x l1 IH]; simpl; intros Hs.
  - repeat split; [constructor | exact Hs | intros a b []].
  - inversion Hs as [| ? ? Hrest Hall]; subst.
    destruct (IH Hrest) as [H1 [H2 H3]].
    split; [| split; [exact H2 |]].
    + constructor; [exact H1 |].
      apply Forall_forall. intros y Hy.
      apply (proj1 (Forall_forall _ _) Hall). apply in_or_app. now left.
    + intros a b [<- | Ha] Hb.
      * apply (proj1 (Forall_forall _ _) Hall). apply in_or_app. now right.
      * now apply H3.
Qed.

(** The first [n] of the sorted list are a top [n] of the list. *)
Lemma sort_firstn_TopOf (n : nat) (l : list A) :
  TopOf count n l (firstn n (sort (byCountDesc count) l)).
Proof.
  destruct (sort_stable_descending A count l) as [Hperm [Hsorted _]].
  set (s := sort (byCountDesc count) l) in *.
  rewrite <- (firstn_skipn n s) in Hsorted.
  destruct (StronglySorted_app_inv _ _ _ Hsorted) as [Htop [_ Hcross]].
  split; [| split; [exact Htop |]].
  - rewrite length_firstn. now rewrite (Permutation_length Hperm).
  - exists (skipn n s). split; [| exact Hcross].
    now rewrite firstn_skipn.
Qed.

End TopFacts.

(** X19. The top regions and the top types of a summary are a top three
    of the respective statistics: three entries, or all if there are
    fewer, in descending order of count, and no entry left out has a
    count above that of an entry taken. *)
Theorem getStatsSummary_top3_maximal
        (areaCall : Outcome (list AreaCode)) (call : ListCalls) (now : string)
        (regionStats : list RegionStats) (typeStats : list TypeStats)
        (summary : StatsSummary) :
  getRegionStats areaCall call = Returned regionStats ->
  getTypeStats call = Returned typeStats ->
  getStatsSummary areaCall call now = Returned summary ->
  TopOf rs_count 3 regionStats (topRegions summary)
  /\ TopOf ts_count 3 typeStats (topTypes summary).
Proof.
  intros Hregions Htypes.
  unfold getStatsSummary, catching, andThen.
  rewrite Hregions, Htypes. cbv zeta.
  intros H. injection H as <-. cbn [topRegions topTypes].
  split.
  - apply (sort_firstn_TopOf RegionStats rs_count 3 regionStats).
  - apply (sort_firstn_TopOf TypeStats ts_count 3 typeStats).
Qed.

Lemma getStatsSummary_top3_maximal_witness :
  TopOf rs_count 3 tiedRegionStats
        [ {| rs_code := "B"; rs_name := "b"; rs_count := 7 |};
          {| rs_code := "D"; rs_name := "d"; rs_count := 7 |};
          {| rs_code := "A"; rs_name := "a"; rs_count := 5 |} ]
  /\ TopOf ts_count 3 tiedTypeStats
           [ {| ts_contentTypeId := "15"; typeName := "축제/행사";
                ts_count := 30; percentage := Some 75%float |};
             {| ts_contentTypeId := "12"; typeName := "관광지";
                ts_count := 10; percentage := Some 25%float |};
             {| ts_contentTypeId := "14"; typeName := "문화시설";
                ts_count := 0; percentage := Some 0%float |} ].
Proof.
  apply (getStatsSummary_top3_maximal
           (Returned tiedAreas) tiedCalls "2026-01-01T00:00:00.000Z"
           tiedRegionStats tiedTypeStats
           {| sum_totalCount := 40;
              topRegions :=
                [ {| rs_code := "B"; rs_name := "b"; rs_count := 7 |};
                  {| rs_code := "D"; rs_name := "d"; rs_count := 7 |};
                  {| rs_code := "A"; rs_name := "a"; rs_count := 5 |} ];
              topTypes :=
                [ {| ts_contentTypeId := "15"; typeName := "축제/행사";
                     ts_count := 30; percentage := Some 75%float |};
                  {| ts_contentTypeId := "12"; typeName := "관광지";
                     ts_count := 10; percentage := Some 25%float |};
                  {| ts_contentTypeId := "14"; typeName := "문화시설";
                     ts_count := 0; percentage := Some 0%float |} ];
              lastUpdated := "2026-01-01T00:00:00.000Z" |});
    vm_compute; reflexivity.
Defined.

(** X20. [RegionChart] never throws: it shows the error box exactly when
    [getRegionStats] fails, and otherwise a chart of between one and ten
    rows, which are a top ten of the region statistics (descending by
    count, ties in the order of the statistics), each row carrying the
    name, count and code of its region. *)
Theorem RegionChart_top10
        (areaCall : Outcome (list AreaCode)) (call : ListCalls) :
  match RegionChart areaCall call with
  | RegionChartError => exists e, getRegionStats areaCall call = Thrown e
  | RegionChartClient data =>
      exists regionStats top,
        getRegionStats areaCall call = Returned regionStats
        /\ TopOf rs_count 10 regionStats top
        /\ top = firstn 10 (sort (byCountDesc rs_count) regionStats)
        /\ StableDescending rs_count regionStats
                            (sort (byCountDesc rs_count) regionStats)
        /\ map chart_code data = map rs_code top
        /\ map chart_name data = map rs_name top
        /\ map chart_value data = map rs_count top
        /\ (1 <= List.length data <= 10)%nat
  end.
Proof.
  unfold RegionChart.
  destruct (getRegionStats areaCall call) as [regionStats | e] eqn:Hrun;
    [| eauto].
  exists regionStats, (firstn 10 (sort (byCountDesc rs_count) regionStats)).
  pose proof (sort_firstn_TopOf RegionStats rs_count 10 regionStats)
    as Htop.
  split; [reflexivity |]. split; [exact Htop |]. split; [reflexivity |].
  split; [apply sort_stable_descending |].
  unfold regionChartData.
  fold (byCountDesc rs_count).
  rewrite !map_map. cbn [chart_code chart_name chart_value].
  repeat split.
  - rewrite length_map. destruct Htop as [Hlen _]. rewrite Hlen.
    assert (Hne : regionStats <> []).
    { unfold getRegionStats, catching, andThen in Hrun.
      destruct areaCall as [areas | e];
        [| unfold rethrowWrappedPure in Hrun;
           destruct (isTourApiError e); discriminate].
      cbv zeta in Hrun.
      destruct (Nat.eqb_spec
                  (List.length (nonNull (mapi (regionBranch call) areas))) 0)
        as [Hz | Hnz]; [discriminate |].
      injection Hrun as <-. intros Hnil. rewrite Hnil in Hnz. now apply Hnz. }
    destruct regionStats; [now elim Hne | simpl; lia].
  - rewrite length_map. apply firstn_le_length.
Qed.

(* ================================================================== *)
(** * Further facts: names of content types *)

Lemma CONTENT_TYPES_values : map snd CONTENT_TYPES = getAllContentTypes.
Proof. reflexivity. Qed.

Lemma getContentTypeName_own (c : ContentType) :
  In c getAllContentTypes ->
  getContentTypeName (ct_id c) = ct_name c
  /\ getContentTypeId (ct_name c) = Some (ct_id c).
Proof.
  intros Hin. simpl in Hin.
  repeat (destruct Hin as [<- | Hin]; [split; reflexivity |]).
  destruct Hin.
Qed.

Lemma getContentTypeId_In name_ id :
  getContentTypeId name_ = Some id ->
  exists c, In c getAllContentTypes /\ ct_id c = id /\ ct_name c = name_.
Proof.
  unfold getContentTypeId. rewrite CONTENT_TYPES_values.
  destruct (find _ getAllContentTypes) as [c |] eqn:Hfind; [| discriminate].
  intros H. injection H as <-.
  apply find_some in Hfind. destruct Hfind as [Hin Heq].
  exists c. split; [exact Hin |]. split; [reflexivity |].
  now apply String.eqb_eq.
Qed.

Lemma assocGet_CONTENT_TYPES_None id :
  ~ In id (map ct_id getAllContentTypes) -> assocGet id CONTENT_TYPES = None.
Proof.
  intros Hnot. apply assocGet_None_keys. exact Hnot.
Qed.

(** X21. The two lookups of the content-type table are inverse to each
    other on the eight content types: the name of a type's id is its
    name, the id of its name is its id, and an id found for a name has
    that name.  An id that is neither one of the eight nor the name of a
    member inherited from [Object.prototype] is named "알 수 없음"; such
    an inherited member is not: "constructor" is named "Object".  The
    type names in the statistics of [getTypeStats] are those of this
    table. *)
Theorem content_type_names_round_trip :
  (forall c, In c getAllContentTypes ->
             getContentTypeName (ct_id c) = ct_name c
             /\ getContentTypeId (ct_name c) = Some (ct_id c))
  /\ (forall name_ id,
        getContentTypeId name_ = Some id -> getContentTypeName id = name_)
  /\ (forall id,
        ~ In id (map ct_id getAllContentTypes) ->
        id <> "constructor" ->
        ~ In id inheritedFunctions ->
        getContentTypeName id = unknownTypeName)
  /\ getContentTypeName "constructor" = "Object"
  /\ (forall call stats s,
        getTypeStats call = Returned stats ->
        In s stats ->
        typeName s = getContentTypeName (ts_contentTypeId s)).
Proof.
  split; [exact getContentTypeName_own |].
  split.
  { intros name_ id H.
    destruct (getContentTypeId_In name_ id H) as [c [Hin [<- <-]]].
    now apply getContentTypeName_own. }
  split.
  { intros id Hnot Hctor Hinh. unfold getContentTypeName.
    rewrite (assocGet_CONTENT_TYPES_None id Hnot). unfold inheritedName.
    destruct (String.eqb_spec id "constructor") as [-> | _];
      [now elim Hctor |].
    destruct (existsb (String.eqb id) inheritedFunctions) eqn:Hex;
      [| reflexivity].
    exfalso. apply Hinh.
    apply existsb_exists in Hex. destruct Hex as [x [Hx Heq]].
    apply String.eqb_eq in Heq. now subst. }
  split; [reflexivity |].
  intros call stats s Hrun Hin.
  destruct (getTypeStats_returned_shape call stats Hrun) as [Hsub _].
  assert (Hpair : In (ts_contentTypeId s, typeName s)
                     (map (fun c => (ct_id c, ct_name c)) getAllContentTypes)).
  { apply (Subsequence_In _ _ _ _ Hsub).
    apply in_map_iff. exists s. auto. }
  apply in_map_iff in Hpair. destruct Hpair as [c [Hc Hin']].
  injection Hc as <- <-.
  symmetry. now apply getContentTypeName_own.
Qed.

Lemma content_type_names_round_trip_witness :
  getContentTypeName "39" = "음식점"
  /\ getContentTypeId "음식점" = Some "39"
  /\ getContentTypeName "99" = unknownTypeName.
Proof.
  destruct content_type_names_round_trip as [H1 [H2 [H3 _]]].
  split; [| split].
  - apply (H2 "음식점" "39"). reflexivity.
  - apply (proj2 (H1 {| ct_id := "39"; ct_name := "음식점" |}
                     ltac:(simpl; tauto))).
  - apply (H3 "99");
      [simpl; intuition discriminate | discriminate
      | simpl; intuition discriminate].
Defined.

(* ================================================================== *)
(** * Further facts: the detail page *)

Lemma dropTrailingSlash_snoc (s : string) : dropTrailingSlash (s +++ "/") = s.
Proof.
  induction s as [| c rest IH]; [reflexivity |].
  change ((String c rest) +++ "/") with (String c (rest +++ "/")).
  cbn [dropTrailingSlash]. rewrite IH.
  destruct rest; reflexivity.
Qed.

Lemma dropTrailingSlash_other (s : string) :
  (forall s', s <> s' +++ "/") -> dropTrailingSlash s = s.
Proof.
  induction s as [| c rest IH]; intros Hno; [reflexivity |].
  cbn [dropTrailingSlash]. destruct rest as [| c' rest'].
  - destruct (Ascii.eqb_spec c "/") as [-> | _]; [| reflexivity].
    exfalso. apply (Hno ""). reflexivity.
  - rewrite IH; [reflexivity |].
    intros s' Heq. apply (Hno (String c s')). simpl. now rewrite Heq.
Qed.

Lemma shareUrl_concat site contentId :
  shareUrl site contentId = siteOrigin site +++ "/places/" +++ contentId.
Proof.
  unfold shareUrl. cbv zeta. unfold truthy.
  destruct (String.eqb_spec (siteOrigin site) "") as [-> | _]; reflexivity.
Qed.

(** X22. The share URL of a place is always the site origin followed by
    "/places/" and the content id: a site URL written with one trailing
    slash and the same URL written without it give the same share URL,
    and without a site URL the share URL is the relative path. *)
Theorem shareUrl_normalised :
  (forall site contentId,
     shareUrl site contentId = siteOrigin site +++ "/places/" +++ contentId)
  /\ (forall s contentId,
        shareUrl (Some (s +++ "/")) contentId = s +++ "/places/" +++ contentId)
  /\ (forall s contentId,
        (forall s', s <> s' +++ "/") ->
        shareUrl (Some s) contentId = s +++ "/places/" +++ contentId)
  /\ (forall contentId, shareUrl None contentId = "/places/" +++ contentId).
Proof.
  split; [exact shareUrl_concat |].
  split; [| split].
  - intros s contentId. rewrite shareUrl_concat. simpl siteOrigin.
    now rewrite dropTrailingSlash_snoc.
  - intros s contentId Hno. rewrite shareUrl_concat. simpl siteOrigin.
    now rewrite dropTrailingSlash_other.
  - intros contentId. reflexivity.
Qed.

Lemma endsWithSlash_snoc (s : string) : endsWithSlash (s +++ "/") = true.
Proof.
  induction s as [| c rest IH]; [reflexivity |].
  change ((String c rest) +++ "/") with (String c (rest +++ "/")).
  cbn [endsWithSlash]. rewrite IH. destruct rest; reflexivity.
Qed.

Lemma shareUrl_normalised_witness :
  shareUrl (Some "https://mytrip.example") "125266"
  = "https://mytrip.example/places/125266".
Proof.
  apply (proj1 (proj2 (proj2 shareUrl_normalised))
               "https://mytrip.example" "125266").
  intros s' H.
  apply (f_equal endsWithSlash) in H.
  rewrite endsWithSlash_snoc in H.
  vm_compute in H. discriminate.
Defined.

Section DescriptionFacts.

Variable CodeUnit : Type.
Variable isLt : CodeUnit -> bool.
Variable isGt : CodeUnit -> bool.

Lemma stripFrom_In b (s : list CodeUnit) x :
  In x (stripFrom isLt isGt b s) -> In x s.
Proof.
  revert b; induction s as [| c rest IH]; intros b; simpl; [tauto |].
  destruct b.
  - destruct (isGt c); intros H; right; eapply IH; exact H.
  - destruct (isLt c && existsb isGt rest).
    + intros H; right; eapply IH; exact H.
    + intros [<- | H]; [now left | right; eapply IH; exact H].
Qed.

Lemma stripFrom_no_gt b (s : list CodeUnit) :
  existsb isGt s = false -> existsb isGt (stripFrom isLt isGt b s) = false.
Proof.
  intros Hno.
  destruct (existsb isGt (stripFrom isLt isGt b s)) eqn:Hex; [| reflexivity].
  apply existsb_exists in Hex. destruct Hex as [x [Hin Hx]].
  apply stripFrom_In in Hin.
  assert (existsb isGt s = true) by (apply existsb_exists; eauto).
  congruence.
Qed.

Lemma NoCompleteTag_cons c (s : list CodeUnit) :
  NoCompleteTag isLt isGt s ->
  (isLt c = true -> existsb isGt s = false) ->
  NoCompleteTag isLt isGt (c :: s).
Proof.
  intros Hs Hc [| b before] c0 after Heq Hlt.
  - injection Heq as <- <-. now apply Hc.
  - injection Heq as _ Heq. now apply (Hs before c0 after).
Qed.

Lemma NoCompleteTag_tail c (s : list CodeUnit) :
  NoCompleteTag isLt isGt (c :: s) -> NoCompleteTag isLt isGt s.
Proof.
  intros H before c0 after Heq Hlt.
  apply (H (c :: before) c0 after); [now rewrite Heq | exact Hlt].
Qed.

Lemma stripFrom_NoCompleteTag (s : list CodeUnit) :
  forall b, NoCompleteTag isLt isGt (stripFrom isLt isGt b s).
Proof.
  induction s as [| c rest IH]; intros b; simpl.
  - intros [| x before] c0 after Heq; discriminate.
  - destruct b.
    + destruct (isGt c); apply IH.
    + destruct (isLt c && existsb isGt rest) eqn:Hcond; [apply IH |].
      apply NoCompleteTag_cons; [apply IH |].
      intros Hlt. rewrite Hlt in Hcond. simpl in Hcond.
      now apply stripFrom_no_gt.
Qed.

Lemma stripTags_fixed (s : list CodeUnit) :
  NoCompleteTag isLt isGt s -> stripTags isLt isGt s = s.
Proof.
  unfold stripTags.
  induction s as [| c rest IH]; intros Hs; simpl; [reflexivity |].
  assert (Hcond : isLt c && existsb isGt rest = false).
  { destruct (isLt c) eqn:Hlt; [| reflexivity]. simpl.
    now apply (Hs [] c rest). }
  rewrite Hcond. f_equal. apply IH. now apply (NoCompleteTag_tail c).
Qed.

Lemma NoCompleteTag_firstn n (s : list CodeUnit) :
  NoCompleteTag isLt isGt s -> NoCompleteTag isLt isGt (firstn n s).
Proof.
  intros Hs before c after Heq Hlt.
  assert (Hsplit : s = before ++ c :: (after ++ skipn n s)).
  { rewrite <- (firstn_skipn n s) at 1. rewrite Heq.
    now rewrite <- app_assoc. }
  pose proof (Hs before c (after ++ skipn n s) Hsplit Hlt) as Hno.
  rewrite existsb_app in Hno. now apply orb_false_iff in Hno.
Qed.

Lemma no_lt_NoCompleteTag (s : list CodeUnit) :
  existsb isLt s = false -> NoCompleteTag isLt isGt s.
Proof.
  intros Hno before c after Heq Hlt.
  assert (existsb isLt s = true).
  { apply existsb_exists. exists c. split; [| exact Hlt].
    rewrite Heq. apply in_or_app. right. now left. }
  congruence.
Qed.

End DescriptionFacts.

(** X23. The description [generateMetadata] derives from a non-empty
    overview has at most 100 code units and holds no complete tag (no [<]
    with a [>] after it).  Stripping is the identity on a text without
    complete tag, in particular on a text without [<], whose description
    is its first 100 code units, and stripping twice is stripping once.
    Without overview, or with an empty one, the description is the
    fallback text. *)
Theorem metadataDescription_properties
        (CodeUnit : Type) (isLt isGt : CodeUnit -> bool)
        (fallback : list CodeUnit) :
  (forall c rest,
     let description :=
       metadataDescription isLt isGt (Some (c :: rest)) fallback in
     (List.length description <= 100)%nat
     /\ NoCompleteTag isLt isGt description
     /\ (existsb isLt (c :: rest) = false ->
         description = firstn 100 (c :: rest)))
  /\ (forall s, NoCompleteTag isLt isGt s -> stripTags isLt isGt s = s)
  /\ (forall s, stripTags isLt isGt (stripTags isLt isGt s)
                = stripTags isLt isGt s)
  /\ metadataDescription isLt isGt None fallback = fallback
  /\ metadataDescription isLt isGt (Some []) fallback = fallback.
Proof.
  split; [| split; [| split; [| split]]].
  - intros c rest description. unfold description, metadataDescription.
    split; [apply firstn_le_length |].
    split.
    + apply NoCompleteTag_firstn. apply stripFrom_NoCompleteTag.
    + intros Hno. f_equal. apply stripTags_fixed.
      now apply no_lt_NoCompleteTag.
  - apply stripTags_fixed.
  - intros s. apply stripTags_fixed. apply stripFrom_NoCompleteTag.
  - reflexivity.
  - reflexivity.
Qed.

Lemma metadataDescription_properties_witness :
  metadataDescription asciiLt asciiGt
                      (Some (list_ascii_of_string "no markup here"))
                      (list_ascii_of_string "fallback")
  = firstn 100 (list_ascii_of_string "no markup here").
Proof.
  apply (proj2 (proj2 (proj1 (metadataDescription_properties
                                ascii asciiLt asciiGt
                                (list_ascii_of_string "fallback"))
                             "n"%char
                             (list_ascii_of_string "o markup here")))).
  reflexivity.
Defined.

(** Stripping on a text with markup, a stray [<] and a [<] inside a tag. *)
Example stripTags_markup :
  string_of_list_ascii
    (stripTags asciiLt asciiGt
               (list_ascii_of_string "<p>Old <b>palace</b> a<b, <x<y>open 9 < 18"))
  = "Old palace aopen 9 < 18".
Proof. vm_compute. reflexivity. Qed.

(* ================================================================== *)
(** * Facts: the route [app/api/tour] *)

Section ClientStatus.

Variable Item : Type.
Variable network : nat -> Url -> NetOutcome Item.
Variable env : Env.
Variables lo hi : Z.
Hypothesis Hnet : statusesWithin network lo hi.

Ltac client_cases :=
  repeat match goal with
         | |- context [if ?b then _ else _] => destruct b eqn:?
         | |- context [match body ?r with _ => _ end] => destruct (body r) eqn:?
         | |- context [match item ?d with _ => _ end] => destruct (item d) eqn:?
         | |- context [match ?l with [] => _ | _ :: _ => _ end] =>
             destruct l eqn:?
         end.

Ltac open_client :=
  cbv [getAreaCode getAreaBasedList searchKeyword getDetailCommon
       getDetailIntro getDetailImage getDetailPetTour try_catch bind];
  cbv zeta.

Ltac run_client :=
  cbv [json parseApiResponse normalizeToArray firstOr itemFalsy
       rethrowWrapped ret throw try_catch bind isNotFound isItemsMissing
       statusCode isTourApiError exn_message andb negb fst snd].

(** The status codes [request] can hand on. *)
Lemma request_status endpoint params t :
  match fst (request network env endpoint params t) with
  | Returned r => lo <= status r <= hi /\ status r < 400
  | Thrown e =>
      isTourApiError e = true
      /\ match statusCode e with
         | Some c => lo <= c <= hi /\ 400 <= c
         | None => True
         end
  end.
Proof.
  destruct (getApiKey env) as [key | e] eqn:Hkey.
  - rewrite (request_with_url Item network env endpoint params t _
               (buildUrl_with_key env endpoint params key Hkey)).
    unfold fetchWithRetry, defaultMaxRetries.
    destruct (retryLoop_run Item network
                {| path := BASE_URL +++ endpoint;
                   query := filterParams (spread (serviceParams key) params) |}
                3 3%nat 0 None t) as [k [_ [_ Hout]]]; [reflexivity |].
    change (Z.to_nat (3 + 1)) with 4%nat.
    destruct (fst (retryLoop network 4 _ 3 0 None t)) as [r | e].
    + destruct Hout as [Hr Hlow]. split; [exact (Hnet _ _ _ Hr) | exact Hlow].
    + destruct Hout as [Hty Hst]. split; [exact Hty |].
      destruct (statusCode e) as [c |]; [| exact I].
      destruct Hst as [Hc [r [Hr <-]]]. pose proof (Hnet _ _ _ Hr). lia.
  - rewrite (request_without_key Item network env endpoint params t e Hkey).
    simpl. rewrite (getApiKey_throws env e Hkey). simpl. auto.
Qed.

(** The status codes an endpoint client can throw with. *)
Lemma endpointThrown_status (c : EndpointCall) (t : Trace) (e : Exn) :
  endpointThrown network env c t = Some e ->
  isTourApiError e = true
  /\ match statusCode e with
     | Some s => s = 404 \/ (lo <= s <= hi /\ ~ 200 <= s <= 299)
     | None => True
     end.
Proof.
  set (P := fun e : Exn =>
              isTourApiError e = true
              /\ match statusCode e with
                 | Some s => s = 404 \/ (lo <= s <= hi /\ ~ 200 <= s <= 299)
                 | None => True
                 end).
  change (endpointThrown network env c t = Some e -> P e).
  destruct c as [p | p | p | p | p | p | p];
    unfold endpointThrown, thrownBy; open_client;
    match goal with
    | |- context [request network env ?ep ?o t] =>
        pose proof (request_status ep o t) as Hreq;
        destruct (request network env ep o t) as [[response | [m s o' | m]] t']
    end;
    cbn [fst snd] in Hreq;
    try (destruct Hreq as [Hty Hreq]; try discriminate Hty);
    run_client; client_cases; run_client; client_cases;
    intros H; try discriminate H; injection H as <-;
    subst P; cbv beta; (split; [reflexivity |]); cbn [statusCode];
    try exact I; try (left; reflexivity);
    try (destruct s; [right; cbn [statusCode] in Hreq; lia | exact I]);
    right;
    match goal with
    | Hok : ok ?r = false |- _ =>
        unfold ok in Hok; apply Bool.andb_false_iff in Hok;
        rewrite Z.leb_gt, Z.leb_gt in Hok; lia
    | Hok : (if ok ?r then false else true) = true |- _ =>
        unfold ok in Hok;
        destruct ((200 <=? status r) && (status r <=? 299))
          eqn:Hb; [discriminate Hok |];
        apply Bool.andb_false_iff in Hb;
        rewrite Z.leb_gt, Z.leb_gt in Hb; lia
    end.
Qed.

End ClientStatus.

Section RouteFacts.

Variable Item : Type.
Variable network : nat -> Url -> NetOutcome Item.
Variable env : Env.
Variables handleAreaCode handleAreaBasedList handleSearch
  : SearchParams -> M Trace (HttpResponse Item).

Lemma optionalParam_None searchParams key :
  optionalParam searchParams key = None ->
  truthy (assocGet key searchParams) = false.
Proof.
  unfold optionalParam.
  destruct (truthy (assocGet key searchParams)) eqn:Htr; [| reflexivity].
  intros H. rewrite H in Htr. discriminate Htr.
Qed.

Lemma optionalParam_Some searchParams key v :
  optionalParam searchParams key = Some v ->
  assocGet key searchParams = Some v
  /\ truthy (assocGet key searchParams) = true.
Proof.
  unfold optionalParam.
  destruct (truthy (assocGet key searchParams)) eqn:Htr; [| discriminate].
  auto.
Qed.

Lemma getQueryParam_optional searchParams key :
  getQueryParam searchParams key false
  = Returned (optionalParam searchParams key).
Proof. reflexivity. Qed.

Lemma getQueryParam_required searchParams key :
  getQueryParam searchParams key true
  = match optionalParam searchParams key with
    | Some v => Returned (Some v)
    | None => Thrown (JsError ("Missing required parameter: " +++ key))
    end.
Proof.
  unfold getQueryParam, optionalParam. cbv zeta.
  destruct (truthy (assocGet key searchParams)) eqn:Htr; cbn [andb negb].
  - destruct (assocGet key searchParams); [reflexivity | discriminate Htr].
  - reflexivity.
Qed.

Lemma requireParam_Some searchParams key v (t : Trace) :
  optionalParam searchParams key = Some v ->
  requireParam (Some v) key t = (Returned v, t).
Proof.
  intros H. destruct (optionalParam_Some _ _ _ H) as [Hget Htr].
  unfold requireParam. rewrite Hget in Htr. now rewrite Htr.
Qed.

(** A missing required parameter is a 400 with its own message. *)
Lemma handleError_missing key :
  handleError (JsError ("Missing required parameter: " +++ key))
  = Returned (badRequest (Item := Item)
                         ("Missing required parameter: " +++ key)).
Proof. reflexivity. Qed.

Lemma GET_without_endpoint searchParams t :
  optionalParam searchParams "endpoint" = None ->
  GET network env handleAreaCode handleAreaBasedList handleSearch
      searchParams t
  = (Returned (badRequest "Missing required parameter: endpoint"), t).
Proof.
  intros H. apply optionalParam_None in H.
  unfold GET, try_catch. cbv zeta.
  destruct (assocGet "endpoint" searchParams) as [e |]; [| reflexivity].
  rewrite H. reflexivity.
Qed.

Lemma GET_unknown_endpoint searchParams t e :
  optionalParam searchParams "endpoint" = Some e ->
  ~ In e (listRoutes ++ detailRoutes) ->
  GET network env handleAreaCode handleAreaBasedList handleSearch
      searchParams t
  = (Returned (badRequest ("Unknown endpoint: " +++ e)), t).
Proof.
  intros H Hnot. destruct (optionalParam_Some _ _ _ H) as [Hget Htr].
  unfold GET, try_catch. cbv zeta. rewrite Hget in *. rewrite Htr.
  cbn [negb].
  repeat match goal with
         | |- context [String.eqb e ?s] =>
             destruct (String.eqb_spec e s) as [-> | _];
             [exfalso; apply Hnot; cbn; tauto |]
         end.
  reflexivity.
Qed.

Lemma GET_detail_route searchParams t e :
  optionalParam searchParams "endpoint" = Some e ->
  In e detailRoutes ->
  GET network env handleAreaCode handleAreaBasedList handleSearch
      searchParams t
  = try_catch (detailHandler network env e searchParams)
              (fun error => lift (handleError error)) t.
Proof.
  intros H Hin. destruct (optionalParam_Some _ _ _ H) as [Hget Htr].
  unfold GET, detailHandler. cbv zeta. rewrite Hget in *.
  unfold try_catch. rewrite Htr. cbn [negb].
  cbn in Hin.
  destruct Hin as [<- | [<- | [<- | [<- | []]]]]; reflexivity.
Qed.

Lemma GET_without_contentId searchParams t e :
  optionalParam searchParams "endpoint" = Some e ->
  In e detailRoutes ->
  optionalParam searchParams "contentId" = None ->
  GET network env handleAreaCode handleAreaBasedList handleSearch
      searchParams t
  = (Returned (badRequest "Missing required parameter: contentId"), t).
Proof.
  intros H Hin Hid. rewrite (GET_detail_route searchParams t e H Hin).
  cbn in Hin.
  destruct Hin as [<- | [<- | [<- | [<- | []]]]];
    unfold detailHandler; cbn [String.eqb Ascii.eqb Bool.eqb];
    unfold handleDetailCommon, handleDetailIntro, handleDetailImage,
      handleDetailPet, try_catch, bind, lift;
    rewrite (getQueryParam_required searchParams "contentId"), Hid;
    reflexivity.
Qed.

Lemma GET_intro_without_type searchParams t id :
  optionalParam searchParams "endpoint" = Some "detail/intro" ->
  optionalParam searchParams "contentId" = Some id ->
  optionalParam searchParams "contentTypeId" = None ->
  GET network env handleAreaCode handleAreaBasedList handleSearch
      searchParams t
  = (Returned (badRequest "Missing required parameter: contentTypeId"), t).
Proof.
  intros H Hid Hty.
  rewrite (GET_detail_route searchParams t _ H) by (cbn; tauto).
  unfold detailHandler; cbn [String.eqb Ascii.eqb Bool.eqb].
  unfold handleDetailIntro, try_catch, bind, lift.
  rewrite (getQueryParam_required searchParams "contentId"), Hid.
  rewrite (getQueryParam_required searchParams "contentTypeId"), Hty.
  reflexivity.
Qed.

(** A query with the required parameters reaches the client, and the
    answer of the route is that of the client. *)
Lemma GET_detail_call searchParams t c :
  routeCall searchParams = Some c ->
  GET network env handleAreaCode handleAreaBasedList handleSearch
      searchParams t
  = match endpointData network env c t with
    | (Returned d, t') =>
        (Returned {| http_status := 200; http_body := Success d |}, t')
    | (Thrown error, t') => (handleError error, t')
    end.
Proof.
  unfold routeCall.
  destruct (optionalParam searchParams "endpoint") as [e |] eqn:He;
    [| discriminate].
  destruct (optionalParam searchParams "contentId") as [id |] eqn:Hid;
    [| discriminate].
  destruct (String.eqb_spec e "detail/common") as [-> | _].
  { intros [= <-].
    rewrite (GET_detail_route searchParams t _ He) by (cbn; tauto).
    unfold detailHandler; cbn [String.eqb Ascii.eqb Bool.eqb].
    unfold handleDetailCommon, try_catch, bind at 1, lift at 1.
    rewrite (getQueryParam_required searchParams "contentId"), Hid.
    unfold bind at 1. rewrite (requireParam_Some _ _ _ t Hid).
    unfold bind, lift. rewrite !getQueryParam_optional.
    unfold endpointData, dataOf, respond, ret.
    destruct (getDetailCommon network env _ t) as [[x | error] t'];
      reflexivity. }
  destruct (String.eqb_spec e "detail/intro") as [-> | _].
  { destruct (optionalParam searchParams "contentTypeId") as [ty |] eqn:Hty;
      [| discriminate].
    intros [= <-].
    rewrite (GET_detail_route searchParams t _ He) by (cbn; tauto).
    unfold detailHandler; cbn [String.eqb Ascii.eqb Bool.eqb].
    unfold handleDetailIntro, try_catch, bind at 1, lift at 1.
    rewrite (getQueryParam_required searchParams "contentId"), Hid.
    unfold bind at 1, lift at 1.
    rewrite (getQueryParam_required searchParams "contentTypeId"), Hty.
    unfold bind at 1. rewrite (requireParam_Some _ _ _ t Hid).
    unfold bind at 1. rewrite (requireParam_Some _ _ _ t Hty).
    unfold bind, endpointData, dataOf, respond, ret.
    destruct (getDetailIntro network env _ t) as [[x | error] t'];
      reflexivity. }
  destruct (String.eqb_spec e "detail/image") as [-> | _].
  { intros [= <-].
    rewrite (GET_detail_route searchParams t _ He) by (cbn; tauto).
    unfold detailHandler; cbn [String.eqb Ascii.eqb Bool.eqb].
    unfold handleDetailImage, try_catch, bind at 1, lift at 1.
    rewrite (getQueryParam_required searchParams "contentId"), Hid.
    unfold bind at 1. rewrite (requireParam_Some _ _ _ t Hid).
    unfold bind, lift. rewrite !getQueryParam_optional.
    unfold endpointData, dataOf, respond, ret.
    destruct (getDetailImage network env _ t) as [[x | error] t'];
      reflexivity. }
  destruct (String.eqb_spec e "detail/pet") as [-> | _]; [| discriminate].
  intros [= <-].
  rewrite (GET_detail_route searchParams t _ He) by (cbn; tauto).
  unfold detailHandler; cbn [String.eqb Ascii.eqb Bool.eqb].
  unfold handleDetailPet, try_catch, bind at 1, lift at 1.
  rewrite (getQueryParam_required searchParams "contentId"), Hid.
  unfold bind at 1. rewrite (requireParam_Some _ _ _ t Hid).
  unfold bind, endpointData, dataOf, respond, ret.
  destruct (getDetailPetTour network env _ t) as [[x | error] t'];
    reflexivity.
Qed.

Lemma endpointData_thrown c t error t' :
  endpointData network env c t = (Thrown error, t') ->
  endpointThrown network env c t = Some error.
Proof.
  destruct c as [p | p | p | p | p | p | p];
    unfold endpointData, endpointThrown, thrownBy, dataOf;
    match goal with
    | |- context [match ?call with _ => _ end] =>
        destruct call as [[x | e0] t0]
    end;
    cbn [fst]; intros [= <- _]; reflexivity.
Qed.

(** A [TourApiError] is answered with its status, or 500, and its
    message. *)
Lemma handleError_TourApiError (error : Exn) :
  isTourApiError error = true ->
  200 <= orElse (statusCode error) 500 <= 599 ->
  handleError error
  = Returned {| http_status := orElse (statusCode error) 500;
                http_body := Failure (Item := Item) (exn_message error)
                               (orElse (statusCode error) 500) |}.
Proof.
  destruct error as [m s o | m]; [| discriminate].
  intros _ Hs. cbn [statusCode exn_message] in *.
  unfold handleError, jsonResponse. cbv zeta.
  replace ((200 <=? orElse s 500) && (orElse s 500 <=? 599)) with true;
    [reflexivity |].
  symmetry. apply Bool.andb_true_iff. rewrite !Z.leb_le. lia.
Qed.

(** Every query whose [endpoint] is one of the four detail routes is
    either short of a required parameter or reaches a client. *)
Lemma routeCall_cases searchParams e :
  optionalParam searchParams "endpoint" = Some e ->
  In e detailRoutes ->
  optionalParam searchParams "contentId" = None
  \/ (e = "detail/intro"
      /\ (exists id, optionalParam searchParams "contentId" = Some id)
      /\ optionalParam searchParams "contentTypeId" = None)
  \/ exists c, routeCall searchParams = Some c.
Proof.
  intros He Hin. unfold routeCall. rewrite He.
  destruct (optionalParam searchParams "contentId") as [id |] eqn:Hid;
    [| now left].
  right. cbn in Hin.
  destruct Hin as [<- | [<- | [<- | [<- | []]]]];
    cbn [String.eqb Ascii.eqb Bool.eqb]; try (right; eexists; reflexivity).
  destruct (optionalParam searchParams "contentTypeId") as [ty |] eqn:Hty.
  - right. eexists. reflexivity.
  - left. repeat split. now exists id.
Qed.

End RouteFacts.

Section RouteClients.

Variable Item : Type.
Variable network : nat -> Url -> NetOutcome Item.
Variable env : Env.

Ltac open_client :=
  cbv [getAreaCode getAreaBasedList searchKeyword getDetailCommon
       getDetailIntro getDetailImage getDetailPetTour try_catch bind];
  cbv zeta.

Ltac run_client :=
  cbv [json parseApiResponse normalizeToArray firstOr itemFalsy
       rethrowWrapped ret throw try_catch bind isNotFound isItemsMissing
       statusCode isTourApiError exn_message andb negb fst snd].

(** Without a credential every client throws the configuration error
    before any request. *)
Lemma endpointData_without_key (c : EndpointCall) (t : Trace) e :
  getApiKey env = Thrown e ->
  endpointData network env c t = (Thrown missingKeyError, t).
Proof.
  intros Hkey. pose proof (getApiKey_throws env e Hkey) as ->.
  destruct c as [p | p | p | p | p | p | p];
    unfold endpointData, dataOf; open_client;
    rewrite (request_without_key Item network env _ _ t _ Hkey);
    reflexivity.
Qed.

(** An upstream 404 on the first request, for the four detail clients. *)
Lemma endpointData_upstream_404 (c : EndpointCall) (t : Trace) key r :
  getApiKey env = Returned key ->
  network (attempts t) (endpointUrl key c) = NetResponse r ->
  status r = 404 ->
  match c with
  | CallDetailPetTour _ =>
      endpointData network env c t
      = (Returned DataNull, t ++ [EvFetch (endpointUrl key c)])
  | CallDetailCommon _ | CallDetailIntro _ | CallDetailImage _ =>
      endpointData network env c t
      = (Thrown upstream404Error, t ++ [EvFetch (endpointUrl key c)])
  | _ => True
  end.
Proof.
  intros Hkey Hnet Hst.
  destruct c as [p | p | p | p | p | p | p]; try exact I;
    unfold endpointUrl, endpointPath, endpointObject in *;
    unfold endpointData, dataOf; open_client;
    rewrite (request_4xx Item network env _ _ t _ r
               (buildUrl_with_key env _ _ key Hkey) Hnet)
      by (rewrite Hst; lia);
    rewrite Hst; reflexivity.
Qed.

End RouteClients.

(** X24. The route answers a request it cannot serve with a 400 and
    makes no request to the provider: when [endpoint] is absent or
    empty, when it names none of the seven endpoints, when a detail
    route comes without [contentId], and when [detail/intro] comes with
    [contentId] but without [contentTypeId].  The message names the
    missing parameter or the unknown endpoint. *)
Theorem route_rejects_invalid_request
        (Item : Type) (network : nat -> Url -> NetOutcome Item) (env : Env)
        (handleAreaCode handleAreaBasedList handleSearch
           : SearchParams -> M Trace (HttpResponse Item))
        (searchParams : SearchParams) (t : Trace) :
  (optionalParam searchParams "endpoint" = None ->
   GET network env handleAreaCode handleAreaBasedList handleSearch
       searchParams t
   = (Returned (badRequest "Missing required parameter: endpoint"), t))
  /\ (forall e,
        optionalParam searchParams "endpoint" = Some e ->
        ~ In e (listRoutes ++ detailRoutes) ->
        GET network env handleAreaCode handleAreaBasedList handleSearch
            searchParams t
        = (Returned (badRequest ("Unknown endpoint: " +++ e)), t))
  /\ (forall e,
        optionalParam searchParams "endpoint" = Some e ->
        In e detailRoutes ->
        optionalParam searchParams "contentId" = None ->
        GET network env handleAreaCode handleAreaBasedList handleSearch
            searchParams t
        = (Returned (badRequest "Missing required parameter: contentId"), t))
  /\ (forall id,
        optionalParam searchParams "endpoint" = Some "detail/intro" ->
        optionalParam searchParams "contentId" = Some id ->
        optionalParam searchParams "contentTypeId" = None ->
        GET network env handleAreaCode handleAreaBasedList handleSearch
            searchParams t
        = (Returned (badRequest "Missing required parameter: contentTypeId"),
           t)).
Proof.
  repeat split.
  - apply GET_without_endpoint.
  - intros e. apply GET_unknown_endpoint.
  - intros e. apply GET_without_contentId.
  - intros id. apply GET_intro_without_type.
Qed.

Lemma route_rejects_invalid_request_witness :
  GET (alwaysItems (ItemArray [])) sampleEnv
      sampleListHandler sampleListHandler sampleListHandler
      (detailQuery "detail/image" "") []
  = (Returned (badRequest "Missing required parameter: contentId"), []).
Proof.
  apply (proj1 (proj2 (proj2
           (route_rejects_invalid_request
              string (alwaysItems (ItemArray [])) sampleEnv
              sampleListHandler sampleListHandler sampleListHandler
              (detailQuery "detail/image" "") [])))
           "detail/image").
  - reflexivity.
  - simpl. tauto.
  - reflexivity.
Defined.





(** X27. An upstream 404 reaches the caller of the route differently:
    [detail/pet] answers 200 with [null] data, while [detail/common],
    [detail/intro] and [detail/image] answer 404 with the message of the
    fetcher.  In each case the provider was asked exactly once. *)
Theorem route_upstream_404
        (Item : Type) (network : nat -> Url -> NetOutcome Item) (env : Env)
        (handleAreaCode handleAreaBasedList handleSearch
           : SearchParams -> M Trace (HttpResponse Item))
        (searchParams : SearchParams) (t : Trace) (c : EndpointCall)
        (key : string) (r : Response Item) :
  routeCall searchParams = Some c ->
  getApiKey env = Returned key ->
  network (attempts t) (endpointUrl key c) = NetResponse r ->
  status r = 404 ->
  GET network env handleAreaCode handleAreaBasedList handleSearch
      searchParams t
  = (Returned (upstream404Answer c), t ++ [EvFetch (endpointUrl key c)]).
Proof.
  intros Hcall Hkey Hnet Hst.
  rewrite (GET_detail_call Item network env _ _ _ searchParams t c Hcall).
  pose proof (endpointData_upstream_404 Item network env c t key r
                Hkey Hnet Hst) as Hd.
  assert (Hdetail : match c with
                    | CallDetailCommon _ | CallDetailIntro _
                    | CallDetailImage _ | CallDetailPetTour _ => True
                    | _ => False
                    end).
  { revert Hcall. unfold routeCall.
    destruct (optionalParam searchParams "endpoint"); [| discriminate].
    destruct (optionalParam searchParams "contentId"); [| discriminate].
    repeat match goal with
           | |- context [if ?b then _ else _] => destruct b
           | |- context [match ?o with Some _ => _ | None => _ end] =>
               destruct o
           end; intros [= <-] || discriminate; exact I. }
  destruct c as [p | p | p | p | p | p | p]; try contradiction;
    rewrite Hd; reflexivity.
Qed.

Lemma route_upstream_404_witness :
  GET (alwaysStatus 404 "Not Found") sampleEnv
      sampleListHandler sampleListHandler sampleListHandler
      (detailQuery "detail/pet" "125266") []
  = (Returned {| http_status := 200; http_body := Success DataNull |},
     [EvFetch (endpointUrl "server-key" (CallDetailPetTour samplePetParams))]).
Proof.
  apply (route_upstream_404
           string (alwaysStatus 404 "Not Found") sampleEnv
           sampleListHandler sampleListHandler sampleListHandler
           (detailQuery "detail/pet" "125266") []
           (CallDetailPetTour samplePetParams) "server-key"
           (statusOnly 404 "Not Found"));
    reflexivity.
Defined.

(** X28. Without a credential in the environment every detail route
    answers 500 with the configuration message of the client, and the
    provider is not asked. *)
Theorem route_without_credential
        (Item : Type) (network : nat -> Url -> NetOutcome Item) (env : Env)
        (handleAreaCode handleAreaBasedList handleSearch
           : SearchParams -> M Trace (HttpResponse Item))
        (searchParams : SearchParams) (t : Trace) (c : EndpointCall)
        (e : Exn) :
  routeCall searchParams = Some c ->
  getApiKey env = Thrown e ->
  GET network env handleAreaCode handleAreaBasedList handleSearch
      searchParams t
  = (Returned {| http_status := 500;
                 http_body := Failure missingKeyMessage 500 |}, t).
Proof.
  intros Hcall Hkey.
  rewrite (GET_detail_call Item network env _ _ _ searchParams t c Hcall).
  rewrite (endpointData_without_key Item network env c t e Hkey).
  reflexivity.
Qed.

Lemma route_without_credential_witness :
  GET (alwaysItems (ItemArray [])) noKeyEnv
      sampleListHandler sampleListHandler sampleListHandler
      (detailQuery "detail/image" "125266") []
  = (Returned {| http_status := 500;
                 http_body := Failure missingKeyMessage 500 |}, []).
Proof.
  apply (route_without_credential
           string (alwaysItems (ItemArray [])) noKeyEnv
           sampleListHandler sampleListHandler sampleListHandler
           (detailQuery "detail/image" "125266") []
           (CallDetailImage {| im_contentId := "125266"; imageYN := None;
                               subImageYN := None |})
           missingKeyError);
    reflexivity.
Defined.
